(** * mitaller: the workshop application [app.py]

    A shallow embedding of the document store, the entity handlers and the
    quote engine of [src/app.py], and the properties of that code that the
    specification states.

    Layout: the Python builtins the code relies on ([Module Py]), the TinyDB
    tables it stores documents in ([Module TinyDB]), the application itself
    ([Module app]), then the lemmas and theorems.

    Modelling conventions.
    - A Python [str] is a byte string (UTF-8); [strip], [upper], [lower] and
      [splitlines] follow CPython on ASCII text and leave other bytes alone.
    - A Python [float] is a binary64 primitive float; [int] is [Z].
    - A raised exception is a value [Raise e]; the store reached when it was
      raised is kept, as a request that ends in an error keeps what it had
      already written.
    - What the embedding does not cover (the [repr] of a float, the ordering
      of lists) raises [Unmodelled] rather than returning a made-up value. *)

From Stdlib Require Import ZArith Floats Ascii String List.
From stdpp Require Import base strings list gmap pretty sorting.

Set Default Proof Using "Type".
Set Warnings "-register-all".
Open Scope Z_scope.

(** ** Exceptions and results *)

Inductive exn :=
| KeyError | TypeError | ValueError | AttributeError | OverflowError
| BadRequest | Unmodelled.

Inductive result (A : Type) :=
| Ok (a : A)
| Raise (e : exn).
Arguments Ok {A} a.
Arguments Raise {A} e.

Definition rbind {A B} (r : result A) (k : A -> result B) : result B :=
  match r with
  | Ok a => k a
  | Raise e => Raise e
  end.

Notation "'let*' x := c 'in' k" := (rbind c (fun x => k))
  (at level 10, x pattern, c at level 100, k at level 200).

Fixpoint rmap {A B} (f : A -> result B) (l : list A) : result (list B) :=
  match l with
  | [] => Ok []
  | x :: l' => let* y := f x in let* ys := rmap f l' in Ok (y :: ys)
  end.

(** ** Values

    What a document field can hold once it has been through the JSON storage:
    [None], an int, a float, a str, a list, or a dict with str keys (kept in
    the order of its keys). The application stores no [bool]: its flags are
    the ints 0 and 1. *)

Inductive value :=
| VNone
| VInt (n : Z)
| VFloat (x : float)
| VStr (s : string)
| VList (xs : list value)
| VDict (kvs : list (string * value)).

(** [d.get(k)] on a nested dict *)
Fixpoint dict_get (k : string) (kvs : list (string * value)) : option value :=
  match kvs with
  | [] => None
  | (k', v) :: kvs' => if String.eqb k k' then Some v else dict_get k kvs'
  end.

Module Py.

(** *** Strings *)

Definition code (a : ascii) : N := N_of_ascii a.

(** [str.isspace] on an ASCII character: TAB..CR, FS..US and the space. *)
Definition is_space (a : ascii) : bool :=
  ((9 <=? code a) && (code a <=? 13) || (28 <=? code a) && (code a <=? 32))%N.

Fixpoint lstrip (s : string) : string :=
  match s with
  | String a s' => if is_space a then lstrip s' else s
  | EmptyString => EmptyString
  end.

Fixpoint rstrip (s : string) : string :=
  match s with
  | String a s' =>
      match rstrip s' with
      | EmptyString => if is_space a then EmptyString else String a EmptyString
      | r => String a r
      end
  | EmptyString => EmptyString
  end.

(** [s.strip()] *)
Definition strip (s : string) : string := rstrip (lstrip s).

Definition to_upper (a : ascii) : ascii :=
  if ((97 <=? code a) && (code a <=? 122))%N then ascii_of_N (code a - 32) else a.

Definition to_lower (a : ascii) : ascii :=
  if ((65 <=? code a) && (code a <=? 90))%N then ascii_of_N (code a + 32) else a.

Fixpoint smap (f : ascii -> ascii) (s : string) : string :=
  match s with
  | String a s' => String (f a) (smap f s')
  | EmptyString => EmptyString
  end.

(** [s.upper()], [s.lower()] *)
Definition upper : string -> string := smap to_upper.
Definition lower : string -> string := smap to_lower.

(** The ASCII line boundaries of [str.splitlines]: LF, VT, FF, CR, FS, GS, RS. *)
Definition is_linebreak (a : ascii) : bool :=
  ((10 <=? code a) && (code a <=? 13) || (28 <=? code a) && (code a <=? 30))%N.

(** [cr] records that the character just consumed was a CR, so that a LF
    right after it belongs to the same boundary; [cur] is the line being read. *)
Fixpoint splitlines_go (cr : bool) (cur : string) (s : string) : list string :=
  match s with
  | EmptyString => if String.eqb cur "" then [] else [cur]
  | String a s' =>
      if cr && (code a =? 10)%N then splitlines_go false cur s'
      else if is_linebreak a then cur :: splitlines_go (code a =? 13)%N "" s'
      else splitlines_go false (cur +:+ String a "") s'
  end.

(** [s.splitlines()] *)
Definition splitlines (s : string) : list string := splitlines_go false "" s.

(** ["\n".join(lines)] *)
Fixpoint join_lines (ls : list string) : string :=
  match ls with
  | [] => ""
  | [l] => l
  | l :: ls' => l +:+ String "010" (join_lines ls')
  end.

(** *** Numbers *)

Definition round_half_even (num den : Z) : Z :=
  let q := num / den in
  let r := num mod den in
  match 2 * r ?= den with
  | Lt => q
  | Gt => q + 1
  | Eq => if Z.even q then q else q + 1
  end.

(** The integer nearest to [m * 2^e * 100], ties to even: the digits that
    CPython's correctly rounded [dtoa] gives for two decimals. *)
Definition centi (m : positive) (e : Z) : Z :=
  if 0 <=? e then Zpos m * 2 ^ e * 100
  else round_half_even (Zpos m * 100) (2 ^ (- e)).

Definition signed_zero (s : bool) : float := if s then (-0)%float else 0%float.

(** The binary64 nearest to [± n / d] (ties to even), for [0 <= n], [0 < d]. *)
Definition float_of_ratio (s : bool) (n d : Z) : float :=
  match n, d with
  | Zpos p, Zpos q => SF2Prim (SFdiv prec emax (S754_finite s p 0) (S754_finite false q 0))
  | _, _ => signed_zero s
  end.

(** [round(x, 2)] on a float: the decimal [dtoa] yields, read back by [strtod]. *)
Definition float_round2 (x : float) : float :=
  match Prim2SF x with
  | S754_finite s m e => if 0 <=? e then x else float_of_ratio s (centi m e) 100
  | _ => x
  end.

Definition two_digits (n : Z) : string :=
  if n <? 10 then "0" +:+ pretty n else pretty n.

(** [f"{x:.2f}"] on a float *)
Definition float_fmt2 (x : float) : string :=
  match Prim2SF x with
  | S754_zero s => (if s then "-" else "") +:+ "0.00"
  | S754_infinity s => if s then "-inf" else "inf"
  | S754_nan => "nan"
  | S754_finite s m e =>
      let n := centi m e in
      (if s then "-" else "") +:+ pretty (n / 100) +:+ "." +:+ two_digits (n mod 100)
  end.

(** [float(n)] for an int [n] *)
Definition float_of_Z (n : Z) : result float :=
  match binary_normalize prec emax n 0 false with
  | S754_infinity _ => Raise OverflowError
  | f => Ok (SF2Prim f)
  end.

(** [int(x)] for a float [x]: truncation towards zero. *)
Definition Z_of_float (x : float) : result Z :=
  match Prim2SF x with
  | S754_zero _ => Ok 0
  | S754_infinity _ => Raise OverflowError
  | S754_nan => Raise ValueError
  | S754_finite s m e =>
      let a := if 0 <=? e then Zpos m * 2 ^ e else Zpos m / 2 ^ (- e) in
      Ok (if s then - a else a)
  end.

(** [n ? x] for an int [n] and a float [x], exactly; [None] when [x] is a NaN. *)
Definition Z_float_compare (n : Z) (x : float) : option comparison :=
  match Prim2SF x with
  | S754_zero _ => Some (n ?= 0)
  | S754_infinity s => Some (if s then Gt else Lt)
  | S754_nan => None
  | S754_finite s m e =>
      let v := if s then Zneg m else Zpos m in
      Some (if 0 <=? e then n ?= v * 2 ^ e else n * 2 ^ (- e) ?= v)
  end.

(** *** Reading numbers from text *)

Definition digit_of (a : ascii) : option Z :=
  if ((48 <=? code a) && (code a <=? 57))%N then Some (Z.of_N (code a) - 48) else None.

Definition is_underscore (a : ascii) : bool := (code a =? 95)%N.

(** A run of decimal digits in which single underscores may stand between
    two digits. [prev] says that the previous character was a digit. *)
Fixpoint digits_go (acc : Z) (prev : bool) (s : string) : option Z :=
  match s with
  | EmptyString => if prev then Some acc else None
  | String a s' =>
      match digit_of a with
      | Some d => digits_go (10 * acc + d) true s'
      | None => if is_underscore a && prev then digits_go acc false s' else None
      end
  end.

Definition digits (s : string) : option Z := digits_go 0 false s.

Definition split_sign (s : string) : bool * string :=
  match s with
  | String "-" s' => (true, s')
  | String "+" s' => (false, s')
  | _ => (false, s)
  end.

(** [int(s)] for a str [s] *)
Definition int_of_string (s : string) : result Z :=
  let (neg, body) := split_sign (strip s) in
  match digits body with
  | Some n => Ok (if neg then - n else n)
  | None => Raise ValueError
  end.

(** The longest prefix made of digits and underscores, and the rest. *)
Fixpoint span_digits (s : string) : string * string :=
  match s with
  | String a s' =>
      if is_underscore a || bool_decide (is_Some (digit_of a))
      then let (p, r) := span_digits s' in (String a p, r)
      else (EmptyString, s)
  | EmptyString => (EmptyString, EmptyString)
  end.

Fixpoint count_digits (s : string) : Z :=
  match s with
  | String a s' => (if is_underscore a then 0 else 1) + count_digits s'
  | EmptyString => 0
  end.

(** The binary64 nearest to [± m * 10^e]. *)
Definition float_of_decimal (s : bool) (m e : Z) : float :=
  if (0 <=? e)%Z then
    match (m * 10 ^ e)%Z with
    | Z0 => signed_zero s
    | v => SF2Prim (binary_normalize prec emax (if s then - v else v)%Z 0 s)
    end
  else float_of_ratio s m (10 ^ (- e))%Z.

(** The exponent part: empty, or [e] or [E], an optional sign and digits. *)
Definition exponent_of (s : string) : option Z :=
  match s with
  | EmptyString => Some 0
  | String a s' =>
      if (code (to_lower a) =? 101)%N then
        let (neg, body) := split_sign s' in
        match digits body with
        | Some n => Some (if neg then - n else n)
        | None => None
        end
      else None
  end.

(** A decimal numeral: digits, an optional point and digits (one of the two
    runs may be empty, not both), an optional exponent. *)
Definition decimal_of (s : string) : option (Z * Z) :=
  let (ip, r1) := span_digits s in
  let (fp, r2) :=
    match r1 with
    | String "." r => span_digits r
    | _ => (EmptyString, r1)
    end in
  let has_point := match r1 with String "." _ => true | _ => false end in
  let mant :=
    match ip, fp with
    | EmptyString, EmptyString => None
    | EmptyString, _ => digits fp
    | _, EmptyString => digits ip
    | _, _ =>
        match digits ip, digits fp with
        | Some i, Some f => Some (i * 10 ^ count_digits fp + f)
        | _, _ => None
        end
    end in
  match mant, exponent_of r2 with
  | Some m, Some e => Some (m, e - count_digits fp)
  | _, _ => None
  end.

(** [float(s)] for a str [s] *)
Definition float_of_string (s : string) : result float :=
  let (neg, body) := split_sign (strip s) in
  let low := lower body in
  if String.eqb low "inf" || String.eqb low "infinity" then
    Ok (if neg then neg_infinity else infinity)
  else if String.eqb low "nan" then Ok nan
  else
    match decimal_of body with
    | Some (m, e) => Ok (float_of_decimal neg m e)
    | None => Raise ValueError
    end.

(** *** Operations on values *)

(** [bool(v)] *)
Definition truthy (v : value) : bool :=
  match v with
  | VNone => false
  | VInt n => negb (n =? 0)
  | VFloat x => negb (PrimFloat.eqb x 0)
  | VStr s => negb (String.eqb s "")
  | VList xs => match xs with [] => false | _ => true end
  | VDict kvs => match kvs with [] => false | _ => true end
  end.

(** [a == b] *)
Fixpoint eq (a b : value) : bool :=
  match a, b with
  | VNone, VNone => true
  | VInt x, VInt y => x =? y
  | VInt x, VFloat y | VFloat y, VInt x =>
      match Z_float_compare x y with Some Eq => true | _ => false end
  | VFloat x, VFloat y => PrimFloat.eqb x y
  | VStr s, VStr t => String.eqb s t
  | VList xs, VList ys =>
      (fix eq_list (xs ys : list value) : bool :=
         match xs, ys with
         | [], [] => true
         | x :: xs', y :: ys' => eq x y && eq_list xs' ys'
         | _, _ => false
         end) xs ys
  | VDict d1, VDict d2 =>
      (length d1 =? length d2)%nat &&
      (fix eq_dict (d : list (string * value)) : bool :=
         match d with
         | [] => true
         | (k, v) :: d' =>
             match dict_get k d2 with
             | Some v' => eq v v' && eq_dict d'
             | None => false
             end
         end) d1
  | _, _ => false
  end.

(** [a < b], as [list.sort] asks it of two keys. *)
Definition lt (a b : value) : result bool :=
  match a, b with
  | VInt x, VInt y => Ok (x <? y)
  | VFloat x, VFloat y => Ok (PrimFloat.ltb x y)
  | VInt x, VFloat y =>
      Ok (match Z_float_compare x y with Some Lt => true | _ => false end)
  | VFloat x, VInt y =>
      Ok (match Z_float_compare y x with Some Gt => true | _ => false end)
  | VStr s, VStr t => Ok (String.ltb s t)
  | VList _, VList _ => Raise Unmodelled
  | _, _ => Raise TypeError
  end.

(** [a + b] where [a] is a number (the accumulator of [sum], a rounded total). *)
Definition add (a b : value) : result value :=
  match a, b with
  | VInt x, VInt y => Ok (VInt (x + y))
  | VInt x, VFloat y => let* fx := float_of_Z x in Ok (VFloat (fx + y))
  | VFloat x, VInt y => let* fy := float_of_Z y in Ok (VFloat (x + fy))
  | VFloat x, VFloat y => Ok (VFloat (x + y))
  | _, _ => Raise TypeError
  end.

(** [a * r] for a number [a] and a float [r]. *)
Definition mul_float (a : value) (r : float) : result value :=
  match a with
  | VInt x => let* fx := float_of_Z x in Ok (VFloat (fx * r))
  | VFloat x => Ok (VFloat (x * r))
  | _ => Raise TypeError
  end.

(** [sum(vs)]: the start value is the int 0 and the items are added from
    left to right, each addition rounded on its own (CPython 3.12 and later
    compensate the rounding errors of a sum of floats, which makes no
    difference when the partial sums are exact). *)
Definition sum (vs : list value) : result value :=
  fold_left (fun acc v => let* a := acc in add a v) vs (Ok (VInt 0)).

(** [round(v, 2)]: an int is returned as it is. *)
Definition round2 (v : value) : result value :=
  match v with
  | VInt n => Ok (VInt n)
  | VFloat x => Ok (VFloat (float_round2 x))
  | _ => Raise TypeError
  end.

(** [f"{v:.2f}"] *)
Definition fmt2 (v : value) : result string :=
  match v with
  | VInt n => let* x := float_of_Z n in Ok (float_fmt2 x)
  | VFloat x => Ok (float_fmt2 x)
  | VStr _ => Raise ValueError
  | _ => Raise TypeError
  end.

(** [f"{v}"]; the [repr] of a float, a list or a dict is not modelled. *)
Definition str (v : value) : result string :=
  match v with
  | VStr s => Ok s
  | VInt n => Ok (pretty n)
  | VNone => Ok "None"
  | _ => Raise Unmodelled
  end.

(** [int(v)] *)
Definition int (v : value) : result Z :=
  match v with
  | VInt n => Ok n
  | VFloat x => Z_of_float x
  | VStr s => int_of_string s
  | _ => Raise TypeError
  end.

(** *** Sorting

    [list.sort] is stable and compares with [<] only. The keys are computed
    first; with [reverse=True] CPython reverses the list, sorts it and
    reverses it again, which keeps equal keys in their original order. *)

Section Sort.
Context {A : Type}.

Fixpoint insert_sorted (x : value * A) (l : list (value * A)) : result (list (value * A)) :=
  match l with
  | [] => Ok [x]
  | y :: l' =>
      let* b := lt (fst y) (fst x) in
      if b then let* r := insert_sorted x l' in Ok (y :: r)
      else Ok (x :: l)
  end.

Fixpoint sort_keyed (l : list (value * A)) : result (list (value * A)) :=
  match l with
  | [] => Ok []
  | x :: l' => let* s := sort_keyed l' in insert_sorted x s
  end.

Definition sorted (key : A -> result value) (reverse : bool) (l : list A) : result (list A) :=
  let* ks := rmap (fun x => let* k := key x in Ok (k, x)) l in
  let* s := if reverse then let* r := sort_keyed (rev ks) in Ok (rev r)
            else sort_keyed ks in
  Ok (map snd s).
End Sort.

(** *** Substrings and products *)

(** [q in s] for two strs: [q] is a prefix of [s] or of what follows a
    character of [s]. *)
Fixpoint contains (q s : string) : bool :=
  String.prefix q s ||
  match s with
  | String _ s' => contains q s'
  | EmptyString => false
  end.

(** [a * b]. The product of two numbers; a str or a list repeated an int
    number of times is not modelled. *)
Definition mul (a b : value) : result value :=
  match a, b with
  | VInt x, VInt y => Ok (VInt (x * y))
  | VInt x, VFloat y => let* fx := float_of_Z x in Ok (VFloat (fx * y))
  | VFloat x, VInt y => let* fy := float_of_Z y in Ok (VFloat (x * fy))
  | VFloat x, VFloat y => Ok (VFloat (x * y))
  | VStr _, VInt _ | VInt _, VStr _ | VList _, VInt _ | VInt _, VList _ => Raise Unmodelled
  | _, _ => Raise TypeError
  end.

(** *** Tuples as sort keys *)

(** [a == b] between two items of a tuple. Two items that are the same
    object count as equal whatever they are: the test is not modelled for a
    NaN, nor for a list or a dict, which may hold one. *)
Definition same (a b : value) : result bool :=
  let plain v := match v with
                 | VFloat x => PrimFloat.eqb x x
                 | VList _ | VDict _ => false
                 | _ => true
                 end in
  if plain a && plain b then Ok (eq a b) else Raise Unmodelled.

(** [a < b] for two tuples of two items: the first items that differ decide. *)
Definition lt_pair (a b : value * value) : result bool :=
  let* e1 := same (fst a) (fst b) in
  if e1 then
    let* e2 := same (snd a) (snd b) in
    if e2 then Ok false else lt (snd a) (snd b)
  else lt (fst a) (fst b).

(** [list.sort] with keys that are compared by [lt]. *)
Section SortBy.
Context {K A : Type} (lt : K -> K -> result bool).

Fixpoint insert_by (x : K * A) (l : list (K * A)) : result (list (K * A)) :=
  match l with
  | [] => Ok [x]
  | y :: l' =>
      let* b := lt (fst y) (fst x) in
      if b then let* r := insert_by x l' in Ok (y :: r)
      else Ok (x :: l)
  end.

Fixpoint sort_by (l : list (K * A)) : result (list (K * A)) :=
  match l with
  | [] => Ok []
  | x :: l' => let* s := sort_by l' in insert_by x s
  end.

Definition sorted_by (key : A -> result K) (l : list A) : result (list A) :=
  let* ks := rmap (fun x => let* k := key x in Ok (k, x)) l in
  let* s := sort_by ks in
  Ok (map snd s).
End SortBy.

End Py.

(** ** TinyDB

    A database is a set of named tables; a table keeps its documents in the
    order they were inserted. The storage is the uncached [JSONStorage], so
    every read returns fresh documents: no document is shared between the
    database and its readers. *)

Abbreviation doc := (gmap string value).
Abbreviation docs := (list (gmap string value)).
Abbreviation storage := (gmap string (list (gmap string value))).

(** A dict literal. *)
Definition mkdoc (kvs : list (string * value)) : doc := list_to_map kvs.

Module TinyDB.

Definition query : Type := doc -> bool.

(** [Query().k == v]: a document without the field does not match. *)
Definition field_eq (k : string) (v : value) : query :=
  fun d => match d !! k with
           | Some x => Py.eq x v
           | None => false
           end.

(** [p & q] *)
Definition q_and (p q : query) : query := fun d => p d && q d.

(** [db.table(t)]: a table that was never written is empty. *)
Definition rows (db : storage) (t : string) : docs := default [] (db !! t).

Definition insert (t : string) (d : doc) (db : storage) : storage :=
  <[t := rows db t ++ [d]]> db.

(** [T.update(patch, cond)]: [dict.update] on every document that matches. *)
Definition update (t : string) (patch : doc) (cond : query) (db : storage) : storage :=
  <[t := map (fun d => if cond d then patch ∪ d else d) (rows db t)]> db.

Definition remove (t : string) (cond : query) (db : storage) : storage :=
  <[t := List.filter (fun d => negb (cond d)) (rows db t)]> db.

(** [T.get(cond)]: the first document that matches. *)
Definition get (t : string) (cond : query) (db : storage) : option doc :=
  List.find cond (rows db t).

Definition search (t : string) (cond : query) (db : storage) : docs :=
  List.filter cond (rows db t).

Definition all (t : string) (db : storage) : docs := rows db t.

End TinyDB.

(** ** The running application

    The state a request handler works on: the database, the messages flashed
    so far, and the number of times the clock has been read. Handlers are
    serialised: the lock [_db_lock] is not modelled. *)

Record world := World {
  store : storage;
  flashes : list (string * string);
  ticks : nat
}.

Definition M (A : Type) : Type := world -> result A * world.

Definition ret {A} (a : A) : M A := fun w => (Ok a, w).

Definition bind {A B} (m : M A) (k : A -> M B) : M B :=
  fun w => match m w with
           | (Ok a, w') => k a w'
           | (Raise e, w') => (Raise e, w')
           end.

Definition lift {A} (r : result A) : M A := fun w => (r, w).

Notation "x <- c ;; k" := (bind c (fun x => k))
  (at level 100, c at next level, k at level 200, right associativity).

Definition db_read {A} (f : storage -> A) : M A := fun w => (Ok (f (store w)), w).

Definition db_write (f : storage -> storage) : M unit :=
  fun w => (Ok tt, World (f (store w)) (flashes w) (ticks w)).

(** [flash(message, category)] *)
Definition flash (message category : string) : M unit :=
  fun w => (Ok tt, World (store w) (flashes w ++ [(message, category)]) (ticks w)).

Fixpoint for_each {A} (l : list A) (body : A -> M unit) : M unit :=
  match l with
  | [] => ret tt
  | x :: l' => _ <- body x ;; for_each l' body
  end.

(** What a handler answers with. The templates are not modelled: a rendered
    page is the template's name and the context it is given. *)
Inductive response :=
| Redirect (endpoint : string) (args : list (string * Z))
| Render (template : string) (context : list (string * value)).

Inductive http_method := GET | POST.

(** ** Dicts and the request form *)

(** [d.get(k)], [d.get(k, v)], [d[k]] on a document *)
Definition dget (d : doc) (k : string) : value := default VNone (d !! k).
Definition dget_or (d : doc) (k : string) (v : value) : value := default v (d !! k).
Definition subscript (d : doc) (k : string) : result value :=
  match d !! k with
  | Some v => Ok v
  | None => Raise KeyError
  end.

(** The same on a value that should be a dict ([it.get(k, v)], [i[k]]). *)
Definition item_get (it : value) (k : string) (v : value) : result value :=
  match it with
  | VDict kvs => Ok (default v (dict_get k kvs))
  | _ => Raise AttributeError
  end.

Definition item_subscript (it : value) (k : string) : result value :=
  match it with
  | VDict kvs =>
      match dict_get k kvs with
      | Some v => Ok v
      | None => Raise KeyError
      end
  | _ => Raise TypeError
  end.

(** [for x in v]: a list gives its items, a dict its keys, a str its characters. *)
Definition iter (v : value) : result (list value) :=
  match v with
  | VList xs => Ok xs
  | VDict kvs => Ok (map (fun kv => VStr (fst kv)) kvs)
  | VStr s => Ok (map (fun a => VStr (String a "")) (list_ascii_of_string s))
  | _ => Raise TypeError
  end.

(** [x or y] *)
Definition por (x y : value) : value := if Py.truthy x then x else y.

(** A document handed to a template. *)
Definition doc_value (d : doc) : value := VDict (map_to_list d).

Definition opt_int (o : option Z) : value :=
  match o with
  | Some n => VInt n
  | None => VNone
  end.

(** [request.form]: a multi-dict of str values, in the order they were sent. *)
Abbreviation form := (list (string * string)).

(** [frm.getlist(k)] *)
Definition form_getlist (frm : form) (k : string) : list string :=
  map snd (List.filter (fun kv => String.eqb (fst kv) k) frm).

(** [frm.get(k)] *)
Definition form_get (frm : form) (k : string) : option string := head (form_getlist frm k).

(** [frm[k]]: a missing field is a 400 response. *)
Definition form_item (frm : form) (k : string) : result string :=
  match form_get frm k with
  | Some v => Ok v
  | None => Raise BadRequest
  end.

(** [frm.get(k, type=int)]: [None] when the field is missing or is no int. *)
Definition form_get_int (frm : form) (k : string) : option Z :=
  match form_get frm k with
  | Some v => match Py.int_of_string v with Ok n => Some n | Raise _ => None end
  | None => None
  end.

(** [int(frm.get(k) or 0)] *)
Definition form_int_or_0 (frm : form) (k : string) : result Z :=
  match form_get frm k with
  | Some (String a s) => Py.int_of_string (String a s)
  | _ => Ok 0
  end.

(** [float(s or 0)] *)
Definition float_or_0 (s : option string) : result float :=
  match s with
  | Some (String a s) => Py.float_of_string (String a s)
  | _ => Ok 0%float
  end.

(** ** Loops, searches and counters *)

(** A loop that appends one item per round to a list. *)
Fixpoint collect {A B} (l : list A) (body : A -> M B) : M (list B) :=
  match l with
  | [] => ret []
  | x :: l' => y <- body x ;; ys <- collect l' body ;; ret (y :: ys)
  end.

(** [[x for x in l if test(x)]] where the test may raise. *)
Fixpoint rfilter {A} (test : A -> result bool) (l : list A) : result (list A) :=
  match l with
  | [] => Ok []
  | x :: l' =>
      let* b := test x in
      let* r := rfilter test l' in
      Ok (if b then x :: r else r)
  end.

(** [v.lower()]: only a str has the method. *)
Definition lower_of (v : value) : result string :=
  match v with
  | VStr s => Ok (Py.lower s)
  | _ => Raise AttributeError
  end.

(** [q in a.lower() or q in b.lower() or ...]: the tests are made in order
    and stop at the first that holds. *)
Fixpoint matches_any (q : string) (vs : list value) : result bool :=
  match vs with
  | [] => Ok false
  | v :: vs' =>
      let* s := lower_of v in
      if Py.contains q s then Ok true else matches_any q vs'
  end.

(** [(request.args.get('q') or '').strip().lower()] *)
Definition search_term (args : form) : string :=
  Py.lower (Py.strip (default "" (form_get args "q"))).

(** A dict from values to ints, as far as it is used to count: the keys in
    the order they were first set. A list or a dict is no key; neither is a
    NaN here, which a dict finds by identity and [==] does not. *)
Definition hash_key (k : value) : result value :=
  match k with
  | VList _ | VDict _ => Raise TypeError
  | VFloat x => if PrimFloat.eqb x x then Ok k else Raise Unmodelled
  | _ => Ok k
  end.

(** [m.get(k, 0)] *)
Fixpoint counter_get (m : list (value * Z)) (k : value) : Z :=
  match m with
  | [] => 0
  | (k', n) :: m' => if Py.eq k' k then n else counter_get m' k
  end.

(** [m[k] = n] *)
Fixpoint counter_set (m : list (value * Z)) (k : value) (n : Z) : list (value * Z) :=
  match m with
  | [] => [(k, n)]
  | (k', n') :: m' => if Py.eq k' k then (k', n) :: m' else (k', n') :: counter_set m' k n
  end.

(** What a handler does to the session of the browser: [login_user] stores
    the id of the user in it, [logout_user] takes it out. *)
Inductive session_op :=
| SessionKeep
| SessionLogin (user_id : string)
| SessionLogout.

(** [jsonify(ok=..., **fields), status] *)
Record json_response := Json {
  json_ok : bool;
  json_fields : list (string * value);
  json_status : Z
}.

(** ** [app.py] *)

Module app.

(** [class User]: a user document, read through its properties. *)
Module User.
Definition id (d : doc) : result string := let* v := subscript d "id" in Py.str v.
Definition username (d : doc) : value := dget_or d "username" (VStr "").
Definition role (d : doc) : value := dget_or d "role" (VStr "mecanico").
Definition full_name (d : doc) : value := dget_or d "full_name" (username d).
End User.

Section App.

(** [clock n] is what the [n]-th call of
    [datetime.now(timezone.utc).isoformat()] returns. *)
Variable clock : nat -> string.

(** [strftime_local s with_time]: [datetime.fromisoformat] on [s] (with a
    final Z read as +00:00), moved to the host's time zone and printed as
    dd/mm/YYYY, with HH:MM when [with_time]; [None] when [s] is no ISO date. *)
Variable strftime_local : string -> bool -> option string.

(** werkzeug's [generate_password_hash(password)], with the salt it draws,
    and [check_password_hash(pwhash, password)], which raises on a hash made
    by a method it does not know. *)
Variable generate_password_hash : string -> string -> string.
Variable check_password_hash : string -> string -> result bool.

Definition utcnow_isoformat : M string :=
  fun w => (Ok (clock (ticks w)), World (store w) (flashes w) (S (ticks w))).

Definition TABLES : list string :=
  ["users"; "clients"; "vehicles"; "jobs"; "notes"; "timelogs"; "seq"; "quotes"].

Definition SEQ_KEY : string := "global_seq".

(** [Query().key == SEQ_KEY] *)
Definition seq_query : TinyDB.query := TinyDB.field_eq "key" (VStr SEQ_KEY).

(** [not row] for the [Optional] result of [T.get]. *)
Definition no_row (row : option doc) : bool :=
  match row with
  | Some d => (size d =? 0)%nat
  | None => true
  end.

Definition _ensure_seq : M unit :=
  row <- db_read (TinyDB.get "seq" seq_query) ;;
  if no_row row
  then db_write (TinyDB.insert "seq" (mkdoc [("key", VStr SEQ_KEY); ("value", VInt 1)]))
  else ret tt.

Definition _next_id : M Z :=
  row <- db_read (TinyDB.get "seq" seq_query) ;;
  row <- (if no_row row then
            _ <- db_write (TinyDB.insert "seq"
                             (mkdoc [("key", VStr SEQ_KEY); ("value", VInt 1)])) ;;
            db_read (TinyDB.get "seq" seq_query)
          else ret row) ;;
  nid <- lift (match row with
               | Some r => let* v := subscript r "value" in Py.int v
               | None => Raise TypeError
               end) ;;
  _ <- db_write (TinyDB.update "seq" (mkdoc [("value", VInt (nid + 1))]) seq_query) ;;
  ret nid.

(** *** CRUD helpers *)

Definition insert (table : string) (d : doc) : M Z :=
  nid <- _next_id ;;
  _ <- db_write (TinyDB.insert table (<["id" := VInt nid]> d)) ;;
  ret nid.

Definition update (table : string) (doc_id : value) (patch : doc) : M unit :=
  db_write (TinyDB.update table patch (TinyDB.field_eq "id" doc_id)).

Definition remove (table : string) (doc_id : value) : M unit :=
  db_write (TinyDB.remove table (TinyDB.field_eq "id" doc_id)).

Definition get_ (table : string) (doc_id : value) : M (option doc) :=
  db_read (TinyDB.get table (TinyDB.field_eq "id" doc_id)).

Definition all_ (table : string) : M docs := db_read (TinyDB.all table).

(** [find(table, **where)]: [expr] stays [None] when no keyword is given.
    The keywords are field names ([getattr(q, k)] is the query of the field
    [k]), not names of methods of tinydb's [Query]. *)
Definition find (table : string) (where_ : list (string * value)) : M docs :=
  let expr :=
    fold_left (fun (expr : option TinyDB.query) (kv : string * value) =>
                 let e := TinyDB.field_eq (fst kv) (snd kv) in
                 Some (match expr with
                       | None => e
                       | Some x => TinyDB.q_and x e
                       end))
              where_ None in
  match expr with
  | Some e => db_read (TinyDB.search table e)
  | None => ret []
  end.

(** *** Users *)

(** [load_user(uid)]: the user of the id kept in the session. *)
Definition load_user (uid : string) : M (option doc) :=
  i <- lift (Py.int_of_string uid) ;;
  u <- get_ "users" (VInt i) ;;
  ret (if no_row u then None else u).

(** The administrator the module creates when it is loaded and none exists. *)
Definition seed_admin (salt : string) : M unit :=
  rows <- find "users" [("username", VStr "admin")] ;;
  match rows with
  | [] =>
      let password_hash := generate_password_hash salt "admin123" in
      now <- utcnow_isoformat ;;
      _ <- insert "users" (mkdoc [
        ("username", VStr "admin");
        ("full_name", VStr "Administrador");
        ("role", VStr "admin");
        ("password_hash", VStr password_hash);
        ("created_at", VStr now)]) ;;
      ret tt
  | _ => ret tt
  end.

(** What loading the module does to the database. *)
Definition startup (salt : string) : M unit :=
  _ <- _ensure_seq ;; seed_admin salt.

(** [_fmt_dt(iso, with_time)] *)
Definition _fmt_dt (iso : value) (with_time : bool) : value :=
  if negb (Py.truthy iso) then VStr ""
  else match iso with
       | VStr s => match strftime_local s with_time with
                   | Some r => VStr r
                   | None => iso
                   end
       | _ => iso
       end.

Definition fecha_f (iso : value) : value := _fmt_dt iso false.
Definition fechahora_f (iso : value) : value := _fmt_dt iso true.

Definition APP_NAME : string := "APSMOTORSPORTS".

Definition inject_globals : M (list (string * value)) :=
  cs <- all_ "clients" ;;
  vs <- all_ "vehicles" ;;
  js <- all_ "jobs" ;;
  ret [("APP_NAME", VStr APP_NAME);
       ("total_clients", VInt (Z.of_nat (length cs)));
       ("total_vehicles", VInt (Z.of_nat (length vs)));
       ("total_jobs", VInt (Z.of_nat (length js)))].

(** *** Auth *)

Definition login : M response := ret (Render "login.html" []).

Definition login_post (frm : form) : M (response * session_op) :=
  let username := Py.strip (default "" (form_get frm "username")) in
  let password := default "" (form_get frm "password") in
  rows <- find "users" [("username", VStr username)] ;;
  let u := head rows in
  ok <- lift (match u with
              | Some d =>
                  if (size d =? 0)%nat then Ok false
                  else match dget_or d "password_hash" (VStr "") with
                       | VStr h => check_password_hash h password
                       | _ => Raise Unmodelled
                       end
              | None => Ok false
              end) ;;
  match u, ok with
  | Some d, true =>
      user_id <- lift (User.id d) ;;
      name <- lift (Py.str (dget_or d "full_name" (VStr username))) ;;
      _ <- flash ("¡Bienvenido, " +:+ name +:+ "!") "success" ;;
      ret (Redirect "dashboard" [], SessionLogin user_id)
  | _, _ =>
      _ <- flash "Credenciales inválidas" "danger" ;;
      ret (Redirect "login" [], SessionKeep)
  end.

Definition logout : M (response * session_op) :=
  _ <- flash "Sesión cerrada" "info" ;;
  ret (Redirect "login" [], SessionLogout).

(** *** Dashboard *)

(** [lambda j: j.get('intake_date','')] *)
Definition intake_date_key (j : doc) : result value := Ok (dget_or j "intake_date" (VStr "")).

(** [j.copy()] with its vehicle and its client. *)
Definition with_vehicle_client (j v c : doc) : doc :=
  <["client" := doc_value c]> (<["vehicle" := doc_value v]> j).

Definition dashboard : M response :=
  jobs <- all_ "jobs" ;;
  jobs <- lift (Py.sorted intake_date_key true jobs) ;;
  let jobs := take 5 jobs in
  jobs_fmt <- collect jobs (fun j =>
    v <- get_ "vehicles" (dget j "vehicle_id") ;;
    let v := default ∅ v in
    c <- get_ "clients" (dget v "client_id") ;;
    let c := default ∅ c in
    ret (with_vehicle_client j v c)) ;;
  vs <- all_ "vehicles" ;;
  let vehicles := drop (length vs - 5)%nat vs in
  vehicles_fmt <- collect vehicles (fun v =>
    c <- get_ "clients" (dget v "client_id") ;;
    let c := default ∅ c in
    ret (<["client_name" := dget_or c "full_name" (VStr "")]> v)) ;;
  ret (Render "dashboard.html"
         [("jobs", VList (map doc_value jobs_fmt));
          ("vehicles", VList (map doc_value vehicles_fmt))]).

(** [lambda c: c.get('full_name','').lower()] *)
Definition full_name_key (c : doc) : result value :=
  match dget_or c "full_name" (VStr "") with
  | VStr s => Ok (VStr (Py.lower s))
  | _ => Raise AttributeError
  end.

Definition sorted_clients : M docs :=
  cs <- all_ "clients" ;; lift (Py.sorted full_name_key false cs).

(** [any(v for v in all_('vehicles') if v.get('plate') == plate)]: a
    document that has a plate is not empty, so it is true. *)
Definition plate_taken (plate : string) (vs : docs) : bool :=
  existsb (fun v => Py.eq (dget v "plate") (VStr plate) && negb (size v =? 0)%nat) vs.

(** *** Clients *)

(** The number of vehicles per [client_id]. *)
Definition count_vehicles (vids : docs) : result (list (value * Z)) :=
  fold_left (fun acc v =>
               let* m := acc in
               let* k := hash_key (dget v "client_id") in
               Ok (counter_set m k (counter_get m k + 1)))
            vids (Ok []).

Definition clients_list (args : form) : M response :=
  let q := search_term args in
  clients <- all_ "clients" ;;
  clients <- lift (if negb (String.eqb q "") then
                     rfilter (fun c =>
                       matches_any q [dget_or c "full_name" (VStr "");
                                      por (dget_or c "phone" (VStr "")) (VStr "");
                                      por (dget_or c "email" (VStr "")) (VStr "")])
                       clients
                   else Ok clients) ;;
  vids <- all_ "vehicles" ;;
  vehicles_by_client <- lift (count_vehicles vids) ;;
  clients <- lift (rmap (fun c =>
                      let* i := subscript c "id" in
                      let* k := hash_key i in
                      Ok (<["vehicles_count" := VInt (counter_get vehicles_by_client k)]> c))
                    clients) ;;
  clients <- lift (Py.sorted full_name_key false clients) ;;
  ret (Render "clients_list.html"
         [("clients", VList (map doc_value clients)); ("q", VStr q)]).

Definition clients_new (method : http_method) (frm : form) : M response :=
  match method with
  | POST =>
      full_name <- lift (let* s := form_item frm "full_name" in Ok (Py.strip s)) ;;
      let phone := Py.strip (default "" (form_get frm "phone")) in
      let email := Py.strip (default "" (form_get frm "email")) in
      let brand := Py.strip (default "" (form_get frm "brand")) in
      let model := Py.strip (default "" (form_get frm "model")) in
      let plate := Py.upper (Py.strip (default "" (form_get frm "plate"))) in
      let color := Py.strip (default "" (form_get frm "color")) in
      if String.eqb full_name "" || String.eqb plate "" then
        _ <- flash "Nombre completo y Placa son obligatorios." "danger" ;;
        ret (Redirect "clients_new" [])
      else
        vs <- all_ "vehicles" ;;
        if plate_taken plate vs then
          _ <- flash "Ya existe un vehículo con esa placa." "danger" ;;
          ret (Redirect "clients_new" [])
        else
          now <- utcnow_isoformat ;;
          client_id <- insert "clients" (mkdoc [
            ("full_name", VStr full_name);
            ("phone", VStr phone);
            ("email", VStr email);
            ("created_at", VStr now)]) ;;
          _ <- insert "vehicles" (mkdoc [
            ("client_id", VInt client_id);
            ("brand", VStr brand);
            ("model", VStr model);
            ("plate", VStr plate);
            ("color", VStr color);
            ("year", VNone);
            ("vin", VStr "")]) ;;
          _ <- flash "Cliente y vehículo creados" "success" ;;
          ret (Redirect "clients_list" [])
  | GET =>
      ret (Render "clients_form.html" [("client", VNone); ("action", VStr "Crear")])
  end.

Definition clients_edit (client_id : Z) (method : http_method) (frm : form) : M response :=
  cli <- get_ "clients" (VInt client_id) ;;
  match cli with
  | None =>
      _ <- flash "Cliente no encontrado" "danger" ;;
      ret (Redirect "clients_list" [])
  | Some cli =>
      match method with
      | POST =>
          full_name <- lift (let* s := form_item frm "full_name" in Ok (Py.strip s)) ;;
          let phone := Py.strip (default "" (form_get frm "phone")) in
          let email := Py.strip (default "" (form_get frm "email")) in
          _ <- update "clients" (VInt client_id) (mkdoc [
            ("full_name", VStr full_name);
            ("phone", VStr phone);
            ("email", VStr email)]) ;;
          _ <- flash "Cliente actualizado" "success" ;;
          ret (Redirect "clients_list" [])
      | GET =>
          ret (Render "clients_form.html" [("client", doc_value cli); ("action", VStr "Editar")])
      end
  end.

Definition clients_delete (client_id : Z) : M response :=
  _ <- remove "clients" (VInt client_id) ;;
  vs <- all_ "vehicles" ;;
  _ <- for_each (List.filter (fun v => Py.eq (dget v "client_id") (VInt client_id)) vs)
        (fun v =>
           js <- all_ "jobs" ;;
           js <- lift (rmap (fun j => let* vid := subscript v "id" in
                                      Ok (Py.eq (dget j "vehicle_id") vid, j)) js) ;;
           _ <- for_each (map snd (List.filter fst js))
                 (fun j => jid <- lift (subscript j "id") ;; remove "jobs" jid) ;;
           vid <- lift (subscript v "id") ;;
           remove "vehicles" vid) ;;
  _ <- flash "Cliente eliminado" "info" ;;
  ret (Redirect "clients_list" []).

(** *** Vehicles *)

(** [lambda v: (v.get('plate',''), v.get('client_name',''))] *)
Definition plate_name_key (v : doc) : result (value * value) :=
  Ok (dget_or v "plate" (VStr ""), dget_or v "client_name" (VStr "")).

Definition vehicles_list (args : form) : M response :=
  let q := search_term args in
  vehicles <- all_ "vehicles" ;;
  vehicles <- collect vehicles (fun v =>
    c <- get_ "clients" (dget v "client_id") ;;
    let c := default ∅ c in
    ret (<["client_name" := dget_or c "full_name" (VStr "")]> v)) ;;
  vehicles <- lift (if negb (String.eqb q "") then
                      rfilter (fun v =>
                        matches_any q [dget_or v "plate" (VStr "");
                                       dget_or v "client_name" (VStr "");
                                       dget_or v "brand" (VStr "");
                                       dget_or v "model" (VStr "")])
                        vehicles
                    else Ok vehicles) ;;
  vehicles <- lift (Py.sorted_by Py.lt_pair plate_name_key vehicles) ;;
  ret (Render "vehicles_list.html"
         [("vehicles", VList (map doc_value vehicles)); ("q", VStr q)]).

(** [int(frm.get('year') or 0) or None] *)
Definition form_year (frm : form) : result value :=
  let* y := form_int_or_0 frm "year" in
  Ok (if y =? 0 then VNone else VInt y).

(** The fields of a vehicle read from the form, in the order the dict
    literal evaluates them. *)
Definition vehicle_fields (frm : form) (plate : string) : result doc :=
  let* cid := (let* s := form_item frm "client_id" in Py.int_of_string s) in
  let brand := Py.strip (default "" (form_get frm "brand")) in
  let model := Py.strip (default "" (form_get frm "model")) in
  let* year := form_year frm in
  let vin := Py.strip (default "" (form_get frm "vin")) in
  let color := Py.strip (default "" (form_get frm "color")) in
  Ok (mkdoc [
    ("client_id", VInt cid);
    ("plate", VStr plate);
    ("brand", VStr brand);
    ("model", VStr model);
    ("year", year);
    ("vin", VStr vin);
    ("color", VStr color)]).

Definition vehicles_new (method : http_method) (frm : form) : M response :=
  clients <- sorted_clients ;;
  match method with
  | POST =>
      plate <- lift (let* s := form_item frm "plate" in Ok (Py.strip (Py.upper s))) ;;
      vs <- all_ "vehicles" ;;
      if plate_taken plate vs then
        _ <- flash "Ya existe un vehículo con esa placa" "danger" ;;
        ret (Redirect "vehicles_new" [])
      else
        d <- lift (vehicle_fields frm plate) ;;
        _ <- insert "vehicles" d ;;
        _ <- flash "Vehículo creado" "success" ;;
        ret (Redirect "vehicles_list" [])
  | GET =>
      ret (Render "vehicles_form.html"
             [("vehicle", VNone); ("clients", VList (map doc_value clients));
              ("action", VStr "Crear")])
  end.



Definition vehicles_delete (vehicle_id : Z) : M response :=
  _ <- remove "vehicles" (VInt vehicle_id) ;;
  js <- all_ "jobs" ;;
  _ <- for_each (List.filter (fun j => Py.eq (dget j "vehicle_id") (VInt vehicle_id)) js)
        (fun j => jid <- lift (subscript j "id") ;; remove "jobs" jid) ;;
  _ <- flash "Vehículo eliminado" "info" ;;
  ret (Redirect "vehicles_list" []).

(** The last work order of a vehicle, for the forms. *)
Definition api_vehicle_info (vehicle_id : Z) : M json_response :=
  v <- get_ "vehicles" (VInt vehicle_id) ;;
  match v with
  | None => ret (Json false [] 404)
  | Some v =>
      c <- get_ "clients" (dget v "client_id") ;;
      let c := default ∅ c in
      js <- all_ "jobs" ;;
      let jobs := List.filter (fun j => Py.eq (dget j "vehicle_id") (VInt vehicle_id)) js in
      jobs <- lift (Py.sorted intake_date_key true jobs) ;;
      let last := head jobs in
      ret (Json true
             [("client_name", dget_or c "full_name" (VStr ""));
              ("last_job_date", match last with
                                | Some j => if (size j =? 0)%nat then VStr ""
                                            else dget_or j "intake_date" (VStr "")
                                | None => VStr ""
                                end)]
             200)
  end.

(** *** Work orders *)

Definition CHECKLIST : list string :=
  ["antenas"; "botiquin"; "documentos"; "encendedor"; "extintor"; "gato";
   "herramientas"; "llave1"; "llave2"; "llave_rueda"; "pisos";
   "rueda_repuesto"; "tag"; "tapas"; "triangulos"].

(** [cb(name)]: 1 when the box is ticked. *)
Definition cb (frm : form) (name : string) : value :=
  match form_get frm name with
  | Some v => VInt (if String.eqb v "on" then 1 else 0)
  | None => VInt 0
  end.

Definition jobs_list (args : form) : M response :=
  let q := search_term args in
  jobs <- all_ "jobs" ;;
  out <- collect jobs (fun j =>
    vid <- lift (subscript j "vehicle_id") ;;
    v <- get_ "vehicles" vid ;;
    let v := default ∅ v in
    c <- get_ "clients" (dget v "client_id") ;;
    let c := default ∅ c in
    ret (with_vehicle_client j v c)) ;;
  out <- lift (if negb (String.eqb q "") then
                 rfilter (fun j =>
                   let* hit := matches_any q [por (dget_or j "reason" (VStr "")) (VStr "");
                                              por (dget_or j "description" (VStr "")) (VStr "");
                                              por (dget_or j "status" (VStr "")) (VStr "")] in
                   if hit then Ok true
                   else
                     let* v := subscript j "vehicle" in
                     let* plate := item_get v "plate" (VStr "") in
                     let* hit := matches_any q [por plate (VStr "")] in
                     if hit then Ok true
                     else
                       let* c := subscript j "client" in
                       let* name := item_get c "full_name" (VStr "") in
                       matches_any q [por name (VStr "")])
                   out
               else Ok out) ;;
  out <- lift (Py.sorted intake_date_key true out) ;;
  ret (Render "jobs_list.html" [("jobs", VList (map doc_value out)); ("q", VStr q)]).

Definition jobs_new (uid : Z) (method : http_method) (frm : form) : M response :=
  vs <- all_ "vehicles" ;;
  vehicles <- lift (Py.sorted (fun v => Ok (dget_or v "plate" (VStr ""))) false vs) ;;
  match method with
  | POST =>
      vehicle_id <- lift (let* s := form_item frm "vehicle_id" in Py.int_of_string s) ;;
      let reason := Py.strip (default "" (form_get frm "reason")) in
      let description := Py.strip (default "" (form_get frm "description")) in
      let status := default "abierto" (form_get frm "status") in
      now <- utcnow_isoformat ;;
      odometer_km <- lift (let* k := form_int_or_0 frm "odometer_km" in
                           Ok (if k =? 0 then VNone else VInt k)) ;;
      let fuel_level := default "" (form_get frm "fuel_level") in
      jid <- insert "jobs" (mkdoc [
        ("vehicle_id", VInt vehicle_id);
        ("mechanic_id", VInt uid);
        ("reason", VStr reason);
        ("description", VStr description);
        ("status", VStr status);
        ("intake_date", VStr now);
        ("delivery_date", VNone);
        ("odometer_km", odometer_km);
        ("fuel_level", VStr fuel_level);
        ("checklist", VDict (map (fun k => (k, cb frm ("chk_" +:+ k))) CHECKLIST))]) ;;
      _ <- flash "OT creada" "success" ;;
      ret (Redirect "job_detail" [("job_id", jid)])
  | GET =>
      ret (Render "jobs_form.html" [("vehicles", VList (map doc_value vehicles))])
  end.

Definition job_change_status (job_id : Z) (frm : form) : M response :=
  let st := default "abierto" (form_get frm "status") in
  patch <- (if String.eqb st "entregado" then
              now <- utcnow_isoformat ;;
              ret (mkdoc [("status", VStr st); ("delivery_date", VStr now)])
            else ret (mkdoc [("status", VStr st)])) ;;
  _ <- update "jobs" (VInt job_id) patch ;;
  _ <- flash "Estado actualizado" "success" ;;
  ret (Redirect "job_detail" [("job_id", job_id)]).

Definition job_add_note (uid : Z) (job_id : Z) (frm : form) : M response :=
  let content := Py.strip (default "" (form_get frm "content")) in
  _ <- (if negb (String.eqb content "") then
          now <- utcnow_isoformat ;;
          _ <- insert "notes" (mkdoc [
            ("job_id", VInt job_id);
            ("user_id", VInt uid);
            ("content", VStr content);
            ("created_at", VStr now)]) ;;
          flash "Nota agregada" "success"
        else ret tt) ;;
  ret (Redirect "job_detail" [("job_id", job_id)]).

(** [lambda x: x.get('created_at','')] *)
Definition created_at_key (x : doc) : result value := Ok (dget_or x "created_at" (VStr "")).

Definition job_detail (job_id : Z) : M response :=
  j <- get_ "jobs" (VInt job_id) ;;
  match j with
  | None =>
      _ <- flash "OT no encontrada" "danger" ;;
      ret (Redirect "jobs_list" [])
  | Some j =>
      vid <- lift (subscript j "vehicle_id") ;;
      v <- get_ "vehicles" vid ;;
      let v := default ∅ v in
      c <- get_ "clients" (dget v "client_id") ;;
      let c := default ∅ c in
      let j2 := with_vehicle_client j v c in
      ns <- all_ "notes" ;;
      let notes := List.filter (fun n => Py.eq (dget n "job_id") (VInt job_id)) ns in
      notes <- lift (Py.sorted created_at_key true notes) ;;
      let j2 := <["notes" := VList (map doc_value notes)]> j2 in
      ret (Render "job_detail.html"
             [("job", doc_value j2); ("vehicle", doc_value v); ("client", doc_value c)])
  end.


(** [[x.strip() for x in s.splitlines() if x.strip()]] *)
Definition task_lines (s : string) : list string :=
  List.filter (fun x => negb (String.eqb x "")) (map Py.strip (Py.splitlines s)).


(** *** Quotes *)

(** [0.18] *)
Definition IGV_RATE : float := 0x1.70a3d70a3d70ap-3%float.

Fixpoint zip3 (ds qs ps : list string) : list (string * string * string) :=
  match ds, qs, ps with
  | d :: ds', q :: qs', p :: ps' => (d, q, p) :: zip3 ds' qs' ps'
  | _, _, _ => []
  end.

(** The [try] of the loop body: a field that is no number makes both 0.0. *)
Definition qty_price (q p : string) : float * float :=
  match float_or_0 (Some q), float_or_0 (Some p) with
  | Ok qf, Ok pf => (qf, pf)
  | _, _ => (0%float, 0%float)
  end.

Definition _parse_items_from_form (frm : form) : list value :=
  let descs := form_getlist frm "item_desc[]" in
  let qtys := form_getlist frm "item_qty[]" in
  let prices := form_getlist frm "item_price[]" in
  flat_map (fun '(d, q, p) =>
              let d := Py.strip d in
              if String.eqb d "" then []
              else let (qf, pf) := qty_price q p in
                   [VDict [("desc", VStr d); ("qty", VFloat qf); ("unit_price", VFloat pf);
                           ("total", VFloat (Py.float_round2 (qf * pf)))]])
           (zip3 descs qtys prices).

(** [sum(i['total'] for i in items)]: each total is read, then added. *)
Definition sum_totals (items : list value) : result value :=
  fold_left (fun acc i => let* a := acc in
                          let* t := item_subscript i "total" in
                          Py.add a t)
            items (Ok (VInt 0)).

Definition _totals (items : value) (require_invoice : bool) (igv_rate : float)
  : result (value * value * value) :=
  let* its := iter items in
  let* s := sum_totals its in
  let* subtotal := Py.round2 s in
  let* g := Py.mul_float subtotal (if require_invoice then igv_rate else 0%float) in
  let* igv := Py.round2 g in
  let* t := Py.add subtotal igv in
  let* total := Py.round2 t in
  Ok (subtotal, igv, total).

Definition META_KEYS : list string :=
  ["version"; "fecha"; "ruc"; "contacto"; "conductor"; "marca"; "modelo"; "serie";
   "serie_motor"; "combustible"; "kilometraje"; "entrega_tecnica"].

Definition _meta_from_form (frm : form) : value :=
  VDict (flat_map (fun k =>
                     let v := Py.strip (default "" (form_get frm ("meta_" +:+ k))) in
                     if String.eqb v "" then [] else [(k, VStr v)])
                  META_KEYS).

(** [(i.get('qty',0) or 0) * (i.get('unit_price',0) or 0)] *)
Definition line_amount (i : value) : result value :=
  let* q := item_get i "qty" (VInt 0) in
  let* p := item_get i "unit_price" (VInt 0) in
  Py.mul (por q (VInt 0)) (por p (VInt 0)).

(** [sum(... for i in items)]: each product is made, then added. *)
Definition sum_line_amounts (items : list value) : result value :=
  fold_left (fun acc i => let* a := acc in
                          let* x := line_amount i in
                          Py.add a x)
            items (Ok (VInt 0)).

(** One round of the loop of [quotes_list]: the totals a quote lacks are
    filled in; the three fallback values are computed whether the quote
    lacks them or not. *)
Definition with_totals (q : doc) : result doc :=
  let* items := iter (dget_or q "items" (VList [])) in
  let* s := sum_line_amounts items in
  let* st := Py.round2 s in
  let igv_rate := if Py.truthy (dget q "require_invoice") then IGV_RATE else 0%float in
  let q := <["subtotal" := dget_or q "subtotal" st]> q in
  let* sub := subscript q "subtotal" in
  let* g := Py.mul_float sub igv_rate in
  let* g := Py.round2 g in
  let q := <["igv" := dget_or q "igv" g]> q in
  let* sub := subscript q "subtotal" in
  let* igv := subscript q "igv" in
  let* t := Py.add sub igv in
  let* t := Py.round2 t in
  Ok (<["total" := dget_or q "total" t]> q).

Definition quotes_list : M response :=
  quotes <- all_ "quotes" ;;
  quotes <- lift (rmap with_totals quotes) ;;
  quotes <- lift (Py.sorted created_at_key true quotes) ;;
  ret (Render "quotes_list.html" [("quotes", VList (map doc_value quotes))]).

Definition quotes_new (args : form) : M response :=
  ret (Render "quotes_form.html" [("job_id", opt_int (form_get_int args "job_id"))]).

(** [frm.get('need_invoice') in ('1','on','true','yes')] *)
Definition need_invoice (frm : form) : bool :=
  match form_get frm "need_invoice" with
  | Some v => String.eqb v "1" || String.eqb v "on" || String.eqb v "true" || String.eqb v "yes"
  | None => false
  end.

Definition quotes_create (uid : Z) (frm : form) : M response :=
  let items := _parse_items_from_form frm in
  let require_invoice := if need_invoice frm then 1 else 0 in
  let client_name := Py.strip (default "" (form_get frm "client_name")) in
  let vehicle_lbl := Py.strip (default "" (form_get frm "vehicle")) in
  let services_txt := Py.strip (default "" (form_get frm "services")) in
  r <-
    (match items with
     | [] =>
         amount <- lift (float_or_0 (form_get frm "amount")) ;;
         ret (if Py.truthy (VFloat amount)
              then [VDict [("desc", VStr "Servicios"); ("qty", VFloat 1);
                           ("unit_price", VFloat amount);
                           ("total", VFloat (Py.float_round2 amount))]]
              else [],
              VNone, VNone)
     | _ =>
         ret (items, opt_int (form_get_int frm "client_id"),
              opt_int (form_get_int frm "vehicle_id"))
     end) ;;
  let '(items, client_id, vehicle_id) := r in
  t <- lift (_totals (VList items) (Py.truthy (VInt require_invoice)) IGV_RATE) ;;
  let '(subtotal, igv, total) := t in
  let job_id := opt_int (form_get_int frm "job_id") in
  let meta := _meta_from_form frm in
  now <- utcnow_isoformat ;;
  qid <- insert "quotes" (mkdoc [
    ("job_id", job_id);
    ("client_id", client_id);
    ("vehicle_id", vehicle_id);
    ("client_name", VStr client_name);
    ("vehicle_label", VStr vehicle_lbl);
    ("services_lines", VList (map VStr (task_lines services_txt)));
    ("require_invoice", VInt require_invoice);
    ("igv_rate", VFloat IGV_RATE);
    ("currency", VStr "PEN");
    ("items", VList items);
    ("subtotal", subtotal);
    ("igv", igv);
    ("total", total);
    ("meta", meta);
    ("created_at", VStr now);
    ("created_by", VInt uid)]) ;;
  _ <- flash "Cotización creada" "success" ;;
  ret (Redirect "quote_print" [("quote_id", qid)]).

(** [(q.get('meta',{}) or {}).get(k,'')] *)
Definition meta_get (q : doc) (k : string) : result value :=
  item_get (por (dget_or q "meta" (VDict [])) (VDict [])) k (VStr "").

Definition quote_print (quote_id : Z) : M response :=
  q <- get_ "quotes" (VInt quote_id) ;;
  match q with
  | None =>
      _ <- flash "Cotización no encontrada" "danger" ;;
      ret (Redirect "dashboard" [])
  | Some q =>
      let items := dget_or q "items" (VList []) in
      t <- lift (_totals items (Py.truthy (dget q "require_invoice")) IGV_RATE) ;;
      let '(subtotal, igv, total) := t in
      let q := <["total" := total]> (<["igv" := igv]> (<["subtotal" := subtotal]> q)) in
      v <- get_ "vehicles" (por (dget q "vehicle_id") (VInt 0)) ;;
      let v := default ∅ v in
      c <- get_ "clients" (por (dget q "client_id") (VInt 0)) ;;
      let c := default ∅ c in
      let c := if (size c =? 0)%nat && Py.truthy (dget q "client_name")
               then mkdoc [("full_name", dget q "client_name")]
               else c in
      v <- lift (if (size v =? 0)%nat && Py.truthy (dget q "vehicle_label")
                 then let* brand := meta_get q "marca" in
                      let* model := meta_get q "modelo" in
                      Ok (mkdoc [("plate", dget q "vehicle_label");
                                 ("brand", brand); ("model", model)])
                 else Ok v) ;;
      ret (Render "quote_print.html"
             [("quote", doc_value q); ("client", doc_value c); ("vehicle", doc_value v)])
  end.

Definition DUPLICATED_KEYS : list string :=
  ["job_id"; "client_id"; "vehicle_id"; "client_name"; "vehicle_label";
   "services_lines"; "require_invoice"; "igv_rate"; "currency"; "items"; "meta"].

Definition quote_duplicate (uid : Z) (quote_id : Z) : M response :=
  q <- get_ "quotes" (VInt quote_id) ;;
  match q with
  | None =>
      _ <- flash "Cotización no encontrada" "danger" ;;
      ret (Redirect "dashboard" [])
  | Some q =>
      let base := mkdoc (map (fun k => (k, dget q k)) DUPLICATED_KEYS) in
      t <- lift (_totals (dget_or base "items" (VList []))
                         (Py.truthy (dget base "require_invoice")) IGV_RATE) ;;
      let '(subtotal, igv, total) := t in
      now <- utcnow_isoformat ;;
      let base := mkdoc [("subtotal", subtotal); ("igv", igv); ("total", total);
                         ("created_at", VStr now); ("created_by", VInt uid)] ∪ base in
      new_id <- insert "quotes" base ;;
      _ <- flash ("Cotización duplicada #" +:+ pretty quote_id +:+ " → #" +:+ pretty new_id)
                 "success" ;;
      ret (Redirect "quote_print" [("quote_id", new_id)])
  end.

(** One line per item of the quote. *)
Definition item_line (it : value) : result string :=
  let* d := item_get it "desc" (VStr "") in
  let* d := Py.str d in
  let* q := item_get it "qty" (VInt 1) in
  let* q := Py.fmt2 q in
  let* p := item_get it "unit_price" (VInt 0) in
  let* p := Py.fmt2 p in
  let* t := item_get it "total" (VInt 0) in
  let* t := Py.fmt2 t in
  Ok ("- " +:+ d +:+ " · cant: " +:+ q +:+ " · p.u.: S/ " +:+ p +:+ " · total: S/ " +:+ t).

Definition _quote_as_text (q : doc) : result string :=
  let* lines :=
    (if Py.truthy (dget q "services_lines") then
       let* ss := (let* v := subscript q "services_lines" in iter v) in
       let* ls := rmap (fun s => let* t := Py.str s in Ok ("- " +:+ t)) ss in
       Ok (["Servicios solicitados:"] ++ ls ++ [""])
     else if Py.truthy (dget q "items") then
       let* its := (let* v := subscript q "items" in iter v) in
       let* ls := rmap item_line its in
       Ok (["Ítems cotizados:"] ++ ls ++ [""])
     else Ok []) in
  let* st := Py.fmt2 (dget_or q "subtotal" (VInt 0)) in
  let lines := lines ++ ["Subtotal: S/ " +:+ st] in
  let* lines :=
    (if Py.truthy (dget q "require_invoice") then
       let* g := Py.fmt2 (dget_or q "igv" (VInt 0)) in
       Ok (lines ++ ["IGV 18%: S/ " +:+ g])
     else Ok (lines ++ ["IGV: 0% (no factura)"])) in
  let* t := Py.fmt2 (dget_or q "total" (VInt 0)) in
  let lines := lines ++ ["TOTAL: S/ " +:+ t] in
  Ok (Py.join_lines lines).

Definition quote_to_job (uid : Z) (quote_id : Z) : M response :=
  q <- get_ "quotes" (VInt quote_id) ;;
  match q with
  | None =>
      _ <- flash "Cotización no encontrada" "danger" ;;
      ret (Redirect "dashboard" [])
  | Some q =>
      let veh_id := dget q "vehicle_id" in
      let cli_id := dget q "client_id" in
      if negb (Py.truthy veh_id) || negb (Py.truthy cli_id) then
        _ <- flash "La cotización no tiene cliente/vehículo asociado. Crea la OT manualmente."
                   "warning" ;;
        ret (Redirect "quote_print" [("quote_id", quote_id)])
      else
        text <- lift (_quote_as_text q) ;;
        let desc := "Creado desde Cotización #" +:+ pretty quote_id
                    +:+ String "010" (String "010" "") +:+ text in
        vehicle_id <- lift (Py.int veh_id) ;;
        now <- utcnow_isoformat ;;
        job_id <- insert "jobs" (mkdoc [
          ("vehicle_id", VInt vehicle_id);
          ("mechanic_id", VInt uid);
          ("reason", VStr ("Cotización #" +:+ pretty quote_id));
          ("description", VStr desc);
          ("status", VStr "abierto");
          ("intake_date", VStr now);
          ("delivery_date", VNone);
          ("odometer_km", VNone);
          ("fuel_level", VStr "");
          ("checklist", VDict (map (fun k => (k, VInt 0)) CHECKLIST))]) ;;
        now <- utcnow_isoformat ;;
        _ <- insert "notes" (mkdoc [
          ("job_id", VInt job_id);
          ("user_id", VInt uid);
          ("content", VStr ("OT creada a partir de la Cotización #" +:+ pretty quote_id +:+ "."));
          ("created_at", VStr now)]) ;;
        _ <- flash ("Cotización #" +:+ pretty quote_id +:+ " convertida en OT #" +:+ pretty job_id)
                   "success" ;;
        ret (Redirect "job_detail" [("job_id", job_id)])
  end.

End App.
End app.

(** ** Vocabulary of the properties *)

(** The counter row is the first row of [seq]: it holds the next id as an
    int and, unlike an inserted document, has no [id] of its own. This is the
    table [_ensure_seq] leaves in a fresh database and every operation of
    the store keeps. *)
Definition seq_inv (db : storage) (n : Z) : Prop :=
  exists r rest,
    TinyDB.rows db "seq" = r :: rest /\
    r !! "key" = Some (VStr app.SEQ_KEY) /\
    r !! "value" = Some (VInt n) /\
    r !! "id" = None.

(** A call of one of the three writing helpers of the store. *)
Inductive op :=
| OpInsert (t : string) (d : doc)
| OpUpdate (t : string) (doc_id : value) (patch : doc)
| OpRemove (t : string) (doc_id : value).

(** Runs the calls in order and collects what the [insert]s return. *)
Fixpoint run_ops (ops : list op) : M (list Z) :=
  match ops with
  | [] => ret []
  | OpInsert t d :: ops' =>
      i <- app.insert t d ;; l <- run_ops ops' ;; ret (i :: l)
  | OpUpdate t i p :: ops' => _ <- app.update t i p ;; run_ops ops'
  | OpRemove t i :: ops' => _ <- app.remove t i ;; run_ops ops'
  end.

(** What [_next_id] does to the database. *)
Definition bump (n : Z) (db : storage) : storage :=
  TinyDB.update "seq" (mkdoc [("value", VInt (n + 1))]) app.seq_query db.

(** The AND of the field/value conditions of a [find]. *)
Definition matches_all (where_ : list (string * value)) (d : doc) : bool :=
  forallb (fun kv => TinyDB.field_eq (fst kv) (snd kv) d) where_.

(** The status a form asks for ([request.form.get('status','abierto')]). *)
Definition status_of (frm : form) : string := default "abierto" (form_get frm "status").

(** The status changes of [frms], applied in order to one work order. *)
Fixpoint change_statuses (clock : nat -> string) (job_id : Z) (frms : list form) : M unit :=
  match frms with
  | [] => ret tt
  | frm :: frms' =>
      _ <- app.job_change_status clock job_id frm ;; change_statuses clock job_id frms'
  end.

(** The delivery date those changes leave, from the date [d] the work order
    had and the number [t] of clock readings made so far: each change to
    [entregado] reads the clock and stores the reading. *)
Fixpoint delivery_after (clock : nat -> string) (t : nat) (d : option value)
    (frms : list form) : option value :=
  match frms with
  | [] => d
  | frm :: frms' =>
      if String.eqb (status_of frm) "entregado"
      then delivery_after clock (S t) (Some (VStr (clock t))) frms'
      else delivery_after clock t d frms'
  end.

(** The status they leave. *)
Definition status_after (s : option value) (frms : list form) : option value :=
  match last frms with
  | Some frm => Some (VStr (status_of frm))
  | None => s
  end.

(** *** Quotes as the application stores them *)

(** A stored amount: a float, or the int 0 that [sum] gives for no item. *)
Definition is_amount (v : value) : Prop := v = VInt 0 \/ exists x, v = VFloat x.

(** An item as [_parse_items_from_form] and [quotes_create] build it. *)
Definition item_wf (it : value) : Prop :=
  exists d q p t,
    it = VDict [("desc", VStr d); ("qty", VFloat q); ("unit_price", VFloat p);
                ("total", VFloat t)].

Definition quote_wf (q : doc) : Prop :=
  (exists ss, q !! "services_lines" = Some (VList (map VStr ss))) /\
  (exists its, q !! "items" = Some (VList its) /\ Forall item_wf its) /\
  (exists v, q !! "subtotal" = Some v /\ is_amount v) /\
  (exists v, q !! "igv" = Some v /\ is_amount v) /\
  (exists v, q !! "total" = Some v /\ is_amount v).

(** The text of a quote, laid out as the specification describes it. *)
Definition text_of (v : value) : string :=
  match v with
  | VStr s => s
  | _ => ""
  end.

Definition amount_text (v : value) : string :=
  match v with
  | VFloat x => Py.float_fmt2 x
  | _ => "0.00"
  end.

Definition field (it : value) (k : string) : value :=
  match it with
  | VDict kvs => default VNone (dict_get k kvs)
  | _ => VNone
  end.

Definition item_text (it : value) : string :=
  "- " +:+ text_of (field it "desc") +:+ " · cant: " +:+ amount_text (field it "qty")
  +:+ " · p.u.: S/ " +:+ amount_text (field it "unit_price")
  +:+ " · total: S/ " +:+ amount_text (field it "total").

Definition list_of (v : value) : list value :=
  match v with
  | VList xs => xs
  | _ => []
  end.

Definition quote_text_lines (q : doc) : list string :=
  (match list_of (dget q "services_lines"), list_of (dget q "items") with
   | (_ :: _) as ss, _ =>
       ["Servicios solicitados:"] ++ map (fun s => "- " +:+ text_of s) ss ++ [""]
   | [], (_ :: _) as its => ["Ítems cotizados:"] ++ map item_text its ++ [""]
   | [], [] => []
   end)
  ++ ["Subtotal: S/ " +:+ amount_text (dget q "subtotal");
      (if Py.truthy (dget q "require_invoice")
       then "IGV 18%: S/ " +:+ amount_text (dget q "igv")
       else "IGV: 0% (no factura)");
      "TOTAL: S/ " +:+ amount_text (dget q "total")].

(** The tax line the specification words for a quote without invoice. *)
Definition SPEC_TAX_LINE : string := "Tax: 0% (no invoice)".

(** The work order and the note that [quote_to_job] writes for the quote
    [quote_id], [q], before the store gives them their ids. *)
Definition job_of_quote (uid quote_id : Z) (q : doc) (vehicle_id : Z) (now : string) : doc :=
  mkdoc [
    ("vehicle_id", VInt vehicle_id);
    ("mechanic_id", VInt uid);
    ("reason", VStr ("Cotización #" +:+ pretty quote_id));
    ("description", VStr ("Creado desde Cotización #" +:+ pretty quote_id
                          +:+ String "010" (String "010" "")
                          +:+ Py.join_lines (quote_text_lines q)));
    ("status", VStr "abierto");
    ("intake_date", VStr now);
    ("delivery_date", VNone);
    ("odometer_km", VNone);
    ("fuel_level", VStr "");
    ("checklist", VDict (map (fun k => (k, VInt 0)) app.CHECKLIST))].

Definition note_of_quote (uid quote_id job_id : Z) (now : string) : doc :=
  mkdoc [
    ("job_id", VInt job_id);
    ("user_id", VInt uid);
    ("content", VStr ("OT creada a partir de la Cotización #" +:+ pretty quote_id +:+ "."));
    ("created_at", VStr now)].

(** How the handlers signal the error conditions of the specification: the
    message they flash, with its category. *)
Definition MissingAssociation : string * string :=
  ("La cotización no tiene cliente/vehículo asociado. Crea la OT manualmente.", "warning").
Definition QuoteNotFound : string * string := ("Cotización no encontrada", "danger").

(** The world [w] after the message [m] was flashed and nothing else happened. *)
Definition flashed (m : string * string) (w : world) : world :=
  World (store w) (flashes w ++ [m]) (ticks w).

(** *** The totals of a quote *)

(** An item whose total is [round(qty * unit_price, 2)]. *)
Definition line_total_ok (it : value) : Prop :=
  exists d q p,
    it = VDict [("desc", VStr d); ("qty", VFloat q); ("unit_price", VFloat p);
                ("total", VFloat (Py.float_round2 (q * p)))].

(** [round(sum(it['total'] for it in items), 2)] *)
Definition subtotal_of (its : list value) : result value :=
  let* s := Py.sum (map (fun it => field it "total") its) in Py.round2 s.

(** [round(subtotal * (igv_rate if require_invoice else 0), 2)] *)
Definition igv_of (subtotal : value) (igv_rate : float) (require_invoice : Z) : result value :=
  let* g := Py.mul_float subtotal (if require_invoice =? 0 then 0%float else igv_rate) in
  Py.round2 g.

(** [round(subtotal + igv, 2)] *)
Definition total_of (subtotal igv : value) : result value :=
  let* t := Py.add subtotal igv in Py.round2 t.

(** The equations that hold between the fields of a stored quote. *)
Definition totals_ok (q : doc) : Prop :=
  exists its ri sub igv tot,
    q !! "items" = Some (VList its) /\ Forall line_total_ok its /\
    q !! "require_invoice" = Some (VInt ri) /\
    q !! "igv_rate" = Some (VFloat app.IGV_RATE) /\
    q !! "subtotal" = Some sub /\ q !! "igv" = Some igv /\ q !! "total" = Some tot /\
    subtotal_of its = Ok sub /\
    igv_of sub app.IGV_RATE ri = Ok igv /\
    total_of sub igv = Ok tot.

(** The subtotal as the data-model invariant of the specification words it:
    [round(sum(item.qty * item.unit_price for item in items), 2)]. *)
Definition line_product (it : value) : value :=
  match field it "qty", field it "unit_price" with
  | VFloat q, VFloat p => VFloat (q * p)
  | _, _ => VNone
  end.

Definition spec_subtotal (its : list value) : result value :=
  let* s := Py.sum (map line_product its) in Py.round2 s.

(** Every document of the table has an int id below [n]. *)
Definition ids_below (ds : docs) (n : Z) : Prop :=
  Forall (fun d : doc => exists i, d !! "id" = Some (VInt i) /\ i < n) ds.

(** *** Sorting by a str key *)

(** The key of a decorated item, when it is a str. *)
Definition key_le {A} (a b : value * A) : Prop :=
  String.le (text_of (fst a)) (text_of (fst b)).

Definition str_keyed {A} (l : list (value * A)) : Prop :=
  Forall (fun kx => exists s, fst kx = VStr s) l.

(** The str that [key] gives for [x]. *)
Definition skey {A} (key : A -> result value) (x : A) : string :=
  match key x with
  | Ok v => text_of v
  | Raise _ => ""
  end.

(** The document has a str [created_at], or none. *)
Definition timestamped (d : doc) : Prop :=
  exists s, dget_or d "created_at" (VStr "") = VStr s.

(** [created_at], as a str. *)
Definition created_at_of (d : doc) : string := skey app.created_at_key d.

(** *** Plates *)

(** The plate a form field stands for: upper case, without surrounding
    white space. The handlers store no other plate. *)
Definition plate_norm (s : string) : string := Py.strip (Py.upper s).

(** The client has a str [full_name], or none. *)
Definition named (c : doc) : Prop := exists s, dget_or c "full_name" (VStr "") = VStr s.


(** *** The printable work order *)

(** The notes and the quotes of a work order, in table order. *)
Definition notes_of (job_id : Z) (db : storage) : docs :=
  List.filter (fun n => Py.eq (dget n "job_id") (VInt job_id)) (TinyDB.rows db "notes").




(** What the [client_id] or [vehicle_id] of a stored quote can be: no
    reference ([None], or the 0 that no document has as its id), or the id of
    a document. *)
Definition no_reference (v : value) : Prop := v = VNone \/ v = VInt 0.
Definition reference (v : value) (i : Z) : Prop := v = VInt i /\ i <> 0.

(** The document carries an int [id]. *)
Definition has_id (d : doc) : Prop := exists i, d !! "id" = Some (VInt i).

(** *** Users *)

(** The administrator that [seed_admin] inserts, before the store gives it
    its id. *)
Definition admin_doc (password_hash now : string) : doc :=
  mkdoc [
    ("username", VStr "admin");
    ("full_name", VStr "Administrador");
    ("role", VStr "admin");
    ("password_hash", VStr password_hash);
    ("created_at", VStr now)].

(** The first user of the store with the given [username]. *)
Definition user_named (username : string) (db : storage) : option doc :=
  List.find (TinyDB.field_eq "username" (VStr username)) (TinyDB.rows db "users").

(** The credentials a login form carries. *)
Definition username_of (frm : form) : string := Py.strip (default "" (form_get frm "username")).
Definition password_of (frm : form) : string := default "" (form_get frm "password").

Definition InvalidCredentials : string * string := ("Credenciales inválidas", "danger").

Definition form_admin : form := [("username", " admin "); ("password", "admin123")].

(** *** Clients, vehicles and work orders *)

(** The plate [clients_new] reads from its form. *)
Definition client_plate (frm : form) : string :=
  Py.upper (Py.strip (default "" (form_get frm "plate"))).

Definition RequiredFields : string * string :=
  ("Nombre completo y Placa son obligatorios.", "danger").
Definition DuplicatePlate_client : string * string :=
  ("Ya existe un vehículo con esa placa.", "danger").
Definition ClientNotFound : string * string := ("Cliente no encontrado", "danger").

(** No two documents of the table have the same [id]. *)
Definition unique_ids (ds : docs) : Prop := NoDup (map (fun d : doc => d !! "id") ds).

(** The vehicle has a str [plate], or none. *)
Definition plated (v : doc) : Prop := exists s, dget_or v "plate" (VStr "") = VStr s.

(** The content a note form carries. *)
Definition content_of (frm : form) : string := Py.strip (default "" (form_get frm "content")).

(** The documents of [ds] that refer to the vehicle [vehicle_id]. *)
Definition jobs_of_vehicle (vehicle_id : Z) (ds : docs) : docs :=
  List.filter (fun j => Py.eq (dget j "vehicle_id") (VInt vehicle_id)) ds.

(** *** Lists of work orders *)

(** The work order has a str [intake_date], or none. *)
Definition dated (j : doc) : Prop := exists s, dget_or j "intake_date" (VStr "") = VStr s.

(** [intake_date], as a str. *)
Definition intake_date_of (j : doc) : string := skey app.intake_date_key j.

(** Newest first. *)
Definition newest_first (date : doc -> string) (ds : docs) : Prop :=
  StronglySorted (fun a b => String.le (date b) (date a)) ds.

(** The vehicle a document refers to by [vehicle_id], the client a vehicle
    refers to by [client_id]; the empty document when there is none. *)
Definition vehicle_of (db : storage) (j : doc) : doc :=
  default ∅ (TinyDB.get "vehicles" (TinyDB.field_eq "id" (dget j "vehicle_id")) db).

Definition client_of (db : storage) (v : doc) : doc :=
  default ∅ (TinyDB.get "clients" (TinyDB.field_eq "id" (dget v "client_id")) db).

(** A work order with its vehicle and the client of that vehicle. *)
Definition joined (db : storage) (j : doc) : doc :=
  app.with_vehicle_client j (vehicle_of db j) (client_of db (vehicle_of db j)).

(** A vehicle with the name of its client. *)
Definition with_client_name (db : storage) (v : doc) : doc :=
  <["client_name" := dget_or (client_of db v) "full_name" (VStr "")]> v.

Definition JobNotFound : string * string := ("OT no encontrada", "danger").

(** *** Forms of quotes *)

(** The rows of items a form carries: description, quantity and unit price,
    as far as the three lists go together. *)
Definition item_rows (frm : form) : list (string * string * string) :=
  app.zip3 (form_getlist frm "item_desc[]") (form_getlist frm "item_qty[]")
           (form_getlist frm "item_price[]").

(** The description of a row, without its surrounding white space. *)
Definition row_desc (r : string * string * string) : string := Py.strip (fst (fst r)).

Definition nonblank (s : string) : bool := negb (String.eqb s "").

(** The item of a row whose quantity or unit price is no number. *)
Definition zero_item (d : string) : value :=
  VDict [("desc", VStr d); ("qty", VFloat 0); ("unit_price", VFloat 0); ("total", VFloat 0)].

(** The value of the field [meta_k] of a form, without its surrounding
    white space. *)
Definition meta_field (frm : form) (k : string) : string :=
  Py.strip (default "" (form_get frm ("meta_" +:+ k))).

(** The quote has a dict as [meta], or none. *)
Definition meta_wf (q : doc) : Prop := exists kvs, dget_or q "meta" (VDict []) = VDict kvs.

(** An item whose quantity and unit price are floats other than zero. *)
Definition priced (it : value) : Prop :=
  exists q p, field it "qty" = VFloat q /\ field it "unit_price" = VFloat p /\
              Py.truthy (VFloat q) = true /\ Py.truthy (VFloat p) = true.

(** *** The list of clients *)

(** A reference that is null or an int. *)
Definition plain_ref (k : value) : Prop := k = VNone \/ exists i, k = VInt i.

(** A field that holds a str, or nothing that counts (it is absent, null,
    0 or empty). *)
Definition text_or_nothing (v : value) : Prop := (exists s, v = VStr s) \/ Py.truthy v = false.

(** The client can be searched: its name is a str, its phone and its email
    are strs or nothing. *)
Definition searchable (c : doc) : Prop :=
  named c /\ text_or_nothing (dget c "phone") /\ text_or_nothing (dget c "email").

(** The search term is in the name, the phone or the email of the client,
    whatever the case of the letters. *)
Definition client_matches (q : string) (c : doc) : bool :=
  existsb (fun k => Py.contains q (Py.lower (text_of (dget c k)))) ["full_name"; "phone"; "email"].

(** The number of vehicles of [vs] that refer to the client [i]. *)
Definition vehicles_of_client (vs : docs) (i : value) : Z :=
  Z.of_nat (length (List.filter (fun v => Py.eq (dget v "client_id") i) vs)).

(** A client with the number of its vehicles. *)
Definition with_vehicles_count (vs : docs) (c : doc) : doc :=
  <["vehicles_count" := VInt (vehicles_of_client vs (dget c "id"))]> c.

(** [full_name] in lower case, as a str. *)
Definition name_key (c : doc) : string := skey app.full_name_key c.

(** *** The list of vehicles *)

(** Pairs of strs in the order of tuples: by the first item, then by the
    second. *)
Definition pair_le (a b : string * string) : Prop :=
  String.le (fst a) (fst b) /\ (fst a = fst b -> String.le (snd a) (snd b)).

(** The plate and the client name of a listed vehicle, as strs. *)
Definition plate_name (v : doc) : string * string :=
  (text_of (dget v "plate"), text_of (dget v "client_name")).

(** The vehicle can be listed: its plate, its brand and its model are strs,
    or absent. *)
Definition listable (v : doc) : Prop :=
  plated v /\ (exists s, dget_or v "brand" (VStr "") = VStr s) /\
  (exists s, dget_or v "model" (VStr "") = VStr s).

(** The search term is in the plate, the client name, the brand or the
    model of the listed vehicle, whatever the case of the letters. *)
Definition vehicle_matches (q : string) (v : doc) : bool :=
  existsb (fun k => Py.contains q (Py.lower (text_of (dget v k))))
          ["plate"; "client_name"; "brand"; "model"].

(** No character of [s] is white space. *)
Fixpoint no_space (s : string) : bool :=
  match s with
  | String a s' => negb (Py.is_space a) && no_space s'
  | EmptyString => true
  end.

(** *** A small workshop, for the examples

    The worlds below are reached from an empty database by the handlers
    themselves: one client with a vehicle, a second vehicle, a work order, a
    quote of two items without invoice, and a quote sent with [client_id] 0. *)

Definition clock0 (n : nat) : string := "2024-05-01T10:00:0" +:+ pretty n +:+ "+00:00".

Definition after {A} (m : M A) (w : world) : world := snd (m w).

Definition w_empty : world := World ∅ [] 0.

Definition w_seeded : world := after app._ensure_seq w_empty.

Definition form_client : form :=
  [("full_name", "Ana Diaz"); ("phone", "999"); ("plate", " abc-123 "); ("brand", "Toyota")].

(** Client 1 with vehicle 2, plate ABC-123. *)
Definition w_client : world := after (app.clients_new clock0 POST form_client) w_seeded.

Definition form_vehicle : form := [("plate", "xyz-9"); ("client_id", "1")].

(** Vehicle 3, plate XYZ-9. *)
Definition w_vehicles : world := after (app.vehicles_new POST form_vehicle) w_client.


Definition form_job : form :=
  [("vehicle_id", "2");
   ("description", "Cambio de aceite" +:+ String "010" "  Revisar frenos")].

(** Work order 4, on vehicle 2. *)
Definition w_job : world := after (app.jobs_new clock0 1 POST form_job) w_vehicles.

Definition form_quote : form :=
  [("item_desc[]", "Pastillas"); ("item_qty[]", "1"); ("item_price[]", "0.125");
   ("item_desc[]", "Liquido"); ("item_qty[]", "1"); ("item_price[]", "0.125");
   ("client_id", "1"); ("vehicle_id", "2"); ("job_id", "4")].

(** Quote 5, by user 1, for work order 4. *)
Definition w_quote : world := after (app.quotes_create clock0 1 form_quote) w_job.

Definition form_quote0 : form :=
  [("item_desc[]", "Revision"); ("item_qty[]", "1"); ("item_price[]", "50");
   ("client_id", "0"); ("vehicle_id", "2")].

(** Quote 6, whose [client_id] is 0. *)
Definition w_quote0 : world := after (app.quotes_create clock0 1 form_quote0) w_quote.

Definition the_doc (t : string) (i : Z) (w : world) : doc :=
  default ∅ (TinyDB.get t (TinyDB.field_eq "id" (VInt i)) (store w)).

Definition job4 : doc := the_doc "jobs" 4 w_job.
Definition quote5 : doc := the_doc "quotes" 5 w_quote0.
Definition quote6 : doc := the_doc "quotes" 6 w_quote0.

Definition reopen : list form := [[("status", "entregado")]; [("status", "abierto")]].

(** Work order 4 delivered, then opened again. *)
Definition w_reopened : world := after (change_statuses clock0 4 reopen) w_job.
Definition job4_reopened : doc := the_doc "jobs" 4 w_reopened.

(** Quote 7: quote 5 duplicated by user 1, who had created it. *)
Definition w_duplicated : world := after (app.quote_duplicate clock0 1 5) w_quote0.
Definition quote7 : doc := the_doc "quotes" 7 w_duplicated.


Definition id_below (n : Z) (d : doc) : bool :=
  match d !! "id" with
  | Some (VInt j) => j <? n
  | _ => false
  end.





(** Calls of the store on several collections, the counter's own included. *)
Definition ops0 : list op :=
  [OpInsert "clients" (mkdoc [("full_name", VStr "Ana")]);
   OpInsert "vehicles" (mkdoc [("plate", VStr "ABC-123")]);
   OpRemove "vehicles" (VInt 2);
   OpInsert "seq" (mkdoc [("key", VStr "global_seq"); ("value", VInt 0)]);
   OpUpdate "seq" (VInt 3) (mkdoc [("value", VInt 1)]);
   OpInsert "vehicles" (mkdoc [("plate", VStr "XYZ-9")])].

(** Closed goals are settled by evaluation. *)
Ltac by_eval := vm_compute; reflexivity.

Ltac eval_goal_list :=
  match goal with
  | |- Forall ?P ?l => let l' := eval vm_compute in l in change (Forall P l')
  end.

Ltac forall_items tac :=
  eval_goal_list; repeat (apply Forall_cons; split; [tac|]); apply List.Forall_nil.

Ltac line_ok :=
  match goal with
  | |- line_total_ok ?it =>
      exists (text_of (field it "desc")),
             (match field it "qty" with VFloat x => x | _ => 0%float end),
             (match field it "unit_price" with VFloat x => x | _ => 0%float end);
      by_eval
  end.

(** The counter row of an example world, whose next id is [n]. *)
Ltac seq_inv_by n :=
  exists (mkdoc [("key", VStr "global_seq"); ("value", VInt n)]), [];
  repeat split; by_eval.

(** Looks a field up in a dict literal. *)
Ltac lookup_doc :=
  unfold mkdoc; cbn [list_to_map foldr fst snd uncurry];
  repeat (rewrite lookup_insert_ne
            by first [discriminate | assumption | apply not_eq_sym; assumption]);
  first [ apply lookup_insert_eq | apply lookup_empty ].

(** ** The store *)

Section TinyDB_facts.
Implicit Types (db : storage) (t : string) (d : doc).

Lemma rows_insert db t t' d :
  TinyDB.rows (TinyDB.insert t d db) t' =
  if decide (t = t') then TinyDB.rows db t ++ [d] else TinyDB.rows db t'.
Proof.
  unfold TinyDB.insert. unfold TinyDB.rows at 1.
  rewrite lookup_insert. by case_decide.
Qed.

Lemma rows_update db t t' patch cond :
  TinyDB.rows (TinyDB.update t patch cond db) t' =
  if decide (t = t')
  then map (fun d => if cond d then patch ∪ d else d) (TinyDB.rows db t)
  else TinyDB.rows db t'.
Proof.
  unfold TinyDB.update. unfold TinyDB.rows at 1.
  rewrite lookup_insert. by case_decide.
Qed.

Lemma rows_remove db t t' cond :
  TinyDB.rows (TinyDB.remove t cond db) t' =
  if decide (t = t')
  then List.filter (fun d => negb (cond d)) (TinyDB.rows db t)
  else TinyDB.rows db t'.
Proof.
  unfold TinyDB.remove. unfold TinyDB.rows at 1.
  rewrite lookup_insert. by case_decide.
Qed.

Lemma field_eq_None k v d : d !! k = None -> TinyDB.field_eq k v d = false.
Proof. unfold TinyDB.field_eq. by intros ->. Qed.

Lemma no_row_Some d k v : d !! k = Some v -> app.no_row (Some d) = false.
Proof.
  intros H. simpl. apply Nat.eqb_neq. intros Hs.
  apply map_size_empty_iff in Hs. subst d. by rewrite lookup_empty in H.
Qed.
End TinyDB_facts.

(** ** Running handlers *)

Lemma bind_ok {A B} (m : M A) (k : A -> M B) w a w' :
  m w = (Ok a, w') -> bind m k w = k a w'.
Proof. unfold bind. by intros ->. Qed.

Lemma bind_raise {A B} (m : M A) (k : A -> M B) w e w' :
  m w = (Raise e, w') -> bind m k w = (Raise e, w').
Proof. unfold bind. by intros ->. Qed.

Lemma seq_query_counter r :
  r !! "key" = Some (VStr app.SEQ_KEY) -> app.seq_query r = true.
Proof. unfold app.seq_query, TinyDB.field_eq. by intros ->. Qed.

Lemma bump_rows n db t : t <> "seq" -> TinyDB.rows (bump n db) t = TinyDB.rows db t.
Proof. intros H. unfold bump. rewrite rows_update. by case_decide. Qed.

Lemma bump_seq_inv n db : seq_inv db n -> seq_inv (bump n db) (n + 1).
Proof.
  intros (r & rest & Hr & Hk & Hv & Hi).
  unfold bump. eexists _, _. rewrite rows_update, Hr. simpl.
  rewrite (seq_query_counter r Hk). split; [reflexivity|].
  unfold mkdoc. simpl. repeat split.
  - rewrite lookup_union_r; [done|]. by rewrite lookup_insert_ne.
  - apply lookup_union_Some_l. by rewrite lookup_insert_eq.
  - rewrite lookup_union_r; [done|]. by rewrite lookup_insert_ne.
Qed.

Lemma next_id_spec w n :
  seq_inv (store w) n ->
  app._next_id w = (Ok n, World (bump n (store w)) (flashes w) (ticks w)).
Proof.
  intros (r & rest & Hr & Hk & Hv & Hi).
  unfold app._next_id, bind, db_read, db_write, lift, ret, TinyDB.get.
  rewrite Hr. simpl. rewrite (seq_query_counter r Hk).
  rewrite (no_row_Some r _ _ Hk). simpl.
  unfold subscript. rewrite Hv. simpl. reflexivity.
Qed.

Lemma insert_spec t d w n :
  seq_inv (store w) n ->
  app.insert t d w =
  (Ok n, World (TinyDB.insert t (<["id" := VInt n]> d) (bump n (store w)))
               (flashes w) (ticks w)).
Proof.
  intros H. unfold app.insert.
  rewrite (bind_ok _ _ _ _ _ (next_id_spec w n H)). reflexivity.
Qed.

Lemma insert_seq_inv t d db n m :
  seq_inv db m -> seq_inv (TinyDB.insert t (<["id" := VInt n]> d) db) m.
Proof.
  intros (r & rest & Hr & Hk & Hv & Hi).
  exists r. rewrite rows_insert. case_decide.
  - subst t. rewrite Hr. by exists (rest ++ [<["id" := VInt n]> d]).
  - by exists rest.
Qed.

Lemma update_seq_inv t i p db m :
  seq_inv db m -> seq_inv (TinyDB.update t p (TinyDB.field_eq "id" i) db) m.
Proof.
  intros (r & rest & Hr & Hk & Hv & Hi).
  exists r. rewrite rows_update. case_decide.
  - subst t. rewrite Hr. simpl. rewrite (field_eq_None _ _ _ Hi). eauto.
  - by exists rest.
Qed.

Lemma remove_seq_inv t i db m :
  seq_inv db m -> seq_inv (TinyDB.remove t (TinyDB.field_eq "id" i) db) m.
Proof.
  intros (r & rest & Hr & Hk & Hv & Hi).
  exists r. rewrite rows_remove. case_decide.
  - subst t. rewrite Hr. simpl. rewrite (field_eq_None _ _ _ Hi). simpl. eauto.
  - by exists rest.
Qed.

(** A fresh database: [_ensure_seq] creates the counter row, with value 1. *)
Lemma ensure_seq_fresh w :
  TinyDB.rows (store w) "seq" = [] ->
  exists w', app._ensure_seq w = (Ok tt, w') /\ seq_inv (store w') 1.
Proof.
  intros H. unfold app._ensure_seq, bind, db_read, db_write, ret, TinyDB.get.
  rewrite H. simpl. eexists. split; [reflexivity|]. simpl.
  eexists _, []. rewrite rows_insert. rewrite decide_True by done.
  rewrite H. simpl. done.
Qed.

(** ** [find] *)

Lemma find_fold_Some where_ (q : TinyDB.query) :
  exists e,
    fold_left (fun (expr : option TinyDB.query) (kv : string * value) =>
                 Some (match expr with
                       | None => TinyDB.field_eq (fst kv) (snd kv)
                       | Some x => TinyDB.q_and x (TinyDB.field_eq (fst kv) (snd kv))
                       end)) where_ (Some q) = Some e /\
    forall d, e d = q d && matches_all where_ d.
Proof.
  revert q. induction where_ as [|kv l IH]; intros q; simpl.
  - exists q. split; [done|]. intros d. by rewrite andb_true_r.
  - destruct (IH (TinyDB.q_and q (TinyDB.field_eq (fst kv) (snd kv)))) as (e & He & Hd).
    exists e. split; [done|]. intros d. rewrite Hd. unfold TinyDB.q_and.
    by rewrite andb_assoc.
Qed.

(** With at least one condition [find] returns, in table order, the
    documents that meet all of them. *)
Lemma find_some_constraint table kv where_ w :
  app.find table (kv :: where_) w =
  (Ok (List.filter (matches_all (kv :: where_)) (TinyDB.rows (store w) table)), w).
Proof.
  unfold app.find. cbv zeta. cbn [fold_left].
  destruct (find_fold_Some where_ (TinyDB.field_eq (fst kv) (snd kv))) as (e & -> & Hd).
  unfold db_read, TinyDB.search. f_equal. f_equal.
  apply filter_ext. intros d. apply Hd.
Qed.

(** C10. For every collection, [find] called with no field/value constraint
    returns the empty list and leaves the store as it is, whatever the
    collection holds, although the conjunction of no condition is met by
    every document. *)
Theorem find_no_constraint_is_empty (table : string) (w : world) :
  app.find table [] w = (Ok [], w) /\ (forall d : doc, matches_all [] d = true).
Proof. split; [reflexivity | intros d; reflexivity]. Qed.

(** ** Identifiers *)

Lemma run_ops_spec ops : forall w n,
  seq_inv (store w) n ->
  exists ids w',
    run_ops ops w = (Ok ids, w') /\
    seq_inv (store w') (n + Z.of_nat (length ids)) /\
    Forall (Z.le n) ids /\
    StronglySorted Z.lt ids.
Proof.
  induction ops as [|o ops IH]; intros w n Hinv.
  - exists [], w. simpl. rewrite Z.add_0_r. repeat split; auto; constructor.
  - destruct o as [t d|t i p|t i]; simpl.
    + rewrite (bind_ok _ _ _ _ _ (insert_spec t d w n Hinv)).
      set (w1 := World _ _ _).
      destruct (IH w1 (n + 1)) as (ids & w' & Hrun & Hinv' & Hge & Hs).
      { apply insert_seq_inv, bump_seq_inv, Hinv. }
      exists (n :: ids), w'. rewrite (bind_ok _ _ _ _ _ Hrun).
      split; [reflexivity|]. split; [|split].
      * replace (n + Z.of_nat (length (n :: ids))) with (n + 1 + Z.of_nat (length ids)); [done|].
        simpl length. lia.
      * constructor; [lia|]. eapply Forall_impl; [exact Hge|]. simpl. intros; lia.
      * constructor; [done|]. eapply Forall_impl; [exact Hge|]. simpl. intros; lia.
    + unfold app.update. unfold bind at 1, db_write.
      apply IH. simpl. by apply update_seq_inv.
    + unfold app.remove. unfold bind at 1, db_write.
      apply IH. simpl. by apply remove_seq_inv.
Qed.

(** C2. Whatever calls of [insert], [update] and [remove] are made, on
    whatever collections (the counter's own table included), every [insert]
    returns, the ids returned are strictly increasing in the order of the
    calls, hence never repeat: an id is not handed out again after the
    document that had it was removed. *)
Theorem insert_ids_strictly_increasing (ops : list op) (w : world) (n : Z) :
  seq_inv (store w) n ->
  exists ids w',
    run_ops ops w = (Ok ids, w') /\
    StronglySorted Z.lt ids /\ NoDup ids /\ Forall (Z.le n) ids.
Proof.
  intros Hinv.
  destruct (run_ops_spec ops w n Hinv) as (ids & w' & Hrun & _ & Hge & Hs).
  exists ids, w'. repeat split; auto.
  clear -Hs. induction Hs as [|x l Hs IH Hx]; constructor; auto.
  intros Hin. rewrite Forall_forall in Hx. specialize (Hx x Hin). lia.
Qed.

(** ** Work orders: the delivery date *)

Lemma find_map_stable {A} (cond : A -> bool) (f : A -> A) l :
  (forall d, cond (f d) = cond d) ->
  List.find cond (map f l) = option_map f (List.find cond l).
Proof.
  intros H. induction l as [|d l IH]; simpl; [done|].
  rewrite H. by destruct (cond d).
Qed.

Lemma field_eq_patch k v (patch d : doc) :
  patch !! k = None -> TinyDB.field_eq k v (patch ∪ d) = TinyDB.field_eq k v d.
Proof. intros H. unfold TinyDB.field_eq. by rewrite lookup_union_r. Qed.

(** [get_] after an [update] whose patch leaves the [id] alone. *)
Lemma get_update t i (patch : doc) db :
  patch !! "id" = None ->
  TinyDB.get t (TinyDB.field_eq "id" i) (TinyDB.update t patch (TinyDB.field_eq "id" i) db) =
  option_map (fun d => patch ∪ d) (TinyDB.get t (TinyDB.field_eq "id" i) db).
Proof.
  intros H. unfold TinyDB.get. rewrite rows_update, decide_True by done.
  rewrite find_map_stable.
  - destruct (List.find _ _) as [d|] eqn:E; [|done]. simpl.
    apply find_some in E as [_ ->]. done.
  - intros d. destruct (TinyDB.field_eq "id" i d) eqn:E; [|done].
    by rewrite field_eq_patch.
Qed.

Lemma job_change_status_step clock job_id frm w j :
  TinyDB.get "jobs" (TinyDB.field_eq "id" (VInt job_id)) (store w) = Some j ->
  exists w' j',
    app.job_change_status clock job_id frm w =
      (Ok (Redirect "job_detail" [("job_id", job_id)]), w') /\
    TinyDB.get "jobs" (TinyDB.field_eq "id" (VInt job_id)) (store w') = Some j' /\
    j' !! "status" = Some (VStr (status_of frm)) /\
    j' !! "delivery_date" =
      (if String.eqb (status_of frm) "entregado" then Some (VStr (clock (ticks w)))
       else j !! "delivery_date") /\
    ticks w' = (if String.eqb (status_of frm) "entregado" then S (ticks w) else ticks w).
Proof.
  intros Hj. unfold app.job_change_status. fold (status_of frm).
  destruct (String.eqb (status_of frm) "entregado") eqn:E.
  - eexists _, _. split; [reflexivity|]. simpl.
    rewrite get_update, Hj by done. simpl. split; [reflexivity|].
    unfold mkdoc; simpl. repeat split.
    + apply lookup_union_Some_l. by rewrite lookup_insert_eq.
    + apply lookup_union_Some_l. rewrite lookup_insert_ne by done. by rewrite lookup_insert_eq.
  - eexists _, _. split; [reflexivity|]. simpl.
    rewrite get_update, Hj by done. simpl. split; [reflexivity|].
    unfold mkdoc; simpl. repeat split.
    + apply lookup_union_Some_l. by rewrite lookup_insert_eq.
    + rewrite lookup_union_r; [done|]. by rewrite lookup_insert_ne.
Qed.

(** Status changes that never deliver the work order leave its delivery
    date alone: the date of a new work order stays null. *)
Lemma delivery_after_not_delivered clock t d (frms : list form) :
  Forall (fun frm => status_of frm <> "entregado") frms ->
  delivery_after clock t d frms = d.
Proof.
  induction 1 as [|frm frms H _ IH]; [done|]. simpl.
  apply String.eqb_neq in H. by rewrite H.
Qed.

(** C5, as the code has it. A change of status to [entregado] stores the
    current timestamp as the delivery date in the same update; a change to
    any other status leaves the delivery date as it was. So, after any
    sequence of status changes, the delivery date of a work order is the
    timestamp of its last change to [entregado], or what it was before
    (null, for a new work order) when none of the changes was to
    [entregado]. *)
Theorem delivery_date_set_on_entregado clock job_id (frms : list form) : forall w j,
  TinyDB.get "jobs" (TinyDB.field_eq "id" (VInt job_id)) (store w) = Some j ->
  exists w' j',
    change_statuses clock job_id frms w = (Ok tt, w') /\
    TinyDB.get "jobs" (TinyDB.field_eq "id" (VInt job_id)) (store w') = Some j' /\
    j' !! "status" = status_after (j !! "status") frms /\
    j' !! "delivery_date" = delivery_after clock (ticks w) (j !! "delivery_date") frms.
Proof.
  induction frms as [|frm frms IH]; intros w j Hj.
  - exists w, j. done.
  - destruct (job_change_status_step clock job_id frm w j Hj)
      as (w1 & j1 & Hrun & Hj1 & Hst & Hd & Ht).
    destruct (IH w1 j1 Hj1) as (w' & j' & Hrun' & Hj' & Hst' & Hd').
    exists w', j'. simpl. rewrite (bind_ok _ _ _ _ _ Hrun).
    split; [done|]. split; [done|]. split.
    + rewrite Hst', Hst. unfold status_after. rewrite last_cons.
      by destruct (last frms).
    + rewrite Hd', Hd, Ht. by destruct (String.eqb _ _).
Qed.

(** ** Deleting a client *)

Lemma rmap_ok {A B} (f : A -> result B) (g : A -> B) l :
  (forall x, In x l -> f x = Ok (g x)) -> rmap f l = Ok (map g l).
Proof.
  induction l as [|x l IH]; intros H; simpl; [done|].
  rewrite H by (by left). simpl. rewrite IH; [done|].
  intros y Hy. apply H. by right.
Qed.

Lemma filter_tagged {A} (b : A -> bool) l :
  map snd (List.filter fst (map (fun x => (b x, x)) l)) = List.filter b l.
Proof.
  induction l as [|x l IH]; simpl; [done|].
  destruct (b x); simpl; by rewrite IH.
Qed.

Lemma for_each_inv {A} (body : A -> M unit) (I : list A -> world -> Prop) l :
  forall done w,
    I done w ->
    (forall done' x w1, I done' w1 -> In x l ->
       exists w2, body x w1 = (Ok tt, w2) /\ I (done' ++ [x]) w2) ->
    exists w', for_each l body w = (Ok tt, w') /\ I (done ++ l) w'.
Proof.
  induction l as [|x l IH]; intros done w HI Hstep; simpl.
  - exists w. by rewrite app_nil_r.
  - destruct (Hstep done x w HI) as (w2 & Hb & HI2); [by left|].
    rewrite (bind_ok _ _ _ _ _ Hb).
    destruct (IH (done ++ [x]) w2 HI2) as (w' & Hrun & HI').
    { intros d' y w1 H1 Hy. apply Hstep; [done | by right]. }
    exists w'. split; [done|]. by rewrite <- app_assoc in HI'.
Qed.

Lemma has_id_match d i : d !! "id" = Some (VInt i) -> TinyDB.field_eq "id" (VInt i) d = true.
Proof. unfold TinyDB.field_eq. intros ->. simpl. apply Z.eqb_refl. Qed.

(** Removing, one id after the other, the documents of [ds] from table [t]:
    none of them is left, no other table changes, and no document appears. *)
Lemma remove_each t (ds : docs) w :
  Forall has_id ds ->
  exists w',
    for_each ds (fun d => bind (lift (subscript d "id")) (fun i => app.remove t i)) w
      = (Ok tt, w') /\
    flashes w' = flashes w /\ ticks w' = ticks w /\
    (forall t', t' <> t -> TinyDB.rows (store w') t' = TinyDB.rows (store w) t') /\
    incl (TinyDB.rows (store w') t) (TinyDB.rows (store w) t) /\
    (forall d, In d ds -> ~ In d (TinyDB.rows (store w') t)).
Proof.
  intros Hids.
  destruct (for_each_inv
    (fun d => bind (lift (subscript d "id")) (fun i => app.remove t i))
    (fun done w' =>
       flashes w' = flashes w /\ ticks w' = ticks w /\
       (forall t', t' <> t -> TinyDB.rows (store w') t' = TinyDB.rows (store w) t') /\
       incl (TinyDB.rows (store w') t) (TinyDB.rows (store w) t) /\
       (forall d, In d done -> ~ In d (TinyDB.rows (store w') t)))
    ds [] w) as (w' & Hrun & HI).
  - repeat split; auto using incl_refl.
  - intros done x w1 (Hf & Ht & Hother & Hincl & Hgone) Hx.
    rewrite Forall_forall in Hids. destruct (Hids x) as [i Hi]; [by apply list_elem_of_In|].
    eexists. split.
    { unfold bind, lift, subscript. rewrite Hi. reflexivity. }
    simpl. split; [done|]. split; [done|]. split; [|split].
    + intros t' Ht'. rewrite rows_remove, decide_False by done. by apply Hother.
    + rewrite rows_remove, decide_True by done.
      intros d Hd. apply filter_In in Hd as [Hd _]. by apply Hincl.
    + intros d Hd. rewrite rows_remove, decide_True by done.
      rewrite filter_In. intros [Hin Hn].
      apply in_app_or in Hd as [Hd|[<-|[]]].
      * by apply (Hgone d).
      * by rewrite (has_id_match x i Hi) in Hn.
  - exists w'. split; [done|]. simpl in HI. tauto.
Qed.

(** One round of the loop of [clients_delete]: the jobs of the vehicle [v],
    then [v] itself. *)
Lemma vehicle_cascade (v : doc) i w :
  v !! "id" = Some (VInt i) ->
  Forall has_id (TinyDB.rows (store w) "jobs") ->
  exists w',
    (js <- app.all_ "jobs" ;;
     js <- lift (rmap (fun j => let* vid := subscript v "id" in
                                Ok (Py.eq (dget j "vehicle_id") vid, j)) js) ;;
     _ <- for_each (map snd (List.filter fst js))
           (fun j => jid <- lift (subscript j "id") ;; app.remove "jobs" jid) ;;
     vid <- lift (subscript v "id") ;;
     app.remove "vehicles" vid) w = (Ok tt, w') /\
    flashes w' = flashes w /\ ticks w' = ticks w /\
    (forall t, t <> "jobs" -> t <> "vehicles" ->
       TinyDB.rows (store w') t = TinyDB.rows (store w) t) /\
    incl (TinyDB.rows (store w') "jobs") (TinyDB.rows (store w) "jobs") /\
    incl (TinyDB.rows (store w') "vehicles") (TinyDB.rows (store w) "vehicles") /\
    ~ In v (TinyDB.rows (store w') "vehicles") /\
    (forall j, In j (TinyDB.rows (store w') "jobs") ->
       Py.eq (dget j "vehicle_id") (VInt i) = false).
Proof.
  intros Hi Hjobs.
  set (mine := fun j : doc => Py.eq (dget j "vehicle_id") (VInt i)).
  destruct (remove_each "jobs" (List.filter mine (TinyDB.rows (store w) "jobs")) w)
    as (w1 & Hrun & Hf & Ht & Hother & Hincl & Hgone).
  { rewrite Forall_forall in Hjobs |- *. intros j Hj.
    apply Hjobs. apply list_elem_of_In. apply list_elem_of_In in Hj.
    by apply filter_In in Hj as [Hj _]. }
  eexists. split.
  - unfold bind at 1. unfold app.all_ at 1, db_read, TinyDB.all.
    unfold bind at 1, lift at 1.
    rewrite (rmap_ok _ (fun j => (mine j, j))).
    2:{ intros j _. unfold subscript. by rewrite Hi. }
    rewrite filter_tagged.
    rewrite (bind_ok _ _ _ _ _ Hrun).
    unfold bind, lift, subscript. rewrite Hi. reflexivity.
  - simpl. split; [done|]. split; [done|]. split; [|split; [|split; [|split]]].
    + intros t H1 H2. rewrite rows_remove, decide_False by done. by apply Hother.
    + rewrite rows_remove, decide_False by done. done.
    + rewrite rows_remove, decide_True by done.
      rewrite (Hother "vehicles") by done.
      intros d Hd. by apply filter_In in Hd as [Hd _].
    + rewrite rows_remove, decide_True by done. rewrite filter_In.
      intros [_ Hn]. by rewrite (has_id_match v i Hi) in Hn.
    + intros j Hj. rewrite rows_remove, decide_False in Hj by done.
      destruct (mine j) eqn:E; [|done]. exfalso.
      apply (Hgone j); [|done]. apply filter_In. split; [|done]. by apply Hincl.
Qed.

(** C7. Deleting a client removes the client, every vehicle of the client
    and every job of those vehicles: afterwards no vehicle refers to the
    client and no job refers to one of its vehicles. The notes and the quotes
    are left as they were, those of the deleted jobs and vehicles included. *)
Theorem clients_delete_cascades (client_id : Z) (w : world) :
  Forall has_id (TinyDB.rows (store w) "vehicles") ->
  Forall has_id (TinyDB.rows (store w) "jobs") ->
  exists w',
    app.clients_delete client_id w = (Ok (Redirect "clients_list" []), w') /\
    TinyDB.get "clients" (TinyDB.field_eq "id" (VInt client_id)) (store w') = None /\
    (forall v, In v (TinyDB.rows (store w') "vehicles") ->
       Py.eq (dget v "client_id") (VInt client_id) = false) /\
    (forall v vid j,
       In v (TinyDB.rows (store w) "vehicles") ->
       Py.eq (dget v "client_id") (VInt client_id) = true ->
       v !! "id" = Some vid ->
       In j (TinyDB.rows (store w') "jobs") ->
       Py.eq (dget j "vehicle_id") vid = false) /\
    TinyDB.rows (store w') "notes" = TinyDB.rows (store w) "notes" /\
    TinyDB.rows (store w') "quotes" = TinyDB.rows (store w) "quotes".
Proof.
  intros Hvs Hjs.
  set (w0 := World (TinyDB.remove "clients" (TinyDB.field_eq "id" (VInt client_id)) (store w))
                   (flashes w) (ticks w)).
  set (vs := List.filter (fun v => Py.eq (dget v "client_id") (VInt client_id))
                         (TinyDB.rows (store w) "vehicles")).
  assert (Hrows0 : forall t, t <> "clients" ->
            TinyDB.rows (store w0) t = TinyDB.rows (store w) t).
  { intros t Ht. simpl. by rewrite rows_remove, decide_False. }
  rewrite Forall_forall in Hvs, Hjs.
  destruct (for_each_inv
    (fun v : doc =>
       js <- app.all_ "jobs" ;;
       js <- lift (rmap (fun j => let* vid := subscript v "id" in
                                  Ok (Py.eq (dget j "vehicle_id") vid, j)) js) ;;
       _ <- for_each (map snd (List.filter fst js))
             (fun j => jid <- lift (subscript j "id") ;; app.remove "jobs" jid) ;;
       vid <- lift (subscript v "id") ;;
       app.remove "vehicles" vid)
    (fun done w' =>
       flashes w' = flashes w0 /\ ticks w' = ticks w0 /\
       (forall t, t <> "jobs" -> t <> "vehicles" ->
          TinyDB.rows (store w') t = TinyDB.rows (store w0) t) /\
       incl (TinyDB.rows (store w') "jobs") (TinyDB.rows (store w0) "jobs") /\
       incl (TinyDB.rows (store w') "vehicles") (TinyDB.rows (store w0) "vehicles") /\
       (forall v, In v done -> ~ In v (TinyDB.rows (store w') "vehicles")) /\
       (forall v i j, In v done -> v !! "id" = Some (VInt i) ->
          In j (TinyDB.rows (store w') "jobs") ->
          Py.eq (dget j "vehicle_id") (VInt i) = false))
    vs [] w0) as (w1 & Hrun & Hf & Ht & Hother & Hij & Hiv & Hgone & Hnojob).
  - repeat split; auto using incl_refl. intros v i j [].
  - intros done v w1 (Hf & Ht & Hother & Hij & Hiv & Hgone & Hnojob) Hv.
    apply filter_In in Hv as [Hv Hc].
    destruct (Hvs v) as [i Hi]; [by apply list_elem_of_In|].
    destruct (vehicle_cascade v i w1 Hi) as
      (w2 & Hrun & Hf2 & Ht2 & Hother2 & Hij2 & Hiv2 & Hgone2 & Hnojob2).
    { apply Forall_forall. intros j Hj. apply Hjs. apply list_elem_of_In.
      apply list_elem_of_In in Hj. apply Hij in Hj. by rewrite Hrows0 in Hj. }
    exists w2. split; [done|].
    split; [congruence|]. split; [congruence|]. split; [|split; [|split; [|split]]].
    + intros t H1 H2. rewrite Hother2 by done. by apply Hother.
    + intros j Hj. by apply Hij, Hij2.
    + intros x Hx. by apply Hiv, Hiv2.
    + intros x Hx Hin. apply in_app_or in Hx as [Hx|[<-|[]]]; [|done].
      apply (Hgone x Hx). by apply Hiv2.
    + intros x k j Hx Hk Hj. apply in_app_or in Hx as [Hx|[<-|[]]].
      * apply (Hnojob x k j Hx Hk). by apply Hij2.
      * assert (k = i) as -> by congruence. by apply Hnojob2.
  - simpl in Hrun.
    exists (World (store w1) (flashes w1 ++ [("Cliente eliminado", "info")]) (ticks w1)).
    split.
    { unfold app.clients_delete. unfold bind at 1. unfold app.remove at 1, db_write at 1.
      fold w0. unfold bind at 1. unfold app.all_ at 1, db_read at 1, TinyDB.all.
      rewrite (Hrows0 "vehicles") by done. fold vs.
      rewrite (bind_ok _ _ _ _ _ Hrun). reflexivity. }
    simpl. split; [|split; [|split; [|split]]].
    + unfold TinyDB.get. rewrite (Hother "clients") by done. simpl.
      rewrite rows_remove, decide_True by done.
      destruct (List.find _ _) as [d|] eqn:E; [|done].
      apply find_some in E as [Hin Hc]. apply filter_In in Hin as [_ Hn].
      by rewrite Hc in Hn.
    + intros v Hv. destruct (Py.eq (dget v "client_id") (VInt client_id)) eqn:E; [|done].
      exfalso. apply (Hgone v); [|done]. simpl. apply filter_In. split; [|done].
      apply Hiv in Hv. by rewrite Hrows0 in Hv.
    + intros v vid j Hv Hc Hid Hj.
      destruct (Hvs v) as [i Hi]; [by apply list_elem_of_In|].
      assert (vid = VInt i) as -> by congruence.
      apply (Hnojob v i j); [|done|done]. simpl. apply filter_In. by split.
    + rewrite (Hother "notes") by done. by apply Hrows0.
    + rewrite (Hother "quotes") by done. by apply Hrows0.
Qed.

(** ** The text of a quote *)

Lemma fmt2_amount v : is_amount v -> Py.fmt2 v = Ok (amount_text v).
Proof. intros [->|[x ->]]; reflexivity. Qed.

Lemma item_line_wf it : item_wf it -> app.item_line it = Ok (item_text it).
Proof. intros (d & q & p & t & ->). reflexivity. Qed.

Lemma dget_Some (q : doc) k v : q !! k = Some v -> dget q k = v.
Proof. unfold dget. by intros ->. Qed.

Lemma dget_or_Some (q : doc) k v v' : q !! k = Some v -> dget_or q k v' = v.
Proof. unfold dget_or. by intros ->. Qed.

Lemma quote_as_text_wf (q : doc) :
  quote_wf q -> app._quote_as_text q = Ok (Py.join_lines (quote_text_lines q)).
Proof.
  intros ((ss & Hs) & (its & Hi & Hwf) & (st & Hst & Ast) & (g & Hg & Ag) & (t & Ht & At)).
  unfold app._quote_as_text, quote_text_lines.
  rewrite (dget_Some _ _ _ Hs), (dget_Some _ _ _ Hi), (dget_Some _ _ _ Hst),
    (dget_Some _ _ _ Hg), (dget_Some _ _ _ Ht),
    (dget_or_Some _ _ _ _ Hst), (dget_or_Some _ _ _ _ Hg), (dget_or_Some _ _ _ _ Ht).
  rewrite (fmt2_amount _ Ast), (fmt2_amount _ Ag), (fmt2_amount _ At).
  unfold subscript. rewrite Hs, Hi. simpl list_of.
  assert (Hss : rmap (fun s => let* t := Py.str s in Ok ("- " +:+ t)) (map VStr ss)
                = Ok (map (fun s => "- " +:+ text_of s) (map VStr ss))).
  { apply rmap_ok. intros x Hx. apply in_map_iff in Hx as (s0 & <- & _). reflexivity. }
  assert (Hits : rmap app.item_line its = Ok (map item_text its)).
  { apply rmap_ok. intros x Hx. apply item_line_wf.
    rewrite Forall_forall in Hwf. apply Hwf. by apply list_elem_of_In. }
  destruct ss as [|s0 ss].
  - destruct its as [|it its].
    + simpl. by destruct (Py.truthy (dget q "require_invoice")).
    + cbn [map Py.truthy iter rbind]. rewrite Hits. cbn [rbind].
      destruct (Py.truthy (dget q "require_invoice")); cbn [rbind];
        by rewrite <- !app_assoc.
  - cbn [map Py.truthy iter rbind] in Hss |- *. rewrite Hss. cbn [rbind].
    destruct (Py.truthy (dget q "require_invoice")); cbn [rbind];
      by rewrite <- !app_assoc.
Qed.

(** C8, as the code has it. The text of a quote is a function of the quote.
    Its lines are: the service lines under their heading when the quote has
    service lines, otherwise one line per item with description, quantity,
    unit price and total under their heading; then the subtotal line; then
    the tax line, which is exactly [IGV: 0% (no factura)] when the quote
    requires no invoice and otherwise shows the 18% rate and the tax amount;
    then the total line. *)
Theorem quote_as_text_layout (q : doc) :
  quote_wf q ->
  exists body,
    app._quote_as_text q = Ok (Py.join_lines (body ++
      ["Subtotal: S/ " +:+ amount_text (dget q "subtotal");
       (if Py.truthy (dget q "require_invoice")
        then "IGV 18%: S/ " +:+ amount_text (dget q "igv")
        else "IGV: 0% (no factura)");
       "TOTAL: S/ " +:+ amount_text (dget q "total")])) /\
    body = match list_of (dget q "services_lines"), list_of (dget q "items") with
           | (_ :: _) as ss, _ =>
               ["Servicios solicitados:"] ++ map (fun s => "- " +:+ text_of s) ss ++ [""]
           | [], (_ :: _) as its => ["Ítems cotizados:"] ++ map item_text its ++ [""]
           | [], [] => []
           end.
Proof.
  intros H. eexists. split; [|reflexivity]. by apply quote_as_text_wf.
Qed.

(** ** From a quote to a work order *)

Lemma no_reference_falsy v : no_reference v -> Py.truthy v = false.
Proof. by intros [->| ->]. Qed.

Lemma reference_truthy v i : reference v i -> Py.truthy v = true.
Proof. intros [-> H]. simpl. by apply negb_true_iff, Z.eqb_neq. Qed.

(** C3, as the code has it. A quote whose [client_id] or [vehicle_id] is
    no reference (it is absent, null or 0) is not converted: the handler
    flashes the missing-association warning and writes nothing, so no work
    order and no note is inserted. A stored quote that carries both
    references is converted: exactly one work order is inserted, with status
    [abierto], every flag of the checklist at 0, a reason that names the
    quote and a description made of the quote's text, and exactly one note,
    for that work order, that records where it comes from. *)
Theorem quote_to_job_association clock (uid quote_id : Z) (w : world) (q : doc) :
  TinyDB.get "quotes" (TinyDB.field_eq "id" (VInt quote_id)) (store w) = Some q ->
  (no_reference (dget q "vehicle_id") \/ no_reference (dget q "client_id") ->
   app.quote_to_job clock uid quote_id w =
     (Ok (Redirect "quote_print" [("quote_id", quote_id)]), flashed MissingAssociation w))
  /\
  (forall veh cli n,
     reference (dget q "vehicle_id") veh -> reference (dget q "client_id") cli ->
     quote_wf q -> seq_inv (store w) n ->
     exists w' job note,
       app.quote_to_job clock uid quote_id w =
         (Ok (Redirect "job_detail" [("job_id", n)]), w') /\
       TinyDB.rows (store w') "jobs" = TinyDB.rows (store w) "jobs" ++ [job] /\
       TinyDB.rows (store w') "notes" = TinyDB.rows (store w) "notes" ++ [note] /\
       job = <["id" := VInt n]> (job_of_quote uid quote_id q veh (clock (ticks w))) /\
       note = <["id" := VInt (n + 1)]>
                (note_of_quote uid quote_id n (clock (S (ticks w)))) /\
       job !! "status" = Some (VStr "abierto") /\
       job !! "checklist" = Some (VDict (map (fun k => (k, VInt 0)) app.CHECKLIST)) /\
       job !! "reason" = Some (VStr ("Cotización #" +:+ pretty quote_id)) /\
       (exists text, app._quote_as_text q = Ok text /\
          job !! "description" =
            Some (VStr ("Creado desde Cotización #" +:+ pretty quote_id
                        +:+ String "010" (String "010" "") +:+ text))) /\
       note !! "job_id" = Some (VInt n)).
Proof.
  intros Hq. split.
  - intros Hno. unfold app.quote_to_job.
    unfold bind at 1. unfold app.get_, db_read. rewrite Hq.
    assert (negb (Py.truthy (dget q "vehicle_id")) || negb (Py.truthy (dget q "client_id"))
            = true) as ->.
    { destruct Hno as [H|H]; rewrite (no_reference_falsy _ H); simpl; [done|].
      apply orb_true_r. }
    reflexivity.
  - intros veh cli n Hv Hc Hwf Hinv.
    pose proof (quote_as_text_wf q Hwf) as Htext.
    set (now1 := clock (ticks w)). set (now2 := clock (S (ticks w))).
    set (job := <["id" := VInt n]> (job_of_quote uid quote_id q veh now1)).
    set (note := <["id" := VInt (n + 1)]> (note_of_quote uid quote_id n now2)).
    set (w1 := World (store w) (flashes w) (S (ticks w))).
    set (w2 := World (TinyDB.insert "jobs" job (bump n (store w1))) (flashes w1) (ticks w1)).
    set (w2' := World (store w2) (flashes w2) (S (ticks w2))).
    set (w3 := World (TinyDB.insert "notes" note (bump (n + 1) (store w2')))
                     (flashes w2') (ticks w2')).
    assert (H1 : app.insert "jobs" (job_of_quote uid quote_id q veh now1) w1 = (Ok n, w2)).
    { by apply insert_spec. }
    assert (H2 : app.insert "notes" (note_of_quote uid quote_id n now2) w2' = (Ok (n + 1), w3)).
    { apply insert_spec. simpl. by apply insert_seq_inv, bump_seq_inv. }
    exists (flashed ("Cotización #" +:+ pretty quote_id +:+ " convertida en OT #" +:+ pretty n,
                     "success") w3), job, note.
    split; [|split; [|split; [|split; [done|split; [done|]]]]].
    + unfold app.quote_to_job.
      unfold bind at 1. unfold app.get_, db_read. rewrite Hq.
      rewrite (reference_truthy _ _ Hv), (reference_truthy _ _ Hc). cbn [negb orb].
      unfold bind at 1, lift at 1. rewrite Htext.
      destruct Hv as [-> _]. unfold bind at 1, lift at 1. cbn [Py.int].
      unfold bind at 1, app.utcnow_isoformat at 1. fold w1. fold now1.
      change (mkdoc _) with (job_of_quote uid quote_id q veh now1) at 1.
      rewrite (bind_ok _ _ _ _ _ H1).
      unfold bind at 1, app.utcnow_isoformat at 1. fold w2'.
      change (clock (ticks w2)) with now2.
      change (mkdoc _) with (note_of_quote uid quote_id n now2) at 1.
      rewrite (bind_ok _ _ _ _ _ H2). reflexivity.
    + simpl. rewrite rows_insert, decide_False by done.
      rewrite bump_rows by done. rewrite rows_insert, decide_True by done.
      by rewrite bump_rows.
    + simpl. rewrite rows_insert, decide_True by done.
      rewrite bump_rows by done. rewrite rows_insert, decide_False by done.
      by rewrite bump_rows.
    + subst job note. unfold job_of_quote, note_of_quote.
      split; [lookup_doc|]. split; [lookup_doc|]. split; [lookup_doc|].
      split; [|lookup_doc].
      eexists. split; [exact Htext|]. lookup_doc.
Qed.

(** ** The totals of a quote *)



Lemma line_total_ok_wf it : line_total_ok it -> item_wf it.
Proof. intros (d & q & p & ->). by eexists _, _, _, _. Qed.

Lemma item_total it :
  item_wf it ->
  exists t, field it "total" = VFloat t /\ item_subscript it "total" = Ok (VFloat t).
Proof. intros (d & q & p & t & ->). by exists t. Qed.

Lemma sum_totals_eq its : forall acc,
  Forall item_wf its ->
  fold_left (fun acc i => let* a := acc in
                          let* t := item_subscript i "total" in Py.add a t) its acc =
  fold_left (fun acc v => let* a := acc in Py.add a v)
            (map (fun it => field it "total") its) acc.
Proof.
  induction its as [|it its IH]; intros acc H; [done|].
  apply Forall_cons in H as [Hit H]. simpl. rewrite <- IH by done. f_equal.
  destruct (item_total it Hit) as (t & -> & ->). by destruct acc.
Qed.

Lemma sum_amounts its : forall acc,
  Forall item_wf its -> is_amount acc ->
  exists v, fold_left (fun acc v => let* a := acc in Py.add a v)
                      (map (fun it => field it "total") its) (Ok acc) = Ok v /\
            is_amount v.
Proof.
  induction its as [|it its IH]; intros acc H Hacc; [by exists acc|].
  apply Forall_cons in H as [Hit H]. simpl.
  destruct (item_total it Hit) as (t & -> & _).
  destruct Hacc as [->|[x ->]]; simpl; apply IH; auto; right; eauto.
Qed.

(** [_totals] on the items of a stored quote: it returns, and what it
    returns satisfies the three equations. *)
Lemma totals_spec its ri :
  Forall item_wf its ->
  exists sub igv tot,
    app._totals (VList its) (Py.truthy (VInt ri)) app.IGV_RATE = Ok (sub, igv, tot) /\
    subtotal_of its = Ok sub /\
    igv_of sub app.IGV_RATE ri = Ok igv /\
    total_of sub igv = Ok tot /\
    is_amount sub /\ is_amount igv /\ is_amount tot.
Proof.
  intros Hwf. unfold app._totals, subtotal_of, igv_of, total_of, app.sum_totals, Py.sum.
  cbn [iter rbind]. rewrite sum_totals_eq by done.
  destruct (sum_amounts its (VInt 0) Hwf) as (s & -> & Hs); [by left|].
  cbn [rbind Py.truthy].
  assert ((if negb (ri =? 0) then app.IGV_RATE else 0%float) =
          (if ri =? 0 then 0%float else app.IGV_RATE)) as -> by (by destruct (ri =? 0)).
  destruct Hs as [->|[x ->]]; cbn [Py.round2 rbind Py.mul_float Py.add];
    change (Py.float_of_Z 0) with (Ok 0%float); cbn [rbind Py.round2];
    eexists _, _, _; repeat split; try reflexivity;
    first [ by left | right; eauto ].
Qed.




(** ** Duplicating a quote *)

Lemma ids_below_found t i (db : storage) (q : doc) n :
  ids_below (TinyDB.rows db t) n ->
  TinyDB.get t (TinyDB.field_eq "id" (VInt i)) db = Some q ->
  q !! "id" = Some (VInt i) /\ i < n.
Proof.
  intros Hb Hq. unfold TinyDB.get in Hq. apply find_some in Hq as [Hin Hm].
  unfold ids_below in Hb. rewrite Forall_forall in Hb.
  destruct (Hb q) as (j & Hj & Hlt); [by apply list_elem_of_In|].
  unfold TinyDB.field_eq in Hm. rewrite Hj in Hm. simpl in Hm.
  apply Z.eqb_eq in Hm. by subst j.
Qed.

(** [insert] keeps the ids of a table below the counter. *)
Lemma insert_ids_below t t' d (db : storage) n :
  ids_below (TinyDB.rows db t') n ->
  ids_below (TinyDB.rows (TinyDB.insert t (<["id" := VInt n]> d) (bump n db)) t') (n + 1).
Proof.
  intros H.
  assert (Hup : forall ds, ids_below ds n -> ids_below ds (n + 1)).
  { intros ds Hds. eapply Forall_impl; [exact Hds|]. intros x (i & Hi & Hlt). exists i. split; [done|lia]. }
  assert (Hb : ids_below (TinyDB.rows (bump n db) t') (n + 1)).
  { unfold bump. rewrite rows_update. case_decide; [|by apply Hup].
    subst t'. apply Forall_forall. intros x Hx. apply list_elem_of_In, in_map_iff in Hx as (y & <- & Hy).
    unfold ids_below in H. rewrite Forall_forall in H.
    destruct (H y) as (i & Hi & Hlt); [by apply list_elem_of_In|].
    exists i. split; [|lia]. destruct (app.seq_query y); [|done].
    rewrite lookup_union_r; [done|]. lookup_doc. }
  rewrite rows_insert. case_decide; [|done].
  subst t'. apply Forall_app. split; [done|].
  constructor; [|constructor]. exists n. split; [by rewrite lookup_insert_eq|lia].
Qed.

(** C4, as the code has it. Duplicating an existing quote inserts one new
    quote that has the items, the invoice flag and the other copied fields
    of the source, and the same subtotal, igv and total, recomputed from the
    copied items. Its id is new: it differs from the id of the source. Its
    [created_at] and [created_by] are not copied but set again, to the
    current timestamp and the current user. Duplicating a quote id that is
    not in the store flashes the not-found message and inserts nothing. *)
Theorem quote_duplicate_copies clock (uid quote_id : Z) (w : world) :
  (TinyDB.get "quotes" (TinyDB.field_eq "id" (VInt quote_id)) (store w) = None ->
   app.quote_duplicate clock uid quote_id w =
     (Ok (Redirect "dashboard" []), flashed QuoteNotFound w))
  /\
  (forall q n,
     TinyDB.get "quotes" (TinyDB.field_eq "id" (VInt quote_id)) (store w) = Some q ->
     totals_ok q -> seq_inv (store w) n ->
     ids_below (TinyDB.rows (store w) "quotes") n ->
     exists w' q',
       app.quote_duplicate clock uid quote_id w =
         (Ok (Redirect "quote_print" [("quote_id", n)]), w') /\
       TinyDB.rows (store w') "quotes" = TinyDB.rows (store w) "quotes" ++ [q'] /\
       Forall (fun k => q' !! k = Some (dget q k)) app.DUPLICATED_KEYS /\
       q' !! "items" = q !! "items" /\
       q' !! "require_invoice" = q !! "require_invoice" /\
       q' !! "subtotal" = q !! "subtotal" /\
       q' !! "igv" = q !! "igv" /\
       q' !! "total" = q !! "total" /\
       totals_ok q' /\
       q' !! "id" = Some (VInt n) /\ q !! "id" = Some (VInt quote_id) /\ quote_id < n /\
       q' !! "created_at" = Some (VStr (clock (ticks w))) /\
       q' !! "created_by" = Some (VInt uid)).
Proof.
  split.
  - intros Hq. unfold app.quote_duplicate.
    unfold bind at 1. unfold app.get_, db_read. rewrite Hq. reflexivity.
  - intros q n Hq Hok Hinv Hbelow.
    destruct Hok as (its & ri & sub & igv & tot & Hi & Hits & Hri & Hrate & Hs & Hg & Ht
                     & Es & Eg & Et).
    destruct (ids_below_found _ _ _ _ _ Hbelow Hq) as [Hid Hlt].
    unfold app.quote_duplicate.
    unfold bind at 1. unfold app.get_, db_read. rewrite Hq.
    set (base := mkdoc (map (fun k => (k, dget q k)) app.DUPLICATED_KEYS)).
    assert (Hbase : Forall (fun k => base !! k = Some (dget q k)) app.DUPLICATED_KEYS).
    { subst base. unfold app.DUPLICATED_KEYS. cbn [map]. repeat constructor; lookup_doc. }
    assert (Hbi : base !! "items" = Some (VList its)).
    { subst base. unfold app.DUPLICATED_KEYS. cbn [map]. rewrite <- (dget_Some _ _ _ Hi). lookup_doc. }
    assert (Hbr : base !! "require_invoice" = Some (VInt ri)).
    { subst base. unfold app.DUPLICATED_KEYS. cbn [map]. rewrite <- (dget_Some _ _ _ Hri). lookup_doc. }
    assert (Hbrate : base !! "igv_rate" = Some (VFloat app.IGV_RATE)).
    { subst base. unfold app.DUPLICATED_KEYS. cbn [map]. rewrite <- (dget_Some _ _ _ Hrate). lookup_doc. }
    rewrite (dget_or_Some _ _ _ _ Hbi), (dget_Some _ _ _ Hbr).
    destruct (totals_spec its ri) as (sub' & igv' & tot' & Ht' & Es' & Eg' & Et' & _).
    { eapply Forall_impl; [exact Hits|]. apply line_total_ok_wf. }
    assert (sub' = sub) as -> by congruence.
    assert (igv' = igv) as -> by congruence.
    assert (tot' = tot) as -> by congruence.
    unfold bind at 1, lift at 1. rewrite Ht'.
    unfold bind at 1, app.utcnow_isoformat at 1.
    set (w1 := World (store w) (flashes w) (S (ticks w))).
    match goal with
    | |- context [app.insert "quotes" ?d] =>
        set (d0 := d);
        pose proof (insert_spec "quotes" d0 w1 n Hinv) as Hins
    end.
    rewrite (bind_ok _ _ _ _ _ Hins).
    assert (Hkeep : forall k v, base !! k = Some v -> k <> "subtotal" -> k <> "igv" ->
              k <> "total" -> k <> "created_at" -> k <> "created_by" -> k <> "id" ->
              (<["id" := VInt n]> d0) !! k = Some v).
    { intros k v Hk H1 H2 H3 H4 H5 H6. rewrite lookup_insert_ne by done.
      subst d0. rewrite lookup_union_r; [done|]. lookup_doc. }
    assert (Hnew : forall k v, mkdoc [("subtotal", sub); ("igv", igv); ("total", tot);
                    ("created_at", VStr (clock (ticks w))); ("created_by", VInt uid)] !! k
                    = Some v -> k <> "id" -> (<["id" := VInt n]> d0) !! k = Some v).
    { intros k v Hk H1. rewrite lookup_insert_ne by done.
      subst d0. by apply lookup_union_Some_l. }
    eexists _, (<["id" := VInt n]> d0). split; [reflexivity|]. cbn [store flashes ticks].
    split; [rewrite rows_insert, decide_True by done; by rewrite bump_rows|].
    assert (H_items : (<["id" := VInt n]> d0) !! "items" = Some (VList its)) by (by apply Hkeep).
    assert (H_ri : (<["id" := VInt n]> d0) !! "require_invoice" = Some (VInt ri)) by (by apply Hkeep).
    assert (H_rate : (<["id" := VInt n]> d0) !! "igv_rate" = Some (VFloat app.IGV_RATE))
      by (by apply Hkeep).
    assert (H_sub : (<["id" := VInt n]> d0) !! "subtotal" = Some sub) by (apply Hnew; [lookup_doc|done]).
    assert (H_igv : (<["id" := VInt n]> d0) !! "igv" = Some igv) by (apply Hnew; [lookup_doc|done]).
    assert (H_tot : (<["id" := VInt n]> d0) !! "total" = Some tot) by (apply Hnew; [lookup_doc|done]).
    split.
    { unfold app.DUPLICATED_KEYS in Hbase |- *.
      repeat match goal with
             | H : Forall _ (_ :: _) |- _ => apply Forall_cons in H as [? H]
             end.
      repeat constructor; by apply Hkeep. }
    split; [congruence|]. split; [congruence|]. split; [congruence|].
    split; [congruence|]. split; [congruence|].
    split; [exists its, ri, sub, igv, tot; repeat split; assumption|].
    split; [apply lookup_insert_eq|]. split; [assumption|]. split; [assumption|].
    split; apply Hnew; first [lookup_doc | discriminate].
Qed.

(** ** Sorting *)

Lemma ltb_false_le s t : String.ltb s t = false -> String.le t s.
Proof.
  unfold String.ltb, String.le, String.leb. rewrite (String.compare_antisym t s).
  by destruct (String.compare s t).
Qed.

Lemma ltb_true_le s t : String.ltb s t = true -> String.le s t.
Proof.
  unfold String.ltb, String.le, String.leb. by destruct (String.compare s t).
Qed.

Section Sorting.
Context {A : Type}.

Lemma key_le_trans (x y z : value * A) : key_le x y -> key_le y z -> key_le x z.
Proof. unfold key_le. apply (transitivity (R := String.le)). Qed.

Lemma insert_sorted_str (x : value * A) (l : list (value * A)) :
  (exists s, fst x = VStr s) -> str_keyed l ->
  exists r,
    Py.insert_sorted x l = Ok r /\ Permutation r (x :: l) /\ str_keyed r /\
    (StronglySorted key_le l -> StronglySorted key_le r).
Proof.
  intros [s Hs] Hl. induction l as [|y l IH].
  - exists [x]. simpl. split; [done|]. split; [done|]. split.
    + apply Forall_cons. split; [eauto|constructor].
    + intros _. repeat constructor.
  - apply Forall_cons in Hl as [[t Ht] Hl]. destruct (IH Hl) as (r & Hr & Hp & Hk & Hsorted).
    simpl. rewrite Ht, Hs. cbn [Py.lt rbind].
    destruct (String.ltb t s) eqn:E.
    + rewrite Hr. cbn [rbind]. exists (y :: r). split; [done|]. split; [|split].
      * rewrite Hp. apply perm_swap.
      * apply Forall_cons. split; [eauto|done].
      * intros Hss. apply StronglySorted_inv in Hss as [Hss Hy].
        constructor; [by apply Hsorted|]. rewrite Hp. constructor; [|done].
        unfold key_le. rewrite Ht, Hs. by apply ltb_true_le.
    + exists (x :: y :: l). split; [done|]. split; [done|]. split.
      * apply Forall_cons. split; [eauto|]. apply Forall_cons. split; [eauto|done].
      * intros Hss. constructor; [done|].
        assert (Hxy : key_le x y).
        { unfold key_le. rewrite Ht, Hs. by apply ltb_false_le. }
        constructor; [done|]. apply StronglySorted_inv in Hss as [_ Hy].
        eapply Forall_impl; [exact Hy|]. intros z Hz. by apply (key_le_trans x y z).
Qed.

Lemma sort_keyed_str (l : list (value * A)) :
  str_keyed l ->
  exists r, Py.sort_keyed l = Ok r /\ Permutation r l /\ str_keyed r /\
            StronglySorted key_le r.
Proof.
  intros Hl. induction l as [|x l IH].
  - exists []. repeat split; auto; constructor.
  - apply Forall_cons in Hl as [Hx Hl]. destruct (IH Hl) as (r & Hr & Hp & Hk & Hs).
    destruct (insert_sorted_str x r Hx Hk) as (r' & Hr' & Hp' & Hk' & Hs').
    exists r'. simpl. rewrite Hr. cbn [rbind]. split; [done|]. split; [|auto].
    rewrite Hp'. by constructor.
Qed.

Context (key : A -> result value).

Lemma decorate_str (l : list A) :
  (forall x, In x l -> exists s, key x = Ok (VStr s)) ->
  rmap (fun x => let* k := key x in Ok (k, x)) l =
    Ok (map (fun x => (VStr (skey key x), x)) l).
Proof.
  intros H. apply rmap_ok. intros x Hx. destruct (H x Hx) as [s Hs].
  unfold skey. by rewrite Hs.
Qed.

(** The decorated pairs keep their keys through the sort. *)
Lemma sorted_undecorate (r : list (value * A)) :
  Forall (fun p => fst p = VStr (skey key (snd p))) r ->
  StronglySorted key_le r ->
  StronglySorted (fun a b => String.le (skey key a) (skey key b)) (map snd r).
Proof.
  intros Hd Hs. induction Hs as [|p r Hs IH Hp]; simpl; [constructor|].
  apply Forall_cons in Hd as [Hp0 Hd]. constructor; [by apply IH|].
  apply Forall_forall. intros b Hb. apply list_elem_of_In, in_map_iff in Hb as (p' & <- & Hin).
  rewrite Forall_forall in Hp, Hd. apply list_elem_of_In in Hin.
  specialize (Hp p' Hin). specialize (Hd p' Hin).
  unfold key_le in Hp. by rewrite Hp0, Hd in Hp.
Qed.

Lemma decorated_ok (l : list A) :
  Forall (fun p => fst p = VStr (skey key (snd p)))
         (map (fun x => (VStr (skey key x), x)) l).
Proof. apply Forall_forall. intros p Hp. apply list_elem_of_In, in_map_iff in Hp as (x & <- & _). done. Qed.

Lemma decorated_str_keyed (l : list A) :
  str_keyed (map (fun x => (VStr (skey key x), x)) l).
Proof. apply Forall_forall. intros p Hp. apply list_elem_of_In, in_map_iff in Hp as (x & <- & _). simpl. eauto. Qed.

(** [sorted(l, key=key)] with str keys: a permutation of [l], in
    non-decreasing order of the keys. *)
Lemma sorted_ascending (l : list A) :
  (forall x, In x l -> exists s, key x = Ok (VStr s)) ->
  exists r, Py.sorted key false l = Ok r /\ Permutation r l /\
            StronglySorted (fun a b => String.le (skey key a) (skey key b)) r.
Proof.
  intros H. unfold Py.sorted. rewrite (decorate_str l H). cbn [rbind].
  destruct (sort_keyed_str _ (decorated_str_keyed l)) as (r & Hr & Hp & _ & Hs).
  rewrite Hr. cbn [rbind]. exists (map snd r). split; [done|]. split.
  - rewrite Hp. rewrite map_map. simpl. by rewrite map_id.
  - apply sorted_undecorate; [|done]. rewrite Hp. apply decorated_ok.
Qed.

End Sorting.

(** ** Plates *)

Lemma to_upper_idem a : Py.to_upper (Py.to_upper a) = Py.to_upper a.
Proof. destruct a as [[] [] [] [] [] [] [] []]; reflexivity. Qed.

Lemma is_space_to_upper a : Py.is_space (Py.to_upper a) = Py.is_space a.
Proof. destruct a as [[] [] [] [] [] [] [] []]; reflexivity. Qed.

Lemma upper_idem s : Py.upper (Py.upper s) = Py.upper s.
Proof.
  unfold Py.upper. induction s as [|a s IH]; cbn [Py.smap]; [done|].
  by rewrite to_upper_idem, IH.
Qed.

Lemma lstrip_upper s : Py.lstrip (Py.upper s) = Py.upper (Py.lstrip s).
Proof.
  unfold Py.upper. induction s as [|a s IH]; cbn [Py.smap Py.lstrip]; [done|].
  rewrite is_space_to_upper. by destruct (Py.is_space a).
Qed.

Lemma rstrip_upper s : Py.rstrip (Py.upper s) = Py.upper (Py.rstrip s).
Proof.
  unfold Py.upper. induction s as [|a s IH]; [done|].
  cbn [Py.smap Py.rstrip]. rewrite IH, is_space_to_upper.
  destruct (Py.rstrip s); cbn [Py.smap]; [|done]. by destruct (Py.is_space a).
Qed.

(** [s.upper().strip()] and [s.strip().upper()] are the same plate. *)
Lemma strip_upper s : Py.strip (Py.upper s) = Py.upper (Py.strip s).
Proof. unfold Py.strip. by rewrite lstrip_upper, rstrip_upper. Qed.

Lemma rstrip_idem s : Py.rstrip (Py.rstrip s) = Py.rstrip s.
Proof.
  induction s as [|a s IH]; [done|]. cbn [Py.rstrip].
  destruct (Py.rstrip s) as [|b r] eqn:E.
  - destruct (Py.is_space a) eqn:Ea; [done|]. cbn [Py.rstrip]. by rewrite Ea.
  - cbn [Py.rstrip] in IH |- *. by rewrite IH.
Qed.

Lemma lstrip_rstrip_lstrip s : Py.lstrip (Py.rstrip (Py.lstrip s)) = Py.rstrip (Py.lstrip s).
Proof.
  induction s as [|a s IH]; [done|]. cbn [Py.lstrip].
  destruct (Py.is_space a) eqn:Ea; [done|].
  cbn [Py.rstrip]. destruct (Py.rstrip s); rewrite ?Ea; cbn [Py.lstrip]; by rewrite Ea.
Qed.

Lemma strip_idem s : Py.strip (Py.strip s) = Py.strip s.
Proof. unfold Py.strip. by rewrite lstrip_rstrip_lstrip, rstrip_idem. Qed.

(** A plate that was normalised is its own normal form: this is the case of
    every plate [vehicles_new], [vehicles_edit] and [clients_new] store. *)
Lemma plate_norm_idem s : plate_norm (plate_norm s) = plate_norm s.
Proof.
  unfold plate_norm. by rewrite (strip_upper s), upper_idem, strip_upper, strip_idem.
Qed.

Lemma sorted_clients_ok w :
  Forall named (TinyDB.rows (store w) "clients") ->
  exists cs, app.sorted_clients w = (Ok cs, w).
Proof.
  intros H. unfold app.sorted_clients, bind, app.all_, db_read, lift, TinyDB.all.
  destruct (sorted_ascending app.full_name_key (TinyDB.rows (store w) "clients"))
    as (r & -> & _).
  - intros c Hc. rewrite Forall_forall in H. destruct (H c) as [s Hs]; [by apply list_elem_of_In|].
    unfold app.full_name_key. rewrite Hs. eauto.
  - by exists r.
Qed.

Lemma plate_taken_In plate (vs : docs) (v : doc) :
  In v vs -> v !! "plate" = Some (VStr plate) -> app.plate_taken plate vs = true.
Proof.
  intros Hin Hp. unfold app.plate_taken. apply existsb_exists. exists v. split; [done|].
  rewrite (dget_Some _ _ _ Hp). simpl. rewrite String.eqb_refl. simpl.
  apply negb_true_iff, Nat.eqb_neq. intros Hs. apply map_size_empty_iff in Hs.
  subst v. by rewrite lookup_empty in Hp.
Qed.




(** ** The printable work order *)




(** ** The examples *)

Lemma the_doc_stored t i w :
  match TinyDB.get t (TinyDB.field_eq "id" (VInt i)) (store w) with
  | Some _ => True
  | None => False
  end ->
  TinyDB.get t (TinyDB.field_eq "id" (VInt i)) (store w) = Some (the_doc t i w).
Proof. unfold the_doc. by destruct (TinyDB.get _ _ _). Qed.

Ltac stored := apply the_doc_stored; vm_compute; exact I.


Lemma Forall_check {A} (b : A -> bool) (P : A -> Prop) (l : list A) :
  (forall x, b x = true -> P x) -> forallb b l = true -> Forall P l.
Proof.
  intros Hb H. apply Forall_forall. intros x Hx.
  apply Hb. rewrite forallb_forall in H. apply H. by apply list_elem_of_In.
Qed.

Lemma id_below_sound n (d : doc) :
  id_below n d = true -> exists i, d !! "id" = Some (VInt i) /\ i < n.
Proof.
  unfold id_below. destruct (d !! "id") as [[| j | | | |]|]; try done.
  intros H. exists j. split; [done|]. by apply Z.ltb_lt.
Qed.

Lemma id_below_has_id n (d : doc) : id_below n d = true -> has_id d.
Proof. intros H. destruct (id_below_sound n d H) as (i & Hi & _). by exists i. Qed.





Lemma quote5_stored :
  TinyDB.get "quotes" (TinyDB.field_eq "id" (VInt 5)) (store w_quote0) = Some quote5.
Proof. stored. Qed.

Lemma quote6_stored :
  TinyDB.get "quotes" (TinyDB.field_eq "id" (VInt 6)) (store w_quote0) = Some quote6.
Proof. stored. Qed.

Lemma quote5_wf : quote_wf quote5.
Proof.
  split; [|split; [|split; [|split]]].
  - exists []. by_eval.
  - exists (list_of (dget quote5 "items")). split; [by_eval|].
    forall_items ltac:(eexists _, _, _, _; reflexivity).
  - exists (dget quote5 "subtotal"). split; [by_eval|]. right. eexists. by_eval.
  - exists (dget quote5 "igv"). split; [by_eval|]. right. eexists. by_eval.
  - exists (dget quote5 "total"). split; [by_eval|]. right. eexists. by_eval.
Qed.

Lemma quote5_totals_ok : totals_ok quote5.
Proof.
  exists (list_of (dget quote5 "items")), 0, (dget quote5 "subtotal"),
         (dget quote5 "igv"), (dget quote5 "total").
  split; [by_eval|]. split; [forall_items ltac:(idtac; line_ok)|].
  repeat split; by_eval.
Qed.

Lemma w_quote0_seq : seq_inv (store w_quote0) 7.
Proof. seq_inv_by 7. Qed.

Lemma insert_ids_strictly_increasing_witness :
  exists ids w',
    run_ops ops0 w_seeded = (Ok ids, w') /\
    StronglySorted Z.lt ids /\ NoDup ids /\ Forall (Z.le 1) ids.
Proof. apply (insert_ids_strictly_increasing ops0 w_seeded 1). seq_inv_by 1. Defined.



Lemma quote_to_job_association_witness :
  app.quote_to_job clock0 1 6 w_quote0 =
    (Ok (Redirect "quote_print" [("quote_id", 6)]), flashed MissingAssociation w_quote0)
  /\
  exists w' job note,
    app.quote_to_job clock0 1 5 w_quote0 = (Ok (Redirect "job_detail" [("job_id", 7)]), w') /\
    TinyDB.rows (store w') "jobs" = TinyDB.rows (store w_quote0) "jobs" ++ [job] /\
    TinyDB.rows (store w') "notes" = TinyDB.rows (store w_quote0) "notes" ++ [note] /\
    job !! "status" = Some (VStr "abierto") /\
    note !! "job_id" = Some (VInt 7).
Proof.
  split.
  - apply (proj1 (quote_to_job_association clock0 1 6 w_quote0 quote6 quote6_stored)).
    right. right. by_eval.
  - destruct (proj2 (quote_to_job_association clock0 1 5 w_quote0 quote5 quote5_stored)
                2 1 7) as (w' & job & note & H1 & H2 & H3 & _ & _ & H4 & _ & _ & _ & H5).
    + split; [by_eval | discriminate].
    + split; [by_eval | discriminate].
    + exact quote5_wf.
    + exact w_quote0_seq.
    + exists w', job, note. repeat split; assumption.
Defined.

(** The claim of C3 fails on quote 6, stored by [quotes_create] for a form
    sent with [client_id] 0: both references are present and not null, and
    the conversion is refused, without a work order or a note. *)
Lemma quote_to_job_zero_id_counterexample :
  TinyDB.get "quotes" (TinyDB.field_eq "id" (VInt 6)) (store w_quote0) = Some quote6 /\
  quote6 !! "client_id" = Some (VInt 0) /\
  quote6 !! "vehicle_id" = Some (VInt 2) /\
  app.quote_to_job clock0 1 6 w_quote0 =
    (Ok (Redirect "quote_print" [("quote_id", 6)]), flashed MissingAssociation w_quote0) /\
  TinyDB.rows (store (after (app.quote_to_job clock0 1 6) w_quote0)) "jobs"
    = TinyDB.rows (store w_quote0) "jobs" /\
  TinyDB.rows (store (after (app.quote_to_job clock0 1 6) w_quote0)) "notes"
    = TinyDB.rows (store w_quote0) "notes".
Proof. split; [exact quote6_stored|]. repeat split; by_eval. Qed.

Lemma quote_duplicate_copies_witness :
  app.quote_duplicate clock0 1 99 w_quote0 =
    (Ok (Redirect "dashboard" []), flashed QuoteNotFound w_quote0)
  /\
  exists w' q',
    app.quote_duplicate clock0 1 5 w_quote0 =
      (Ok (Redirect "quote_print" [("quote_id", 7)]), w') /\
    TinyDB.rows (store w') "quotes" = TinyDB.rows (store w_quote0) "quotes" ++ [q'] /\
    q' !! "items" = quote5 !! "items" /\
    q' !! "total" = quote5 !! "total" /\
    q' !! "id" = Some (VInt 7).
Proof.
  split.
  - apply (proj1 (quote_duplicate_copies clock0 1 99 w_quote0)). by_eval.
  - destruct (proj2 (quote_duplicate_copies clock0 1 5 w_quote0) quote5 7)
      as (w' & q' & H1 & H2 & _ & H3 & _ & _ & _ & H4 & _ & H5 & _).
    + exact quote5_stored.
    + exact quote5_totals_ok.
    + exact w_quote0_seq.
    + apply (Forall_check (id_below 7)); [apply id_below_sound | by_eval].
    + exists w', q'. repeat split; assumption.
Defined.

(** The claim of C4 fails on quote 5, created by user 1 and duplicated by
    user 1: the duplicate, quote 7, has the [created_by] of its source. *)
Lemma quote_duplicate_created_by_counterexample :
  fst (app.quote_duplicate clock0 1 5 w_quote0) = Ok (Redirect "quote_print" [("quote_id", 7)]) /\
  TinyDB.get "quotes" (TinyDB.field_eq "id" (VInt 7)) (store w_duplicated) = Some quote7 /\
  quote5 !! "created_by" = Some (VInt 1) /\
  quote7 !! "created_by" = quote5 !! "created_by".
Proof.
  split; [by_eval|]. split; [stored|]. split; by_eval.
Qed.

Lemma delivery_date_set_on_entregado_witness :
  exists w' j',
    change_statuses clock0 4 reopen w_job = (Ok tt, w') /\
    TinyDB.get "jobs" (TinyDB.field_eq "id" (VInt 4)) (store w') = Some j' /\
    j' !! "status" = status_after (job4 !! "status") reopen /\
    j' !! "delivery_date" =
      delivery_after clock0 (ticks w_job) (job4 !! "delivery_date") reopen.
Proof.
  apply (delivery_date_set_on_entregado clock0 4 reopen w_job job4).
  stored.
Defined.

(** The claim of C5 fails on work order 4, created by [jobs_new] with a null
    delivery date, then set to [entregado] and back to [abierto]: its status
    is [abierto] and its delivery date is the timestamp of the delivery. *)
Lemma delivery_date_kept_counterexample :
  job4 !! "delivery_date" = Some VNone /\
  change_statuses clock0 4 reopen w_job = (Ok tt, w_reopened) /\
  TinyDB.get "jobs" (TinyDB.field_eq "id" (VInt 4)) (store w_reopened) = Some job4_reopened /\
  job4_reopened !! "status" = Some (VStr "abierto") /\
  job4_reopened !! "delivery_date" = Some (VStr (clock0 (ticks w_job))).
Proof.
  split; [by_eval|]. split; [by_eval|]. split; [stored|].
  split; by_eval.
Qed.


Lemma clients_delete_cascades_witness :
  exists w',
    app.clients_delete 1 w_quote0 = (Ok (Redirect "clients_list" []), w') /\
    TinyDB.get "clients" (TinyDB.field_eq "id" (VInt 1)) (store w') = None /\
    (forall v, In v (TinyDB.rows (store w') "vehicles") ->
       Py.eq (dget v "client_id") (VInt 1) = false) /\
    TinyDB.rows (store w') "notes" = TinyDB.rows (store w_quote0) "notes" /\
    TinyDB.rows (store w') "quotes" = TinyDB.rows (store w_quote0) "quotes".
Proof.
  destruct (clients_delete_cascades 1 w_quote0) as (w' & H1 & H2 & H3 & _ & H4 & H5).
  - apply (Forall_check (id_below 100)); [apply id_below_has_id | by_eval].
  - apply (Forall_check (id_below 100)); [apply id_below_has_id | by_eval].
  - exists w'. repeat split; assumption.
Defined.

Lemma quote_as_text_layout_witness :
  exists body,
    app._quote_as_text quote5 = Ok (Py.join_lines (body ++
      ["Subtotal: S/ " +:+ amount_text (dget quote5 "subtotal");
       (if Py.truthy (dget quote5 "require_invoice")
        then "IGV 18%: S/ " +:+ amount_text (dget quote5 "igv")
        else "IGV: 0% (no factura)");
       "TOTAL: S/ " +:+ amount_text (dget quote5 "total")])) /\
    body = match list_of (dget quote5 "services_lines"), list_of (dget quote5 "items") with
           | (_ :: _) as ss, _ =>
               ["Servicios solicitados:"] ++ map (fun s => "- " +:+ text_of s) ss ++ [""]
           | [], (_ :: _) as its => ["Ítems cotizados:"] ++ map item_text its ++ [""]
           | [], [] => []
           end.
Proof. apply (quote_as_text_layout quote5). exact quote5_wf. Defined.

(** The claim of C8 fails on quote 5, which requires no invoice: its tax
    line is [IGV: 0% (no factura)], and no line of its text is the tax line
    the specification words. *)
Lemma quote_text_tax_line_counterexample :
  Py.truthy (dget quote5 "require_invoice") = false /\
  (let* t := app._quote_as_text quote5 in Ok (Py.splitlines t)) =
    Ok ["Ítems cotizados:";
        "- Pastillas · cant: 1.00 · p.u.: S/ 0.12 · total: S/ 0.12";
        "- Liquido · cant: 1.00 · p.u.: S/ 0.12 · total: S/ 0.12";
        "";
        "Subtotal: S/ 0.24";
        "IGV: 0% (no factura)";
        "TOTAL: S/ 0.24"] /\
  (let* t := app._quote_as_text quote5 in
   Ok (existsb (String.eqb SPEC_TAX_LINE) (Py.splitlines t))) = Ok false.
Proof. repeat split; by_eval. Qed.



(** * More of the application

    The rest of [app.py]: the store one call after the other, the users and
    the session, the handlers of clients, vehicles, work orders and quotes
    that the properties above leave out, and the pages that list them. *)

(** ** The store, one call after the other *)

Lemma find_app_None {A} (f : A -> bool) l x :
  List.find f l = None -> List.find f (l ++ [x]) = if f x then Some x else None.
Proof.
  induction l as [|y l IH]; simpl; [done|].
  destruct (f y); [done|]. exact IH.
Qed.

Lemma find_filter_neg {A} (f : A -> bool) l :
  List.find f (List.filter (fun x => negb (f x)) l) = None.
Proof.
  induction l as [|y l IH]; simpl; [done|].
  destruct (f y) eqn:E; simpl; [done|]. by rewrite E.
Qed.

Lemma find_None_Forall {A} (f : A -> bool) l :
  List.find f l = None <-> Forall (fun x => f x = false) l.
Proof.
  induction l as [|y l IH]; simpl.
  - split; [constructor|done].
  - destruct (f y) eqn:E.
    + split; [done|]. intros H. apply Forall_cons in H as [H _]. congruence.
    + rewrite IH. split; [by constructor|]. intros H. by apply Forall_cons in H as [_ H].
Qed.

(** The counter's patch leaves the [id] of a document alone. *)
Lemma bump_keeps_id n i (db : storage) t :
  List.find (TinyDB.field_eq "id" i) (TinyDB.rows (bump n db) t) = None <->
  List.find (TinyDB.field_eq "id" i) (TinyDB.rows db t) = None.
Proof.
  unfold bump. rewrite rows_update. case_decide; [|done]. subst t.
  rewrite find_map_stable.
  - by destruct (List.find _ _).
  - intros d. destruct (app.seq_query d); [|done]. by apply field_eq_patch.
Qed.

(** X1. [insert] then [get_]. In a store whose counter stands at [n] and
    whose table [t] has no document of id [n], [insert(t, d)] returns [n]
    and [get_(t, n)] then returns [d] with its new id; the document is the
    last row of [t], no other table but the counter's changes, and the
    counter stands at [n + 1]. *)
Theorem insert_then_get (t : string) (d : doc) (w : world) (n : Z) :
  seq_inv (store w) n ->
  TinyDB.get t (TinyDB.field_eq "id" (VInt n)) (store w) = None ->
  exists w',
    app.insert t d w = (Ok n, w') /\
    app.get_ t (VInt n) w' = (Ok (Some (<["id" := VInt n]> d)), w') /\
    (t <> "seq" -> TinyDB.rows (store w') t = TinyDB.rows (store w) t ++ [<["id" := VInt n]> d]) /\
    (forall t', t' <> t -> t' <> "seq" -> TinyDB.rows (store w') t' = TinyDB.rows (store w) t') /\
    seq_inv (store w') (n + 1) /\
    flashes w' = flashes w /\ ticks w' = ticks w.
Proof.
  intros Hinv Hnone. eexists. split; [by apply insert_spec|].
  cbn [store flashes ticks]. split; [|split; [|split; [|split]]].
  - unfold app.get_, db_read. cbn [store]. f_equal. f_equal.
    unfold TinyDB.get. rewrite rows_insert, decide_True by done.
    rewrite find_app_None.
    + unfold TinyDB.field_eq. rewrite lookup_insert_eq. simpl. by rewrite Z.eqb_refl.
    + by apply bump_keeps_id.
  - intros Ht. rewrite rows_insert, decide_True by done. by rewrite bump_rows.
  - intros t' H1 H2. rewrite rows_insert, decide_False by done. by rewrite bump_rows.
  - by apply insert_seq_inv, bump_seq_inv.
  - done.
Qed.

(** X2. [remove] then [get_]. After [remove(t, i)] no document of [t] is
    found under the id [i]: every document with that id is gone, not only the
    first. The other documents of [t] stay, in their order (a document
    without id is never removed), and no other table changes. *)
Theorem remove_then_get (t : string) (i : value) (w : world) :
  exists w',
    app.remove t i w = (Ok tt, w') /\
    app.get_ t i w' = (Ok None, w') /\
    TinyDB.rows (store w') t =
      List.filter (fun d => negb (TinyDB.field_eq "id" i d)) (TinyDB.rows (store w) t) /\
    (forall d, In d (TinyDB.rows (store w) t) -> d !! "id" = None ->
       In d (TinyDB.rows (store w') t)) /\
    (forall t', t' <> t -> TinyDB.rows (store w') t' = TinyDB.rows (store w) t') /\
    flashes w' = flashes w /\ ticks w' = ticks w.
Proof.
  eexists. split; [reflexivity|]. cbn [store flashes ticks].
  split; [|split; [|split; [|split]]].
  - unfold app.get_, db_read. cbn [store]. f_equal. f_equal.
    unfold TinyDB.get. rewrite rows_remove, decide_True by done.
    apply find_filter_neg.
  - by rewrite rows_remove, decide_True.
  - intros d Hd Hid. rewrite rows_remove, decide_True by done.
    apply filter_In. split; [done|]. by rewrite field_eq_None.
  - intros t' Ht'. by rewrite rows_remove, decide_False.
  - done.
Qed.

Lemma map_id_on {A} (f : A -> A) l : (forall x, In x l -> f x = x) -> map f l = l.
Proof.
  induction l as [|x l IH]; intros H; simpl; [done|].
  rewrite H by (by left). rewrite IH; [done|]. intros y Hy. apply H. by right.
Qed.

(** X3. [update] then [get_]. On an id that no document of [t] has,
    [update] changes no row of any table. On the id of a document [d], with a
    patch that leaves [id] alone, [get_] then returns [d] with the fields of
    the patch set and its other fields as they were; the table keeps its
    length and the other tables their rows. *)
Theorem update_then_get (t : string) (i : value) (patch : doc) (w : world) :
  (TinyDB.get t (TinyDB.field_eq "id" i) (store w) = None ->
   forall t', TinyDB.rows (store (after (app.update t i patch) w)) t' = TinyDB.rows (store w) t')
  /\
  (forall d,
     TinyDB.get t (TinyDB.field_eq "id" i) (store w) = Some d ->
     patch !! "id" = None ->
     exists w' d',
       app.update t i patch w = (Ok tt, w') /\
       app.get_ t i w' = (Ok (Some d'), w') /\
       (forall k v, patch !! k = Some v -> d' !! k = Some v) /\
       (forall k, patch !! k = None -> d' !! k = d !! k) /\
       length (TinyDB.rows (store w') t) = length (TinyDB.rows (store w) t) /\
       (forall t', t' <> t -> TinyDB.rows (store w') t' = TinyDB.rows (store w) t')).
Proof.
  split.
  - intros Hnone t'. unfold after, app.update, db_write. cbn [snd store].
    rewrite rows_update. case_decide; [|done]. subst t'.
    apply map_id_on. intros d Hd.
    unfold TinyDB.get in Hnone. apply find_None_Forall in Hnone.
    rewrite Forall_forall in Hnone. rewrite (Hnone d); [done|]. by apply list_elem_of_In.
  - intros d Hd Hid. eexists _, (patch ∪ d). split; [reflexivity|].
    cbn [store flashes ticks]. split; [|split; [|split; [|split]]].
    + unfold app.get_, db_read. cbn [store]. f_equal. f_equal.
      rewrite get_update by done. by rewrite Hd.
    + intros k v Hk. by apply lookup_union_Some_l.
    + intros k Hk. by apply lookup_union_r.
    + rewrite rows_update, decide_True by done. by rewrite length_map.
    + intros t' Ht'. by rewrite rows_update, decide_False.
Qed.

(** X4. [_ensure_seq] never resets the counter: where the counter row
    exists, whatever its value, the call changes nothing; on a database
    without counter it creates the row with value 1, leaves the other tables
    alone, and a second call changes nothing. *)
Theorem ensure_seq_keeps_counter (w : world) :
  (forall n, seq_inv (store w) n -> app._ensure_seq w = (Ok tt, w))
  /\
  (TinyDB.rows (store w) "seq" = [] ->
   exists w',
     app._ensure_seq w = (Ok tt, w') /\ seq_inv (store w') 1 /\
     app._ensure_seq w' = (Ok tt, w') /\
     (forall t, t <> "seq" -> TinyDB.rows (store w') t = TinyDB.rows (store w) t)).
Proof.
  assert (Hkeep : forall w n, seq_inv (store w) n -> app._ensure_seq w = (Ok tt, w)).
  { intros w0 n (r & rest & Hr & Hk & Hv & Hi).
    unfold app._ensure_seq, bind, db_read, TinyDB.get. rewrite Hr. simpl.
    rewrite (seq_query_counter r Hk). by rewrite (no_row_Some r _ _ Hk). }
  split; [apply Hkeep|].
  intros Hempty. destruct (ensure_seq_fresh w Hempty) as (w' & Hrun & Hinv).
  exists w'. split; [done|]. split; [done|]. split; [by apply (Hkeep w' 1)|].
  intros t Ht. unfold app._ensure_seq, bind, db_read, db_write, TinyDB.get in Hrun.
  rewrite Hempty in Hrun. simpl in Hrun. injection Hrun as <-. simpl.
  by rewrite rows_insert, decide_False.
Qed.

(** X5. [_next_id] on a database without counter row creates it: the call
    returns 1, leaves the counter at 2, and the next call returns 2. *)
Theorem next_id_without_counter (w : world) :
  TinyDB.rows (store w) "seq" = [] ->
  exists w' w'',
    app._next_id w = (Ok 1, w') /\ seq_inv (store w') 2 /\
    app._next_id w' = (Ok 2, w'').
Proof.
  intros Hempty.
  assert (H1 : exists w', app._next_id w = (Ok 1, w') /\ seq_inv (store w') 2).
  { unfold app._next_id, bind, db_read, db_write, lift, ret, TinyDB.get.
    rewrite Hempty. simpl. rewrite rows_insert, decide_True by done. rewrite Hempty. simpl.
    eexists. split; [reflexivity|]. simpl.
    eexists _, []. rewrite rows_update, decide_True by done.
    rewrite rows_insert, decide_True by done. rewrite Hempty. simpl.
    split; [reflexivity|]. repeat split; by_eval. }
  destruct H1 as (w' & Hrun & Hinv). exists w'. eexists.
  split; [done|]. split; [done|]. by apply next_id_spec.
Qed.

Lemma filter_sublist {A} (f : A -> bool) l : sublist (List.filter f l) l.
Proof.
  induction l as [|x l IH]; simpl; [constructor|].
  destruct (f x); by constructor.
Qed.

(** X6. [find] with one condition or more returns, in table order and
    without changing the store, exactly the documents of the table that have
    every named field with a value equal to the one asked for; a document
    that lacks one of the fields is not returned. *)
Theorem find_conjunction (table : string) (kv : string * value)
    (where_ : list (string * value)) (w : world) :
  exists ds,
    app.find table (kv :: where_) w = (Ok ds, w) /\
    sublist ds (TinyDB.rows (store w) table) /\
    (forall d, In d ds <->
       In d (TinyDB.rows (store w) table) /\
       forall k v, In (k, v) (kv :: where_) ->
         exists x, d !! k = Some x /\ Py.eq x v = true).
Proof.
  eexists. split; [apply find_some_constraint|]. split.
  - apply filter_sublist.
  - intros d. rewrite filter_In. unfold matches_all. rewrite forallb_forall.
    split; intros [Hin H]; (split; [done|]).
    + intros k v Hkv. specialize (H (k, v) Hkv). unfold TinyDB.field_eq in H. simpl in H.
      destruct (d !! k) as [x|]; [eauto|done].
    + intros [k v] Hkv. destruct (H k v Hkv) as (x & Hx & He).
      unfold TinyDB.field_eq. simpl. by rewrite Hx.
Qed.

(** ** Decimal numerals: [int(str(n))] *)

Lemma digit_of_pretty_N_char (d : N) :
  (d < 10)%N -> Py.digit_of (pretty_N_char d) = Some (Z.of_N d).
Proof.
  intros H.
  assert (d = 0 \/ d = 1 \/ d = 2 \/ d = 3 \/ d = 4 \/ d = 5 \/ d = 6 \/ d = 7 \/ d = 8 \/ d = 9)%N
    as Hd by lia.
  repeat destruct Hd as [->|Hd]; try reflexivity. by subst d.
Qed.

Lemma pretty_N_char_plain (d : N) :
  Py.is_space (pretty_N_char d) = false /\
  pretty_N_char d <> "-"%char /\ pretty_N_char d <> "+"%char.
Proof. unfold pretty_N_char. repeat case_match; repeat split; done. Qed.

(** Reading the digits of [x] multiplies what was read by a power of ten
    and adds [x]. *)
Lemma digits_go_pretty (x : N) : forall s,
  (0 < x)%N ->
  exists k : nat, forall acc prev,
    Py.digits_go acc prev (pretty_N_go x s) =
    Py.digits_go (acc * 10 ^ Z.of_nat k + Z.of_N x) true s.
Proof.
  induction (N.lt_wf_0 x) as [x _ IH]. intros s Hx.
  rewrite pretty_N_go_step by done.
  assert (Hmod : (x `mod` 10 < 10)%N) by (by apply N.mod_lt).
  assert (Hdm : Z.of_N x = 10 * Z.of_N (x `div` 10) + Z.of_N (x `mod` 10)).
  { rewrite (N.div_mod x 10) at 1 by done. lia. }
  destruct (decide (x `div` 10 = 0)%N) as [E|E].
  - rewrite E, pretty_N_go_0. exists 1%nat. intros acc prev.
    cbn [Py.digits_go]. rewrite digit_of_pretty_N_char by done.
    f_equal. rewrite Hdm, E. simpl Z.of_nat. lia.
  - destruct (IH (x `div` 10)%N) with (s := String (pretty_N_char (x `mod` 10)) s) as [k Hk].
    + by apply N.div_lt.
    + lia.
    + exists (S k). intros acc prev. rewrite Hk.
      cbn [Py.digits_go]. rewrite digit_of_pretty_N_char by done.
      f_equal. rewrite Hdm, Nat2Z.inj_succ, Z.pow_succ_r by lia. lia.
Qed.

Lemma no_space_pretty_N_go (x : N) : forall s,
  no_space s = true -> no_space (pretty_N_go x s) = true.
Proof.
  induction (N.lt_wf_0 x) as [x _ IH]. intros s Hs.
  destruct (decide (x = 0)%N) as [->|E]; [by rewrite pretty_N_go_0|].
  rewrite pretty_N_go_step by lia. apply IH; [apply N.div_lt; lia|].
  cbn [no_space]. rewrite Hs. by rewrite (proj1 (pretty_N_char_plain _)).
Qed.

Lemma split_sign_pretty_N_go (x : N) : forall s,
  (0 < x)%N -> Py.split_sign (pretty_N_go x s) = (false, pretty_N_go x s).
Proof.
  induction (N.lt_wf_0 x) as [x _ IH]. intros s Hx.
  rewrite pretty_N_go_step by done.
  destruct (decide (x `div` 10 = 0)%N) as [E|E].
  - rewrite E, pretty_N_go_0.
    destruct (pretty_N_char_plain (x `mod` 10)) as (_ & Hm & Hp).
    unfold Py.split_sign.
    destruct (pretty_N_char (x `mod` 10)) as [[] [] [] [] [] [] [] []]; try reflexivity;
      by (exfalso; first [apply Hm | apply Hp]).
  - apply IH; [by apply N.div_lt | by apply N.neq_0_lt_0].
Qed.

Lemma lstrip_no_space s : no_space s = true -> Py.lstrip s = s.
Proof.
  destruct s as [|a s]; [done|]. cbn [no_space Py.lstrip].
  intros H. apply andb_prop in H as [H _]. apply negb_true_iff in H. by rewrite H.
Qed.

Lemma rstrip_no_space s : no_space s = true -> Py.rstrip s = s.
Proof.
  induction s as [|a s IH]; [done|]. cbn [no_space Py.rstrip].
  intros H. apply andb_prop in H as [Ha Hs]. apply negb_true_iff in Ha.
  rewrite (IH Hs), Ha. by destruct s.
Qed.

Lemma strip_no_space s : no_space s = true -> Py.strip s = s.
Proof. intros H. unfold Py.strip. by rewrite (lstrip_no_space s H), rstrip_no_space. Qed.

Lemma int_of_string_pretty_N (x : N) :
  (0 < x)%N ->
  no_space (pretty_N_go x "") = true /\
  Py.split_sign (pretty_N_go x "") = (false, pretty_N_go x "") /\
  Py.digits (pretty_N_go x "") = Some (Z.of_N x).
Proof.
  intros Hx. split; [by apply no_space_pretty_N_go|]. split; [by apply split_sign_pretty_N_go|].
  destruct (digits_go_pretty x "" Hx) as [k Hk]. unfold Py.digits. rewrite Hk. simpl.
  f_equal.
Qed.

(** [int(str(n)) == n] *)
Lemma int_of_string_pretty (n : Z) : Py.int_of_string (pretty n) = Ok n.
Proof.
  destruct n as [|p|p].
  - reflexivity.
  - destruct (int_of_string_pretty_N (Npos p)) as (H1 & H2 & H3); [lia|].
    unfold Py.int_of_string. change (pretty (Zpos p)) with (pretty_N_go (Npos p) "").
    by rewrite (strip_no_space _ H1), H2, H3.
  - destruct (int_of_string_pretty_N (Npos p)) as (H1 & H2 & H3); [lia|].
    unfold Py.int_of_string.
    change (pretty (Zneg p)) with (String "-" (pretty_N_go (Npos p) "")).
    rewrite strip_no_space.
    + cbn [Py.split_sign]. by rewrite H3.
    + cbn [no_space]. by rewrite H1.
Qed.

(** ** Users and the session *)

Lemma head_filter {A} (f : A -> bool) l : head (List.filter f l) = List.find f l.
Proof.
  induction l as [|x l IH]; simpl; [done|]. by destruct (f x).
Qed.

Lemma find_one table k v w :
  app.find table [(k, v)] w = (Ok (List.filter (TinyDB.field_eq k v) (TinyDB.rows (store w) table)), w).
Proof.
  rewrite find_some_constraint. do 2 f_equal. apply filter_ext.
  intros d. unfold matches_all. simpl. apply andb_true_r.
Qed.

Lemma field_eq_nonempty k v (d : doc) : TinyDB.field_eq k v d = true -> (size d =? 0)%nat = false.
Proof.
  unfold TinyDB.field_eq. intros H. apply Nat.eqb_neq. intros Hs.
  apply map_size_empty_iff in Hs. subst d. by rewrite lookup_empty in H.
Qed.

(** X7. The id that [login_user] keeps in the session, [User.id], is the
    decimal numeral of the user's id, and [load_user] reads it back: for the
    user document found under an int id, [load_user(User(u).id)] is that
    user. For an id that no user has, [load_user] returns [None]. *)
Theorem load_user_of_user_id (w : world) :
  (forall u i,
     TinyDB.get "users" (TinyDB.field_eq "id" (VInt i)) (store w) = Some u ->
     u !! "id" = Some (VInt i) ->
     exists uid, app.User.id u = Ok uid /\ app.load_user uid w = (Ok (Some u), w))
  /\
  (forall i,
     TinyDB.get "users" (TinyDB.field_eq "id" (VInt i)) (store w) = None ->
     app.load_user (pretty i) w = (Ok None, w)).
Proof.
  split.
  - intros u i Hu Hi. exists (pretty i). split.
    + unfold app.User.id, subscript. by rewrite Hi.
    + unfold app.load_user, bind, lift. rewrite int_of_string_pretty.
      unfold app.get_, db_read. rewrite Hu. unfold ret. f_equal. f_equal.
      by rewrite (no_row_Some u _ _ Hi).
  - intros i Hnone. unfold app.load_user, bind, lift. rewrite int_of_string_pretty.
    unfold app.get_, db_read. by rewrite Hnone.
Qed.

(** [seed_admin] on a store without administrator. *)
Lemma seed_admin_spec clock gen salt w n :
  seq_inv (store w) n ->
  user_named "admin" (store w) = None ->
  app.seed_admin clock gen salt w =
    (Ok tt, World (TinyDB.insert "users"
                     (<["id" := VInt n]> (admin_doc (gen salt "admin123") (clock (ticks w))))
                     (bump n (store w)))
                  (flashes w) (S (ticks w))).
Proof.
  intros Hinv Hnone. unfold app.seed_admin.
  rewrite (bind_ok _ _ _ _ _ (find_one _ _ _ _)).
  assert (List.filter (TinyDB.field_eq "username" (VStr "admin")) (TinyDB.rows (store w) "users")
          = []) as ->.
  { unfold user_named in Hnone. rewrite <- head_filter in Hnone.
    by destruct (List.filter _ _). }
  unfold bind at 1, app.utcnow_isoformat at 1.
  set (w1 := World (store w) (flashes w) (S (ticks w))).
  change (mkdoc _) with (admin_doc (gen salt "admin123") (clock (ticks w))).
  by rewrite (bind_ok _ _ _ _ _ (insert_spec "users" _ w1 n Hinv)).
Qed.

Lemma seed_admin_present clock gen salt w u :
  user_named "admin" (store w) = Some u ->
  app.seed_admin clock gen salt w = (Ok tt, w).
Proof.
  intros Hu. unfold app.seed_admin.
  rewrite (bind_ok _ _ _ _ _ (find_one _ _ _ _)).
  unfold user_named in Hu. rewrite <- head_filter in Hu.
  by destruct (List.filter _ _).
Qed.

Lemma user_named_insert username (d : doc) db :
  user_named username (TinyDB.insert "users" d db) =
  match user_named username db with
  | Some u => Some u
  | None => if TinyDB.field_eq "username" (VStr username) d then Some d else None
  end.
Proof.
  unfold user_named. rewrite rows_insert, decide_True by done.
  destruct (List.find _ (TinyDB.rows db "users")) as [u|] eqn:E.
  - clear -E. induction (TinyDB.rows db "users") as [|x l IH]; simpl in *; [done|].
    destruct (TinyDB.field_eq _ _ x); [done|]. by apply IH.
  - by apply find_app_None.
Qed.

Lemma user_named_bump username n db : user_named username (bump n db) = user_named username db.
Proof. unfold user_named. by rewrite bump_rows. Qed.

(** X8. The administrator is created once. Where a user named [admin]
    exists, the seed changes nothing. Where none exists, it inserts one user:
    [admin], with the role [admin], the next id and the hash of the default
    password; run again, whatever the salt, it changes nothing. *)
Theorem seed_admin_once clock gen (salt : string) (w : world) :
  (forall u, user_named "admin" (store w) = Some u ->
     app.seed_admin clock gen salt w = (Ok tt, w))
  /\
  (forall n,
     seq_inv (store w) n -> user_named "admin" (store w) = None ->
     exists w' u,
       app.seed_admin clock gen salt w = (Ok tt, w') /\
       TinyDB.rows (store w') "users" = TinyDB.rows (store w) "users" ++ [u] /\
       u !! "id" = Some (VInt n) /\
       u !! "username" = Some (VStr "admin") /\
       u !! "role" = Some (VStr "admin") /\
       u !! "password_hash" = Some (VStr (gen salt "admin123")) /\
       forall salt', app.seed_admin clock gen salt' w' = (Ok tt, w')).
Proof.
  split; [apply seed_admin_present|].
  intros n Hinv Hnone. eexists _, _. split; [by apply seed_admin_spec|].
  cbn [store]. split; [|split; [|split; [|split; [|split]]]].
  - rewrite rows_insert, decide_True by done. by rewrite bump_rows.
  - apply lookup_insert_eq.
  - unfold admin_doc. lookup_doc.
  - unfold admin_doc. lookup_doc.
  - unfold admin_doc. lookup_doc.
  - intros salt'. eapply seed_admin_present. cbn [store].
    rewrite user_named_insert, user_named_bump, Hnone. reflexivity.
Qed.

(** [login_post], by cases. *)
Lemma login_post_unknown check frm w :
  user_named (username_of frm) (store w) = None ->
  app.login_post check frm w =
    (Ok (Redirect "login" [], SessionKeep), flashed InvalidCredentials w).
Proof.
  intros Hnone. unfold app.login_post. fold (username_of frm).
  rewrite (bind_ok _ _ _ _ _ (find_one _ _ _ _)).
  rewrite head_filter. unfold user_named in Hnone. by rewrite Hnone.
Qed.

Lemma login_post_known check frm w u h :
  user_named (username_of frm) (store w) = Some u ->
  u !! "password_hash" = Some (VStr h) ->
  app.login_post check frm w =
    match check h (password_of frm) with
    | Ok true =>
        bind (lift (app.User.id u)) (fun user_id =>
          bind (lift (Py.str (dget_or u "full_name" (VStr (username_of frm))))) (fun name =>
            bind (flash ("¡Bienvenido, " +:+ name +:+ "!") "success") (fun _ =>
              ret (Redirect "dashboard" [], SessionLogin user_id)))) w
    | Ok false => (Ok (Redirect "login" [], SessionKeep), flashed InvalidCredentials w)
    | Raise e => (Raise e, w)
    end.
Proof.
  intros Hu Hh. unfold app.login_post. fold (username_of frm) (password_of frm).
  rewrite (bind_ok _ _ _ _ _ (find_one _ _ _ _)).
  rewrite head_filter. unfold user_named in Hu. rewrite Hu.
  apply find_some in Hu as [_ Hm]. rewrite (field_eq_nonempty _ _ _ Hm).
  rewrite (dget_or_Some _ _ _ _ Hh).
  unfold bind at 1, lift at 1.
  by destruct (check h (password_of frm)) as [[]|].
Qed.

(** X9. [login_post] looks at the first user whose [username] is the
    stripped name of the form. When there is none, or when the password of
    the form does not check against the stored hash, it flashes the same
    message, redirects to the login page, leaves the session alone and writes
    nothing. When the password checks, it stores the numeral of the user's id
    in the session, greets the user by full name and redirects to the
    dashboard. *)
Theorem login_post_checks check (frm : form) (w : world) :
  (user_named (username_of frm) (store w) = None ->
   app.login_post check frm w =
     (Ok (Redirect "login" [], SessionKeep), flashed InvalidCredentials w))
  /\
  (forall u h,
     user_named (username_of frm) (store w) = Some u ->
     u !! "password_hash" = Some (VStr h) ->
     (check h (password_of frm) = Ok false ->
      app.login_post check frm w =
        (Ok (Redirect "login" [], SessionKeep), flashed InvalidCredentials w))
     /\
     (forall i name,
        check h (password_of frm) = Ok true ->
        u !! "id" = Some (VInt i) -> u !! "full_name" = Some (VStr name) ->
        app.login_post check frm w =
          (Ok (Redirect "dashboard" [], SessionLogin (pretty i)),
           flashed ("¡Bienvenido, " +:+ name +:+ "!", "success") w))).
Proof.
  split; [apply login_post_unknown|].
  intros u h Hu Hh. rewrite (login_post_known check frm w u h Hu Hh). split.
  - by intros ->.
  - intros i name -> Hi Hn. unfold bind, lift, app.User.id, subscript.
    rewrite Hi. cbn [rbind Py.str]. by rewrite (dget_or_Some _ _ _ _ Hn).
Qed.

(** X10. After the module is loaded on an empty database, with a hash
    function whose hashes check against their passwords: the store holds one
    user, the administrator; the form with the name [admin] (white space
    around it or not) and the default password logs in with the session id
    [1], and [load_user] of that id is the administrator. *)
Theorem seeded_admin_can_log_in clock gen check (salt : string) (w : world) :
  TinyDB.rows (store w) "seq" = [] ->
  TinyDB.rows (store w) "users" = [] ->
  check (gen salt "admin123") "admin123" = Ok true ->
  exists w' admin,
    app.startup clock gen salt w = (Ok tt, w') /\
    TinyDB.rows (store w') "users" = [admin] /\
    admin !! "role" = Some (VStr "admin") /\
    app.login_post check form_admin w' =
      (Ok (Redirect "dashboard" [], SessionLogin "1"),
       flashed ("¡Bienvenido, Administrador!", "success") w') /\
    app.load_user "1" w' = (Ok (Some admin), w').
Proof.
  intros Hseq Husers Hcheck.
  destruct (ensure_seq_fresh w Hseq) as (w0 & Hrun0 & Hinv0).
  assert (Hu0 : TinyDB.rows (store w0) "users" = []).
  { unfold app._ensure_seq, bind, db_read, db_write, TinyDB.get in Hrun0.
    rewrite Hseq in Hrun0. simpl in Hrun0. injection Hrun0 as <-. simpl.
    by rewrite rows_insert, decide_False. }
  assert (Hnone : user_named "admin" (store w0) = None).
  { unfold user_named. by rewrite Hu0. }
  set (admin := <["id" := VInt 1]> (admin_doc (gen salt "admin123") (clock (ticks w0)))).
  eexists _, admin. split; [|split; [|split; [|split]]].
  - unfold app.startup. rewrite (bind_ok _ _ _ _ _ Hrun0).
    by apply seed_admin_spec.
  - cbn [store]. rewrite rows_insert, decide_True by done. rewrite bump_rows by done.
    by rewrite Hu0.
  - subst admin. unfold admin_doc. lookup_doc.
  - match goal with |- app.login_post _ _ ?w1 = _ => set (w1' := w1) end.
    assert (Hadmin : user_named (username_of form_admin) (store w1') = Some admin).
    { subst w1'. cbn [store]. rewrite user_named_insert, user_named_bump.
      change (username_of form_admin) with "admin". rewrite Hnone. reflexivity. }
    rewrite (login_post_known check form_admin w1' admin (gen salt "admin123") Hadmin).
    2:{ subst admin. unfold admin_doc. lookup_doc. }
    change (password_of form_admin) with "admin123". rewrite Hcheck.
    reflexivity.
  - unfold app.load_user, bind, lift. change (Py.int_of_string "1") with (Ok 1 : result Z).
    unfold app.get_, db_read, TinyDB.get. cbn [store].
    rewrite rows_insert, decide_True by done. rewrite bump_rows by done.
    rewrite Hu0. reflexivity.
Qed.

(** ** Clients *)

Lemma upper_empty s : Py.upper s = "" -> s = "".
Proof. by destruct s. Qed.

Lemma form_item_get frm k v : form_item frm k = Ok v <-> form_get frm k = Some v.
Proof. unfold form_item. destruct (form_get frm k); split; congruence. Qed.

Lemma plate_taken_false plate (vs : docs) :
  Forall (fun v => Py.eq (dget v "plate") (VStr plate) = false) vs ->
  app.plate_taken plate vs = false.
Proof.
  intros H. unfold app.plate_taken. apply not_true_is_false. intros Hex.
  apply existsb_exists in Hex as (v & Hv & Hc). rewrite Forall_forall in H.
  rewrite (H v) in Hc; [done|]. by apply list_elem_of_In.
Qed.

(** X11. What [clients_new] refuses, writing nothing: a form without the
    field [full_name] is a bad request; a name or a plate that is blank once
    stripped flashes the required-fields message; a plate that a vehicle of
    the store has flashes the duplicate-plate message, so that no client is
    created without its vehicle. *)
Theorem clients_new_refuses clock (frm : form) (w : world) :
  (form_get frm "full_name" = None ->
   app.clients_new clock POST frm w = (Raise BadRequest, w))
  /\
  (forall name,
     form_get frm "full_name" = Some name ->
     Py.strip name = "" \/ Py.strip (default "" (form_get frm "plate")) = "" ->
     app.clients_new clock POST frm w =
       (Ok (Redirect "clients_new" []), flashed RequiredFields w))
  /\
  (forall name v,
     form_get frm "full_name" = Some name ->
     Py.strip name <> "" -> client_plate frm <> "" ->
     In v (TinyDB.rows (store w) "vehicles") ->
     v !! "plate" = Some (VStr (client_plate frm)) ->
     app.clients_new clock POST frm w =
       (Ok (Redirect "clients_new" []), flashed DuplicatePlate_client w)).
Proof.
  split; [|split].
  - intros H. unfold app.clients_new, bind, lift, form_item. by rewrite H.
  - intros name Hn Hblank. unfold app.clients_new.
    unfold bind at 1, lift at 1, form_item. rewrite Hn. cbn [rbind].
    assert ((Py.strip name =? "")%string
            || (Py.upper (Py.strip (default "" (form_get frm "plate"))) =? "")%string = true)
      as ->; [|reflexivity].
    destruct Hblank as [->| ->]; [done|]. apply orb_true_r.
  - intros name v Hn Hne Hpe Hv Hp. unfold app.clients_new.
    unfold bind at 1, lift at 1, form_item. rewrite Hn. cbn [rbind].
    fold (client_plate frm).
    apply String.eqb_neq in Hne, Hpe. rewrite Hne, Hpe. cbn [orb].
    unfold bind at 1, app.all_ at 1, db_read at 1, TinyDB.all.
    by rewrite (plate_taken_In _ _ v Hv Hp).
Qed.

(** X12. [clients_new] with a name and a plate that are not blank, the
    plate not taken: it inserts one client, with the stripped name and the
    current timestamp, and one vehicle of that client (its [client_id] is the
    id the client has just been given), with the plate in upper case without
    surrounding white space, which is its own normal form. The two ids follow
    each other. *)
Theorem clients_new_creates clock (frm : form) (w : world) (n : Z) (name : string) :
  seq_inv (store w) n ->
  form_get frm "full_name" = Some name ->
  Py.strip name <> "" -> client_plate frm <> "" ->
  Forall (fun v => Py.eq (dget v "plate") (VStr (client_plate frm)) = false)
         (TinyDB.rows (store w) "vehicles") ->
  exists w' c v,
    app.clients_new clock POST frm w = (Ok (Redirect "clients_list" []), w') /\
    TinyDB.rows (store w') "clients" = TinyDB.rows (store w) "clients" ++ [c] /\
    TinyDB.rows (store w') "vehicles" = TinyDB.rows (store w) "vehicles" ++ [v] /\
    c !! "id" = Some (VInt n) /\
    c !! "full_name" = Some (VStr (Py.strip name)) /\
    c !! "created_at" = Some (VStr (clock (ticks w))) /\
    v !! "id" = Some (VInt (n + 1)) /\
    v !! "client_id" = Some (VInt n) /\
    v !! "plate" = Some (VStr (client_plate frm)) /\
    plate_norm (client_plate frm) = client_plate frm /\
    seq_inv (store w') (n + 2).
Proof.
  intros Hinv Hn Hne Hpe Hfree. unfold app.clients_new.
  unfold bind at 1, lift at 1, form_item. rewrite Hn. cbn [rbind].
  fold (client_plate frm).
  apply String.eqb_neq in Hne, Hpe. rewrite Hne, Hpe. cbn [orb].
  unfold bind at 1, app.all_ at 1, db_read at 1, TinyDB.all.
  rewrite (plate_taken_false _ _ Hfree).
  unfold bind at 1, app.utcnow_isoformat at 1.
  set (w1 := World (store w) (flashes w) (S (ticks w))).
  match goal with
  | |- context [bind (app.insert "clients" ?d) _] => set (c0 := d)
  end.
  rewrite (bind_ok _ _ _ _ _ (insert_spec "clients" c0 w1 n Hinv)).
  set (w2 := World _ _ _).
  assert (Hinv2 : seq_inv (store w2) (n + 1)).
  { subst w2. cbn [store]. by apply insert_seq_inv, bump_seq_inv. }
  match goal with
  | |- context [bind (app.insert "vehicles" ?d) _] => set (v0 := d)
  end.
  rewrite (bind_ok _ _ _ _ _ (insert_spec "vehicles" v0 w2 (n + 1) Hinv2)).
  eexists _, (<["id" := VInt n]> c0), (<["id" := VInt (n + 1)]> v0).
  split; [reflexivity|]. clear Hinv2. subst w2 w1. cbn [store flashes ticks].
  split; [|split; [|split; [|split; [|split; [|split; [|split; [|split; [|split]]]]]]]].
  - rewrite rows_insert, decide_False by done. rewrite bump_rows by done.
    rewrite rows_insert, decide_True by done. by rewrite bump_rows.
  - rewrite rows_insert, decide_True by done. rewrite bump_rows by done.
    rewrite rows_insert, decide_False by done. by rewrite bump_rows.
  - apply lookup_insert_eq.
  - subst c0. lookup_doc.
  - subst c0. lookup_doc.
  - apply lookup_insert_eq.
  - subst v0. lookup_doc.
  - subst v0. lookup_doc.
  - unfold client_plate, plate_norm. by rewrite upper_idem, strip_upper, strip_idem.
  - replace (n + 2) with (n + 1 + 1) by lia.
    by apply insert_seq_inv, bump_seq_inv, insert_seq_inv, bump_seq_inv.
Qed.

(** X13. [clients_edit]. For an id that no client has, GET or POST, it
    flashes the not-found message and writes nothing. A POST for an existing
    client sets the stripped name (blank or not: unlike [clients_new], the
    edit does not ask for a name), phone and email, and leaves every other
    field of the client, the number of clients and the other tables as they
    were. *)
Theorem clients_edit_updates (client_id : Z) (frm : form) (w : world) :
  (TinyDB.get "clients" (TinyDB.field_eq "id" (VInt client_id)) (store w) = None ->
   forall method,
     app.clients_edit client_id method frm w =
       (Ok (Redirect "clients_list" []), flashed ClientNotFound w))
  /\
  (forall cli name,
     TinyDB.get "clients" (TinyDB.field_eq "id" (VInt client_id)) (store w) = Some cli ->
     form_get frm "full_name" = Some name ->
     exists w' cli',
       app.clients_edit client_id POST frm w = (Ok (Redirect "clients_list" []), w') /\
       TinyDB.get "clients" (TinyDB.field_eq "id" (VInt client_id)) (store w') = Some cli' /\
       cli' !! "full_name" = Some (VStr (Py.strip name)) /\
       cli' !! "phone" = Some (VStr (Py.strip (default "" (form_get frm "phone")))) /\
       cli' !! "email" = Some (VStr (Py.strip (default "" (form_get frm "email")))) /\
       (forall k, k <> "full_name" -> k <> "phone" -> k <> "email" -> cli' !! k = cli !! k) /\
       length (TinyDB.rows (store w') "clients") = length (TinyDB.rows (store w) "clients") /\
       (forall t, t <> "clients" -> TinyDB.rows (store w') t = TinyDB.rows (store w) t)).
Proof.
  split.
  - intros Hnone method. unfold app.clients_edit.
    unfold bind at 1, app.get_ at 1, db_read at 1. by rewrite Hnone.
  - intros cli name Hcli Hn. unfold app.clients_edit.
    unfold bind at 1, app.get_ at 1, db_read at 1. rewrite Hcli.
    unfold bind at 1, lift at 1, form_item. rewrite Hn. cbn [rbind].
    match goal with
    | |- context [app.update "clients" _ ?p] => set (patch := p)
    end.
    eexists _, (patch ∪ cli). split; [reflexivity|]. cbn [store flashes ticks].
    split; [|split; [|split; [|split; [|split; [|split]]]]].
    + rewrite get_update by (subst patch; lookup_doc). by rewrite Hcli.
    + apply lookup_union_Some_l. subst patch. lookup_doc.
    + apply lookup_union_Some_l. subst patch. lookup_doc.
    + apply lookup_union_Some_l. subst patch. lookup_doc.
    + intros k H1 H2 H3. apply lookup_union_r. subst patch. lookup_doc.
    + rewrite rows_update, decide_True by done. by rewrite length_map.
    + intros t Ht. by rewrite rows_update, decide_False.
Qed.

(** ** Deleting a vehicle *)

Lemma filter_twice {A} (f g : A -> bool) l :
  List.filter f (List.filter g l) = List.filter (fun x => g x && f x) l.
Proof.
  induction l as [|x l IH]; simpl; [done|].
  destruct (g x); simpl; [|done]. destruct (f x); by rewrite IH.
Qed.

(** The documents that are left when those of [ds] are removed by id. *)
Lemma remove_each_rows t (ds : docs) w :
  Forall has_id ds ->
  exists w',
    for_each ds (fun d => bind (lift (subscript d "id")) (fun i => app.remove t i)) w
      = (Ok tt, w') /\
    flashes w' = flashes w /\ ticks w' = ticks w /\
    (forall t', t' <> t -> TinyDB.rows (store w') t' = TinyDB.rows (store w) t') /\
    TinyDB.rows (store w') t =
      List.filter (fun d => negb (existsb (fun x => TinyDB.field_eq "id" (dget x "id") d) ds))
                  (TinyDB.rows (store w) t).
Proof.
  intros Hids.
  destruct (for_each_inv
    (fun d => bind (lift (subscript d "id")) (fun i => app.remove t i))
    (fun done w' =>
       flashes w' = flashes w /\ ticks w' = ticks w /\
       (forall t', t' <> t -> TinyDB.rows (store w') t' = TinyDB.rows (store w) t') /\
       TinyDB.rows (store w') t =
         List.filter (fun d => negb (existsb (fun x => TinyDB.field_eq "id" (dget x "id") d) done))
                     (TinyDB.rows (store w) t))
    ds [] w) as (w' & Hrun & HI).
  - repeat split; auto. simpl. by rewrite List.filter_true.
  - intros done x w1 (Hf & Ht & Hother & Hrows) Hx.
    rewrite Forall_forall in Hids. destruct (Hids x) as [i Hi]; [by apply list_elem_of_In|].
    eexists. split.
    { unfold bind, lift, subscript. rewrite Hi. reflexivity. }
    simpl. split; [done|]. split; [done|]. split.
    + intros t' Ht'. rewrite rows_remove, decide_False by done. by apply Hother.
    + rewrite rows_remove, decide_True by done. rewrite Hrows.
      rewrite filter_twice. apply filter_ext. intros d.
      rewrite existsb_app. simpl. rewrite (dget_Some _ _ _ Hi), orb_false_r.
      by rewrite negb_orb.
  - exists w'. split; [done|]. simpl in HI. tauto.
Qed.

Lemma unique_ids_eq (ds : docs) (a b : doc) :
  unique_ids ds -> In a ds -> In b ds -> a !! "id" = b !! "id" -> a = b.
Proof.
  unfold unique_ids. induction ds as [|x l IH]; simpl; [done|].
  intros Hnd Ha Hb Hid. apply NoDup_cons in Hnd as [Hx Hnd].
  destruct Ha as [->|Ha], Hb as [->|Hb]; [done| | |by apply IH].
  - exfalso. apply Hx. rewrite Hid. apply list_elem_of_In, in_map. exact Hb.
  - exfalso. apply Hx. rewrite <- Hid. apply list_elem_of_In, in_map. exact Ha.
Qed.

Lemma field_eq_id_int (d : doc) i j :
  d !! "id" = Some (VInt j) -> TinyDB.field_eq "id" (VInt i) d = true -> j = i.
Proof. unfold TinyDB.field_eq. intros ->. simpl. by intros ?%Z.eqb_eq. Qed.

(** X14. Deleting a vehicle removes it and the work orders that refer to
    it. When the ids of the work orders are distinct, what is left of the
    work orders is exactly those that refer to another vehicle, in their
    order. Clients, notes and quotes are left as they were, the notes of the
    deleted work orders included. *)
Theorem vehicles_delete_cascades (vehicle_id : Z) (w : world) :
  Forall has_id (TinyDB.rows (store w) "jobs") ->
  exists w',
    app.vehicles_delete vehicle_id w = (Ok (Redirect "vehicles_list" []), w') /\
    TinyDB.get "vehicles" (TinyDB.field_eq "id" (VInt vehicle_id)) (store w') = None /\
    jobs_of_vehicle vehicle_id (TinyDB.rows (store w') "jobs") = [] /\
    (unique_ids (TinyDB.rows (store w) "jobs") ->
     TinyDB.rows (store w') "jobs" =
       List.filter (fun j => negb (Py.eq (dget j "vehicle_id") (VInt vehicle_id)))
                   (TinyDB.rows (store w) "jobs")) /\
    (forall t, t <> "vehicles" -> t <> "jobs" ->
       TinyDB.rows (store w') t = TinyDB.rows (store w) t).
Proof.
  intros Hjs.
  set (w0 := World (TinyDB.remove "vehicles" (TinyDB.field_eq "id" (VInt vehicle_id)) (store w))
                   (flashes w) (ticks w)).
  set (mine := fun j : doc => Py.eq (dget j "vehicle_id") (VInt vehicle_id)).
  assert (Hjobs0 : TinyDB.rows (store w0) "jobs" = TinyDB.rows (store w) "jobs").
  { simpl. by rewrite rows_remove, decide_False. }
  destruct (remove_each_rows "jobs" (List.filter mine (TinyDB.rows (store w) "jobs")) w0)
    as (w1 & Hrun & Hf & Ht & Hother & Hrows).
  { rewrite Forall_forall in Hjs |- *. intros j Hj. apply Hjs.
    apply list_elem_of_In. apply list_elem_of_In in Hj. by apply filter_In in Hj as [Hj _]. }
  rewrite Hjobs0 in Hrows.
  assert (Hmatch : forall j, In j (TinyDB.rows (store w) "jobs") -> mine j = true ->
            existsb (fun x => TinyDB.field_eq "id" (dget x "id") j)
                    (List.filter mine (TinyDB.rows (store w) "jobs")) = true).
  { intros j Hj Hm. apply existsb_exists. exists j. split; [by apply filter_In|].
    rewrite Forall_forall in Hjs. destruct (Hjs j) as [i Hi]; [by apply list_elem_of_In|].
    rewrite (dget_Some _ _ _ Hi). by apply has_id_match. }
  assert (Hgone : forall j, In j (TinyDB.rows (store w1) "jobs") -> mine j = false).
  { intros j Hj. rewrite Hrows in Hj. apply filter_In in Hj as [Hin Hn].
    destruct (mine j) eqn:E; [|done]. by rewrite (Hmatch j Hin E) in Hn. }
  exists (World (store w1) (flashes w1 ++ [("Vehículo eliminado", "info")]) (ticks w1)).
  split; [|split; [|split; [|split]]].
  - unfold app.vehicles_delete. unfold bind at 1. unfold app.remove at 1, db_write at 1.
    fold w0. unfold bind at 1. unfold app.all_ at 1, db_read at 1, TinyDB.all.
    rewrite Hjobs0. fold mine. by rewrite (bind_ok _ _ _ _ _ Hrun).
  - cbn [store]. unfold TinyDB.get. rewrite (Hother "vehicles") by done. simpl.
    rewrite rows_remove, decide_True by done. apply find_filter_neg.
  - cbn [store].
    change (List.filter mine (TinyDB.rows (store w1) "jobs") = []).
    destruct (List.filter mine (TinyDB.rows (store w1) "jobs")) as [|j l] eqn:E; [done|].
    exfalso.
    assert (Hj : In j (List.filter mine (TinyDB.rows (store w1) "jobs"))) by (rewrite E; by left).
    apply filter_In in Hj as [Hj Hm]. rewrite (Hgone j Hj) in Hm. discriminate.
  - intros Huniq. cbn [store]. rewrite Hrows. apply filter_ext_in. intros j Hj. f_equal.
    fold (mine j). destruct (mine j) eqn:E; [by apply Hmatch|].
    apply not_true_is_false. intros Hex. apply existsb_exists in Hex as (x & Hx & Hm).
    apply filter_In in Hx as [Hx Hxm].
    rewrite Forall_forall in Hjs.
    destruct (Hjs x) as [i Hi]; [by apply list_elem_of_In|].
    destruct (Hjs j) as [k Hk]; [by apply list_elem_of_In|].
    rewrite (dget_Some _ _ _ Hi) in Hm. pose proof (field_eq_id_int j i k Hk Hm) as ->.
    assert (j = x) as -> by (apply (unique_ids_eq _ _ _ Huniq Hj Hx); congruence).
    congruence.
  - intros t H1 H2. cbn [store]. rewrite (Hother t) by done. simpl.
    by rewrite rows_remove, decide_False.
Qed.

(** ** Notes and status *)

(** X15. [job_add_note]. A content that is blank once stripped adds
    nothing: no note, no message, no reading of the clock. Otherwise one
    note is inserted, with the stripped content, the work order, the user and
    the current timestamp, whether the work order exists or not. *)
Theorem job_add_note_stores clock (uid job_id : Z) (frm : form) (w : world) :
  (content_of frm = "" ->
   app.job_add_note clock uid job_id frm w =
     (Ok (Redirect "job_detail" [("job_id", job_id)]), w))
  /\
  (forall n,
     content_of frm <> "" -> seq_inv (store w) n ->
     exists w' note,
       app.job_add_note clock uid job_id frm w =
         (Ok (Redirect "job_detail" [("job_id", job_id)]), w') /\
       TinyDB.rows (store w') "notes" = TinyDB.rows (store w) "notes" ++ [note] /\
       note = <["id" := VInt n]> (mkdoc [
                ("job_id", VInt job_id); ("user_id", VInt uid);
                ("content", VStr (content_of frm));
                ("created_at", VStr (clock (ticks w)))]) /\
       flashes w' = flashes w ++ [("Nota agregada", "success")] /\
       (forall t, t <> "notes" -> t <> "seq" ->
          TinyDB.rows (store w') t = TinyDB.rows (store w) t)).
Proof.
  split.
  - intros Hc. unfold app.job_add_note. fold (content_of frm). by rewrite Hc.
  - intros n Hc Hinv. unfold app.job_add_note. fold (content_of frm).
    apply String.eqb_neq in Hc. rewrite Hc. cbn [negb].
    unfold bind at 1. unfold bind at 1, app.utcnow_isoformat at 1.
    set (w1 := World (store w) (flashes w) (S (ticks w))).
    rewrite (bind_ok _ _ _ _ _ (insert_spec "notes" _ w1 n Hinv)).
    eexists _, _. split; [reflexivity|]. subst w1. cbn [store flashes ticks].
    split; [|split; [reflexivity|split; [reflexivity|]]].
    + rewrite rows_insert, decide_True by done. by rewrite bump_rows.
    + intros t H1 H2. rewrite rows_insert, decide_False by done. by rewrite bump_rows.
Qed.

(** X16. [job_change_status] does not look the work order up: for an id
    that no work order has, no row of any table changes, and the success
    message is flashed all the same. *)
Theorem job_change_status_unknown_job clock (job_id : Z) (frm : form) (w : world) :
  TinyDB.get "jobs" (TinyDB.field_eq "id" (VInt job_id)) (store w) = None ->
  exists w',
    app.job_change_status clock job_id frm w =
      (Ok (Redirect "job_detail" [("job_id", job_id)]), w') /\
    (forall t, TinyDB.rows (store w') t = TinyDB.rows (store w) t) /\
    flashes w' = flashes w ++ [("Estado actualizado", "success")].
Proof.
  intros Hnone.
  assert (Hrows : forall patch t,
            TinyDB.rows (TinyDB.update "jobs" patch (TinyDB.field_eq "id" (VInt job_id)) (store w)) t
            = TinyDB.rows (store w) t).
  { intros patch t. rewrite rows_update. case_decide; [|done]. subst t.
    apply map_id_on. intros d Hd. unfold TinyDB.get in Hnone.
    apply find_None_Forall in Hnone. rewrite Forall_forall in Hnone.
    rewrite (Hnone d); [done|]. by apply list_elem_of_In. }
  unfold app.job_change_status.
  destruct (String.eqb _ "entregado"); (eexists; split; [reflexivity|]);
    cbn [store flashes ticks]; (split; [apply Hrows|reflexivity]).
Qed.

(** ** Newest first *)

Lemma StronglySorted_rev {A} (R : A -> A -> Prop) l :
  StronglySorted R l -> StronglySorted (fun a b => R b a) (rev l).
Proof.
  induction 1 as [|x l Hl IH Hx]; simpl; [constructor|].
  apply StronglySorted_app_2; [|done|repeat constructor].
  intros a b Ha Hb. apply list_elem_of_singleton in Hb as ->.
  rewrite Forall_forall in Hx. apply Hx. apply list_elem_of_In, in_rev, list_elem_of_In in Ha.
  exact Ha.
Qed.

(** [sorted(l, key=key, reverse=True)] with str keys: a permutation of [l]
    in non-increasing order of the keys. *)
Lemma sorted_newest_first {A} (key : A -> result value) (l : list A) :
  (forall x, In x l -> exists s, key x = Ok (VStr s)) ->
  exists r, Py.sorted key true l = Ok r /\ Permutation r l /\
            StronglySorted (fun a b => String.le (skey key b) (skey key a)) r.
Proof.
  intros H. unfold Py.sorted. rewrite (decorate_str key l H). cbn [rbind].
  destruct (sort_keyed_str (rev (map (fun x => (VStr (skey key x), x)) l)))
    as (r & Hr & Hp & _ & Hs).
  { unfold str_keyed. rewrite Forall_forall. intros p Hp.
    apply list_elem_of_In, in_rev in Hp. apply in_map_iff in Hp as (x & <- & _). simpl. eauto. }
  rewrite Hr. cbn [rbind]. exists (map snd (rev r)).
  assert (Hperm : Permutation (map snd r) l).
  { rewrite Hp. rewrite <- Permutation_rev. rewrite map_map. simpl. by rewrite map_id. }
  split; [done|]. split.
  - rewrite map_rev, <- Permutation_rev. exact Hperm.
  - rewrite map_rev. apply StronglySorted_rev.
    apply sorted_undecorate; [|done]. rewrite Hp, <- Permutation_rev. apply decorated_ok.
Qed.

Lemma collect_pure {A B} (body : A -> M B) (f : A -> B) (l : list A) w :
  (forall x, In x l -> body x w = (Ok (f x), w)) ->
  collect l body w = (Ok (map f l), w).
Proof.
  induction l as [|x l IH]; intros H; simpl; [done|].
  rewrite (bind_ok _ _ _ _ _ (H x (or_introl eq_refl))).
  rewrite (bind_ok _ _ _ _ _ (IH (fun y Hy => H y (or_intror Hy)))). done.
Qed.

Lemma collect_raise {A B} (body : A -> M B) (f : A -> B) (l : list A) w e x :
  (forall y, In y l -> body y w = (Ok (f y), w) \/ body y w = (Raise e, w)) ->
  In x l -> body x w = (Raise e, w) ->
  collect l body w = (Raise e, w).
Proof.
  induction l as [|y l IH]; intros H Hx Hb; [done|]. simpl.
  destruct (H y (or_introl eq_refl)) as [Hy|Hy].
  - rewrite (bind_ok _ _ _ _ _ Hy). destruct Hx as [->|Hx]; [congruence|].
    rewrite (bind_raise _ _ _ _ _ (IH (fun z Hz => H z (or_intror Hz)) Hx Hb)). done.
  - by rewrite (bind_raise _ _ _ _ _ Hy).
Qed.

Lemma dated_key (l : docs) :
  Forall dated l -> forall x, In x l -> exists s, app.intake_date_key x = Ok (VStr s).
Proof.
  intros Hl x Hx. rewrite Forall_forall in Hl.
  destruct (Hl x) as [s Hs]; [by apply list_elem_of_In|].
  exists s. unfold app.intake_date_key. by rewrite Hs.
Qed.

Lemma timestamped_key (l : docs) :
  Forall timestamped l -> forall x, In x l -> exists s, app.created_at_key x = Ok (VStr s).
Proof.
  intros Hl x Hx. rewrite Forall_forall in Hl.
  destruct (Hl x) as [s Hs]; [by apply list_elem_of_In|].
  exists s. unfold app.created_at_key. by rewrite Hs.
Qed.

(** ** The page of a work order *)

(** X17. The page of a work order. An unknown id flashes the not-found
    message and writes nothing; a work order without [vehicle_id] raises
    [KeyError]. Otherwise the page shows the work order with its vehicle, the
    client of that vehicle and the notes of the work order, all of them and
    newest first; its other fields are those stored. The store is left as it
    was. *)
Theorem job_detail_page (job_id : Z) (w : world) :
  (TinyDB.get "jobs" (TinyDB.field_eq "id" (VInt job_id)) (store w) = None ->
   app.job_detail job_id w = (Ok (Redirect "jobs_list" []), flashed JobNotFound w))
  /\
  (forall j,
     TinyDB.get "jobs" (TinyDB.field_eq "id" (VInt job_id)) (store w) = Some j ->
     j !! "vehicle_id" = None ->
     app.job_detail job_id w = (Raise KeyError, w))
  /\
  (forall j,
     TinyDB.get "jobs" (TinyDB.field_eq "id" (VInt job_id)) (store w) = Some j ->
     is_Some (j !! "vehicle_id") ->
     Forall timestamped (notes_of job_id (store w)) ->
     exists job ns,
       app.job_detail job_id w =
         (Ok (Render "job_detail.html"
                [("job", doc_value job);
                 ("vehicle", doc_value (vehicle_of (store w) j));
                 ("client", doc_value (client_of (store w) (vehicle_of (store w) j)))]), w) /\
       job = <["notes" := VList (map doc_value ns)]> (joined (store w) j) /\
       Permutation ns (notes_of job_id (store w)) /\
       newest_first created_at_of ns /\
       (forall k, k <> "notes" -> k <> "vehicle" -> k <> "client" -> job !! k = j !! k)).
Proof.
  split; [|split].
  - intros Hnone. unfold app.job_detail.
    unfold bind at 1, app.get_ at 1, db_read at 1. by rewrite Hnone.
  - intros j Hj Hv. unfold app.job_detail.
    unfold bind at 1, app.get_ at 1, db_read at 1. rewrite Hj.
    unfold bind, lift, subscript. by rewrite Hv.
  - intros j Hj [vid Hvid] Hnotes.
    destruct (sorted_newest_first app.created_at_key _ (timestamped_key _ Hnotes))
      as (ns & Hns & Hperm & Hsorted).
    eexists _, ns. split; [|split; [reflexivity|split; [done|split; [done|]]]].
    + unfold app.job_detail.
      unfold bind at 1, app.get_ at 1, db_read at 1. rewrite Hj.
      unfold bind at 1, lift at 1, subscript at 1. rewrite Hvid.
      unfold bind at 1, app.get_ at 1, db_read at 1.
      unfold bind at 1, app.get_ at 1, db_read at 1.
      unfold bind at 1, app.all_ at 1, db_read at 1, TinyDB.all.
      fold (notes_of job_id (store w)).
      unfold bind at 1, lift at 1. rewrite Hns.
      unfold joined, vehicle_of, client_of. rewrite (dget_Some _ _ _ Hvid). reflexivity.
    + intros k H1 H2 H3. unfold joined, app.with_vehicle_client.
      by rewrite !lookup_insert_ne.
Qed.

(** ** The last work order of a vehicle *)

Lemma head_newest {A} (date : A -> string) (r l : list A) x :
  Permutation r l ->
  StronglySorted (fun a b => String.le (date b) (date a)) r ->
  head r = Some x ->
  In x l /\ forall y, In y l -> String.le (date y) (date x).
Proof.
  intros Hp Hs Hx. destruct r as [|x' r]; [done|]. injection Hx as ->.
  split.
  - apply list_elem_of_In. rewrite <- Hp. by left.
  - intros y Hy. apply list_elem_of_In in Hy. rewrite <- Hp in Hy.
    apply StronglySorted_inv in Hs as [_ Hs]. rewrite Forall_forall in Hs.
    apply elem_of_cons in Hy as [->|Hy]; [reflexivity|]. by apply Hs.
Qed.

Lemma refers_nonempty (j : doc) k i :
  Py.eq (dget j k) (VInt i) = true -> (size j =? 0)%nat = false.
Proof.
  intros H. apply Nat.eqb_neq. intros Hs. apply map_size_empty_iff in Hs. subst j.
  unfold dget in H. by rewrite lookup_empty in H.
Qed.

(** X18. [api_vehicle_info]. An unknown vehicle answers 404 with
    [ok] false. A known one answers 200 with the name of its client and, as
    [last_job_date], the latest [intake_date] among the work orders that
    refer to the vehicle, or the empty str when there is none. The store is
    left as it was. *)
Theorem api_vehicle_info_last_job (vehicle_id : Z) (w : world) :
  (TinyDB.get "vehicles" (TinyDB.field_eq "id" (VInt vehicle_id)) (store w) = None ->
   app.api_vehicle_info vehicle_id w = (Ok (Json false [] 404), w))
  /\
  (forall v,
     TinyDB.get "vehicles" (TinyDB.field_eq "id" (VInt vehicle_id)) (store w) = Some v ->
     Forall dated (jobs_of_vehicle vehicle_id (TinyDB.rows (store w) "jobs")) ->
     exists last,
       app.api_vehicle_info vehicle_id w =
         (Ok (Json true
                [("client_name", dget_or (client_of (store w) v) "full_name" (VStr ""));
                 ("last_job_date", VStr last)] 200), w) /\
       match jobs_of_vehicle vehicle_id (TinyDB.rows (store w) "jobs") with
       | [] => last = ""
       | js =>
           exists j, In j js /\ last = intake_date_of j /\
                     forall j', In j' js -> String.le (intake_date_of j') (intake_date_of j)
       end).
Proof.
  split.
  - intros Hnone. unfold app.api_vehicle_info.
    unfold bind at 1, app.get_ at 1, db_read at 1. by rewrite Hnone.
  - intros v Hv Hdated.
    destruct (sorted_newest_first app.intake_date_key _ (dated_key _ Hdated))
      as (r & Hr & Hperm & Hsorted).
    assert (Hrun : forall last,
      last = match head r with
             | Some j => if (size j =? 0)%nat then VStr ""
                         else dget_or j "intake_date" (VStr "")
             | None => VStr ""
             end ->
      app.api_vehicle_info vehicle_id w =
        (Ok (Json true
               [("client_name", dget_or (client_of (store w) v) "full_name" (VStr ""));
                ("last_job_date", last)] 200), w)).
    { intros last ->. unfold app.api_vehicle_info.
      unfold bind at 1, app.get_ at 1, db_read at 1. rewrite Hv.
      unfold bind at 1, app.get_ at 1, db_read at 1.
      unfold bind at 1, app.all_ at 1, db_read at 1, TinyDB.all.
      fold (jobs_of_vehicle vehicle_id (TinyDB.rows (store w) "jobs")).
      unfold bind at 1, lift at 1. by rewrite Hr. }
    destruct r as [|j r'].
    + exists "". split; [by apply Hrun|].
      apply Permutation_nil_l in Hperm. by rewrite <- Hperm.
    + destruct (head_newest intake_date_of (j :: r') _ j Hperm Hsorted eq_refl) as [Hin Hmax].
      assert (Hd : dated j).
      { rewrite Forall_forall in Hdated. apply Hdated. by apply list_elem_of_In. }
      destruct Hd as [s Hs].
      exists (intake_date_of j). split.
      * apply Hrun. cbn [head].
        unfold jobs_of_vehicle in Hin. apply filter_In in Hin as [_ Hm].
        rewrite (refers_nonempty _ _ _ Hm).
        unfold intake_date_of, skey, app.intake_date_key. by rewrite Hs.
      * destruct (jobs_of_vehicle _ _) as [|j0 l0]; [done|]. by exists j.
Qed.

(** ** The dashboard and the list of work orders *)

Lemma get_vehicle_client (w : world) (j : doc) :
  (v <- app.get_ "vehicles" (dget j "vehicle_id") ;;
   let v := default ∅ v in
   c <- app.get_ "clients" (dget v "client_id") ;;
   let c := default ∅ c in
   ret (app.with_vehicle_client j v c)) w = (Ok (joined (store w) j), w).
Proof. reflexivity. Qed.

Lemma length_drop_last {A} (l : list A) n : (length (drop (length l - n) l) <= n)%nat.
Proof. rewrite length_drop. lia. Qed.

(** X19. The dashboard shows at most five work orders, the first five of
    the work orders sorted newest first by [intake_date], each with its
    vehicle and client, and at most five vehicles, the last five of the
    table in table order, each with the name of its client. The store is left
    as it was. *)
Theorem dashboard_page (w : world) :
  Forall dated (TinyDB.rows (store w) "jobs") ->
  exists js vs newest,
    app.dashboard w =
      (Ok (Render "dashboard.html"
             [("jobs", VList (map doc_value js)); ("vehicles", VList (map doc_value vs))]), w) /\
    Permutation newest (TinyDB.rows (store w) "jobs") /\
    newest_first intake_date_of newest /\
    js = map (joined (store w)) (take 5 newest) /\
    vs = map (with_client_name (store w))
             (drop (length (TinyDB.rows (store w) "vehicles") - 5)
                   (TinyDB.rows (store w) "vehicles")) /\
    (length js <= 5)%nat /\ (length vs <= 5)%nat.
Proof.
  intros Hdated.
  destruct (sorted_newest_first app.intake_date_key _ (dated_key _ Hdated))
    as (r & Hr & Hperm & Hsorted).
  eexists _, _, r. split; [|split; [done|split; [done|split; [reflexivity|split; [reflexivity|]]]]].
  - unfold app.dashboard.
    unfold bind at 1, app.all_ at 1, db_read at 1, TinyDB.all.
    unfold bind at 1, lift at 1. rewrite Hr.
    rewrite (bind_ok _ _ _ _ _ (collect_pure _ (joined (store w)) _ w
               (fun j _ => get_vehicle_client w j))).
    unfold bind at 1, app.all_ at 1, db_read at 1, TinyDB.all.
    rewrite (bind_ok _ _ _ _ _ (collect_pure _ (with_client_name (store w)) _ w
               (fun v _ => eq_refl))).
    reflexivity.
  - rewrite !length_map. split; [|apply length_drop_last].
    rewrite length_take. lia.
Qed.

Lemma joined_keeps (db : storage) (j : doc) k :
  k <> "vehicle" -> k <> "client" -> joined db j !! k = j !! k.
Proof. intros H1 H2. unfold joined, app.with_vehicle_client. by rewrite !lookup_insert_ne. Qed.

Lemma search_term_blank (args : form) :
  Py.strip (default "" (form_get args "q")) = "" -> search_term args = "".
Proof. unfold search_term. by intros ->. Qed.

(** X20. The list of work orders raises [KeyError] as soon as one work
    order of the store has no [vehicle_id], whatever is searched for. With
    every work order carrying one and no search term, it shows every work
    order once, with its vehicle and client, newest first by
    [intake_date]. The store is left as it was. *)
Theorem jobs_list_page (args : form) (w : world) :
  (forall j, In j (TinyDB.rows (store w) "jobs") -> j !! "vehicle_id" = None ->
     app.jobs_list args w = (Raise KeyError, w))
  /\
  (Py.strip (default "" (form_get args "q")) = "" ->
   Forall (fun j : doc => is_Some (j !! "vehicle_id")) (TinyDB.rows (store w) "jobs") ->
   Forall dated (TinyDB.rows (store w) "jobs") ->
   exists out,
     app.jobs_list args w =
       (Ok (Render "jobs_list.html" [("jobs", VList (map doc_value out)); ("q", VStr "")]), w) /\
     Permutation out (map (joined (store w)) (TinyDB.rows (store w) "jobs")) /\
     newest_first intake_date_of out).
Proof.
  assert (Hbody : forall j : doc,
    (vid <- lift (subscript j "vehicle_id") ;;
     v <- app.get_ "vehicles" vid ;;
     let v := default ∅ v in
     c <- app.get_ "clients" (dget v "client_id") ;;
     let c := default ∅ c in
     ret (app.with_vehicle_client j v c)) w =
    match j !! "vehicle_id" with
    | Some _ => (Ok (joined (store w) j), w)
    | None => (Raise KeyError, w)
    end).
  { intros j. unfold bind at 1, lift at 1, subscript at 1.
    destruct (j !! "vehicle_id") as [vid|] eqn:E; [|done].
    unfold joined, vehicle_of, client_of. rewrite (dget_Some _ _ _ E). reflexivity. }
  split.
  - intros j Hj Hnone. unfold app.jobs_list.
    unfold bind at 1, app.all_ at 1, db_read at 1, TinyDB.all.
    apply bind_raise. apply (collect_raise _ (joined (store w)) _ w KeyError j); [|done|].
    + intros y _. rewrite Hbody. destruct (y !! "vehicle_id"); auto.
    + rewrite Hbody. by rewrite Hnone.
  - intros Hq Hvid Hdated. pose proof (search_term_blank args Hq) as Hq'.
    assert (Hkey : forall x, In x (map (joined (store w)) (TinyDB.rows (store w) "jobs")) ->
              exists s, app.intake_date_key x = Ok (VStr s)).
    { intros x Hx. apply in_map_iff in Hx as (j & <- & Hj).
      destruct (dated_key _ Hdated j Hj) as [s Hs]. exists s.
      unfold app.intake_date_key, dget_or in Hs |- *. by rewrite joined_keeps. }
    destruct (sorted_newest_first app.intake_date_key _ Hkey) as (r & Hr & Hperm & Hsorted).
    exists r. split; [|done].
    unfold app.jobs_list. rewrite Hq'.
    unfold bind at 1, app.all_ at 1, db_read at 1, TinyDB.all.
    match goal with
    | |- context [collect ?l ?b] =>
        assert (Hc : collect l b w = (Ok (map (joined (store w)) l), w))
    end.
    { apply collect_pure. intros j Hj. rewrite Hbody. rewrite Forall_forall in Hvid.
      destruct (Hvid j) as [vid ->]; [by apply list_elem_of_In|]. done. }
    rewrite (bind_ok _ _ _ _ _ Hc).
    cbn [String.eqb negb]. unfold bind at 1, lift at 1.
    unfold bind at 1, lift at 1. by rewrite Hr.
Qed.

(** ** A new work order *)

Lemma dict_get_map (f : string -> value) (ks : list string) k :
  In k ks -> dict_get k (map (fun k => (k, f k)) ks) = Some (f k).
Proof.
  induction ks as [|k' ks IH]; simpl; [done|].
  destruct (String.eqb k k') eqn:E.
  - apply String.eqb_eq in E. by subst k'.
  - intros [->|H]; [by rewrite String.eqb_refl in E | by apply IH].
Qed.

Lemma cb_on (frm : form) name :
  (form_get frm name = Some "on" -> app.cb frm name = VInt 1) /\
  (form_get frm name <> Some "on" -> app.cb frm name = VInt 0).
Proof.
  unfold app.cb. destruct (form_get frm name) as [v|]; [|done].
  destruct (String.eqb v "on") eqn:E.
  - apply String.eqb_eq in E. subst v. done.
  - apply String.eqb_neq in E. split; [congruence|done].
Qed.

Lemma sorted_vehicles_ok (vs : docs) :
  Forall plated vs ->
  exists r, Py.sorted (fun v => Ok (dget_or v "plate" (VStr ""))) false vs = Ok r.
Proof.
  intros H.
  destruct (sorted_ascending (fun v : doc => Ok (dget_or v "plate" (VStr ""))) vs) as (r & Hr & _).
  - intros v Hv. rewrite Forall_forall in H. destruct (H v) as [s Hs]; [by apply list_elem_of_In|].
    exists s. by rewrite Hs.
  - by exists r.
Qed.

(** X21. [jobs_new]. A form without [vehicle_id] is a bad request and
    nothing is written. Otherwise one work order is inserted for the vehicle
    id of the form (whether the vehicle exists or not), for the current user,
    with the status of the form ([abierto] when it has none), the current
    timestamp as intake date, no delivery date, the odometer reading ([None]
    for 0 or none), and a checklist of the fifteen items in which an item is
    1 exactly when its box is [on]. *)
Theorem jobs_new_creates clock (uid : Z) (frm : form) (w : world) :
  Forall plated (TinyDB.rows (store w) "vehicles") ->
  (form_get frm "vehicle_id" = None ->
   app.jobs_new clock uid POST frm w = (Raise BadRequest, w))
  /\
  (forall n s vid km,
     seq_inv (store w) n ->
     form_get frm "vehicle_id" = Some s -> Py.int_of_string s = Ok vid ->
     form_int_or_0 frm "odometer_km" = Ok km ->
     exists w' job cl,
       app.jobs_new clock uid POST frm w = (Ok (Redirect "job_detail" [("job_id", n)]), w') /\
       TinyDB.rows (store w') "jobs" = TinyDB.rows (store w) "jobs" ++ [job] /\
       job !! "id" = Some (VInt n) /\
       job !! "vehicle_id" = Some (VInt vid) /\
       job !! "mechanic_id" = Some (VInt uid) /\
       job !! "status" = Some (VStr (status_of frm)) /\
       job !! "intake_date" = Some (VStr (clock (ticks w))) /\
       job !! "delivery_date" = Some VNone /\
       job !! "odometer_km" = Some (if km =? 0 then VNone else VInt km) /\
       job !! "checklist" = Some (VDict cl) /\
       map fst cl = app.CHECKLIST /\
       (forall k, In k app.CHECKLIST ->
          dict_get k cl =
            Some (VInt (if decide (form_get frm ("chk_" +:+ k) = Some "on") then 1 else 0)))).
Proof.
  intros Hplates. destruct (sorted_vehicles_ok _ Hplates) as [r Hr].
  split.
  - intros Hnone. unfold app.jobs_new.
    unfold bind at 1, app.all_ at 1, db_read at 1, TinyDB.all.
    unfold bind at 1, lift at 1. rewrite Hr.
    unfold bind, lift, form_item. by rewrite Hnone.
  - intros n s vid km Hinv Hs Hvid Hkm. unfold app.jobs_new.
    unfold bind at 1, app.all_ at 1, db_read at 1, TinyDB.all.
    unfold bind at 1, lift at 1. rewrite Hr.
    unfold bind at 1, lift at 1, form_item. rewrite Hs. cbn [rbind]. rewrite Hvid.
    unfold bind at 1, app.utcnow_isoformat at 1.
    unfold bind at 1, lift at 1. rewrite Hkm. cbn [rbind].
    set (w1 := World (store w) (flashes w) (S (ticks w))).
    match goal with
    | |- context [app.insert "jobs" ?d] => set (d0 := d)
    end.
    rewrite (bind_ok _ _ _ _ _ (insert_spec "jobs" d0 w1 n Hinv)).
    eexists _, (<["id" := VInt n]> d0), _. split; [reflexivity|].
    subst w1. cbn [store flashes ticks].
    split; [rewrite rows_insert, decide_True by done; by rewrite bump_rows|].
    split; [apply lookup_insert_eq|].
    fold (status_of frm) in d0. subst d0.
    do 7 (split; [lookup_doc|]). split; [by rewrite map_map, map_id|].
    intros k Hk. rewrite (dict_get_map (fun k => app.cb frm ("chk_" +:+ k)) _ k Hk).
    f_equal. destruct (cb_on frm ("chk_" +:+ k)) as [H1 H0].
    case_decide; [by apply H1 | by apply H0].
Qed.

(** ** The items and the data of a quote form *)

Lemma qty_price_bad q p e :
  float_or_0 (Some q) = Raise e \/ float_or_0 (Some p) = Raise e ->
  app.qty_price q p = (0%float, 0%float).
Proof.
  unfold app.qty_price. intros [->| ->]; [done|]. by destruct (float_or_0 (Some q)).
Qed.

(** X22. [_parse_items_from_form] gives one item per row that has a
    description, in the order of the rows, with the stripped description and
    [total = round(qty * unit_price, 2)]; the rows whose description is blank
    are left out. A row whose quantity or unit price is no number is kept,
    with quantity, unit price and total all 0.0. *)
Theorem parse_items_rows (frm : form) :
  Forall (fun it => exists d q p,
            it = VDict [("desc", VStr d); ("qty", VFloat q); ("unit_price", VFloat p);
                        ("total", VFloat (Py.float_round2 (q * p)))] /\
            d <> "" /\ Py.strip d = d)
         (app._parse_items_from_form frm) /\
  map (fun it => field it "desc") (app._parse_items_from_form frm) =
    map VStr (List.filter nonblank (map row_desc (item_rows frm))) /\
  (forall r e,
     In r (item_rows frm) -> row_desc r <> "" ->
     float_or_0 (Some (snd (fst r))) = Raise e \/ float_or_0 (Some (snd r)) = Raise e ->
     In (zero_item (row_desc r)) (app._parse_items_from_form frm)).
Proof.
  unfold app._parse_items_from_form. fold (item_rows frm).
  induction (item_rows frm) as [|[[d q] p] l (IH1 & IH2 & IH3)]; cbn [flat_map map List.filter].
  - split; [constructor|]. split; [done|]. intros r e [].
  - change (row_desc (d, q, p)) with (Py.strip d). unfold nonblank at 1.
    destruct (String.eqb (Py.strip d) "") eqn:E; cbn [negb app].
    + split; [exact IH1|]. split; [exact IH2|].
      intros r e [<-|Hr] Hne Hbad; [|exact (IH3 r e Hr Hne Hbad)].
      apply String.eqb_eq in E. by rewrite <- E in Hne.
    + destruct (app.qty_price q p) as [qf pf] eqn:Eqp. cbn [app map].
      split; [|split].
      * constructor; [|exact IH1]. eexists _, _, _. split; [reflexivity|].
        split; [by apply String.eqb_neq|apply strip_idem].
      * f_equal. exact IH2.
      * intros r e [<-|Hr] Hne Hbad; [|right; exact (IH3 r e Hr Hne Hbad)].
        left. cbn [fst snd] in Hbad. rewrite (qty_price_bad q p e Hbad) in Eqp.
        injection Eqp as <- <-. unfold zero_item, row_desc. cbn [fst].
        do 5 f_equal.
Qed.

Lemma meta_keys_distinct : NoDup app.META_KEYS.
Proof. apply (bool_decide_unpack _). by_eval. Qed.

(** X23. [_meta_from_form] keeps, in the order of the twelve known keys
    and each once, the keys whose field [meta_<key>] is not blank, with the
    stripped value of the field; a key that is not known, or whose field is
    blank, is not in the result. *)
Theorem meta_from_form_fields (frm : form) :
  exists kvs,
    app._meta_from_form frm = VDict kvs /\
    map fst kvs = List.filter (fun k => nonblank (meta_field frm k)) app.META_KEYS /\
    NoDup (map fst kvs) /\
    (forall k, In k (map fst kvs) ->
       dict_get k kvs = Some (VStr (meta_field frm k)) /\
       meta_field frm k <> "" /\ Py.strip (meta_field frm k) = meta_field frm k) /\
    (forall k, ~ In k (map fst kvs) -> dict_get k kvs = None).
Proof.
  unfold app._meta_from_form. eexists. split; [reflexivity|].
  pose proof meta_keys_distinct as Hnd. revert Hnd.
  generalize app.META_KEYS as ks. intros ks.
  induction ks as [|k ks IH]; intros Hnd; cbn [flat_map map List.filter].
  - split; [done|]. split; [constructor|]. split; [by intros k []|done].
  - apply NoDup_cons in Hnd as [Hk Hnd]. destruct (IH Hnd) as (IH1 & IH2 & IH3 & IH4).
    fold (meta_field frm k). unfold nonblank at 1.
    destruct (String.eqb (meta_field frm k) "") eqn:E; cbn [negb app map fst].
    + done.
    + assert (Hk' : ~ In k (map fst (flat_map (fun k0 =>
                       if String.eqb (Py.strip (default "" (form_get frm ("meta_" +:+ k0)))) ""
                       then [] else [(k0, VStr (Py.strip (default "" (form_get frm ("meta_" +:+ k0)))))])
                       ks))).
      { rewrite IH1. intros Hin. apply filter_In in Hin as [Hin _].
        apply Hk. by apply list_elem_of_In. }
      split; [by rewrite IH1|]. split; [|split].
      * constructor; [|done]. intros Hin. apply Hk'. by apply list_elem_of_In.
      * intros k0 [<-|Hin].
        -- cbn [dict_get]. rewrite String.eqb_refl. split; [done|].
           split; [by apply String.eqb_neq|apply strip_idem].
        -- cbn [dict_get]. destruct (String.eqb k0 k) eqn:E0.
           ++ apply String.eqb_eq in E0. by subst k0.
           ++ by apply IH3.
      * intros k0 Hn. cbn [dict_get]. destruct (String.eqb k0 k) eqn:E0.
        -- apply String.eqb_eq in E0. subst k0. exfalso. apply Hn. by left.
        -- apply IH4. intros Hin. apply Hn. by right.
Qed.

(** ** Printing and listing quotes *)

(** [_totals] recomputes the totals that a consistent quote stores. *)
Lemma totals_of_stored (q : doc) :
  totals_ok q ->
  exists sub igv tot,
    app._totals (dget_or q "items" (VList [])) (Py.truthy (dget q "require_invoice")) app.IGV_RATE
      = Ok (sub, igv, tot) /\
    q !! "subtotal" = Some sub /\ q !! "igv" = Some igv /\ q !! "total" = Some tot.
Proof.
  intros (its & ri & sub & igv & tot & Hi & Hits & Hri & _ & Hs & Hg & Ht & Es & Eg & Et).
  destruct (totals_spec its ri) as (sub' & igv' & tot' & Ht' & Es' & Eg' & Et' & _).
  { eapply Forall_impl; [exact Hits|]. apply line_total_ok_wf. }
  assert (sub' = sub) as -> by congruence.
  assert (igv' = igv) as -> by congruence.
  assert (tot' = tot) as -> by congruence.
  exists sub, igv, tot. by rewrite (dget_or_Some _ _ _ _ Hi), (dget_Some _ _ _ Hri).
Qed.

Lemma meta_get_wf (q : doc) k : meta_wf q -> exists v, app.meta_get q k = Ok v.
Proof.
  intros [kvs H]. unfold app.meta_get. rewrite H.
  unfold por. destruct (Py.truthy (VDict kvs)); simpl; eauto.
Qed.

(** X24. [quote_print]. An unknown id flashes the not-found message and
    writes nothing. For a stored quote whose totals are consistent with its
    items, the totals recomputed for the page are the stored ones: the quote
    is printed as it is stored, and the store is left as it was. The client
    printed is the client the quote refers to when the store has it, and
    otherwise a client made of the name the quote carries. *)
Theorem quote_print_totals (quote_id : Z) (w : world) :
  (TinyDB.get "quotes" (TinyDB.field_eq "id" (VInt quote_id)) (store w) = None ->
   app.quote_print quote_id w = (Ok (Redirect "dashboard" []), flashed QuoteNotFound w))
  /\
  (forall q,
     TinyDB.get "quotes" (TinyDB.field_eq "id" (VInt quote_id)) (store w) = Some q ->
     totals_ok q -> meta_wf q ->
     exists c v,
       app.quote_print quote_id w =
         (Ok (Render "quote_print.html"
                [("quote", doc_value q); ("client", doc_value c); ("vehicle", doc_value v)]), w) /\
       (forall name,
          TinyDB.get "clients" (TinyDB.field_eq "id" (por (dget q "client_id") (VInt 0))) (store w)
            = None ->
          dget q "client_name" = VStr name -> name <> "" ->
          c = mkdoc [("full_name", VStr name)]) /\
       (forall c0,
          TinyDB.get "clients" (TinyDB.field_eq "id" (por (dget q "client_id") (VInt 0))) (store w)
            = Some c0 ->
          c = c0)).
Proof.
  split.
  - intros Hnone. unfold app.quote_print.
    unfold bind at 1, app.get_ at 1, db_read at 1. by rewrite Hnone.
  - intros q Hq Hok Hmeta.
    destruct (totals_of_stored q Hok) as (sub & igv & tot & Ht & Hs & Hg & Htot).
    destruct (meta_get_wf q "marca" Hmeta) as [brand Hbrand].
    destruct (meta_get_wf q "modelo" Hmeta) as [model Hmodel].
    assert (Hsame : <["total" := tot]> (<["igv" := igv]> (<["subtotal" := sub]> q)) = q).
    { by rewrite (insert_id q "subtotal"), (insert_id q "igv"), (insert_id q "total"). }
    unfold app.quote_print.
    unfold bind at 1, app.get_ at 1, db_read at 1. rewrite Hq.
    unfold bind at 1, lift at 1. rewrite Ht. rewrite Hsame.
    unfold bind at 1, app.get_ at 1, db_read at 1.
    unfold bind at 1, app.get_ at 1, db_read at 1.
    unfold bind at 1, lift at 1. rewrite Hbrand, Hmodel. cbn [rbind].
    assert (Hc : forall c : doc,
      c = (if (size (default ∅ (TinyDB.get "clients"
                 (TinyDB.field_eq "id" (por (dget q "client_id") (VInt 0))) (store w))) =? 0)%nat
              && Py.truthy (dget q "client_name")
           then mkdoc [("full_name", dget q "client_name")]
           else default ∅ (TinyDB.get "clients"
                  (TinyDB.field_eq "id" (por (dget q "client_id") (VInt 0))) (store w))) ->
      (forall name,
         TinyDB.get "clients" (TinyDB.field_eq "id" (por (dget q "client_id") (VInt 0))) (store w)
           = None ->
         dget q "client_name" = VStr name -> name <> "" ->
         c = mkdoc [("full_name", VStr name)]) /\
      (forall c0,
         TinyDB.get "clients" (TinyDB.field_eq "id" (por (dget q "client_id") (VInt 0))) (store w)
           = Some c0 ->
         c = c0)).
    { intros c ->. split.
      * intros name Hnone Hname Hne. rewrite Hnone, Hname. simpl default.
        rewrite map_size_empty. cbn [Nat.eqb andb Py.truthy].
        apply String.eqb_neq in Hne. by rewrite Hne.
      * intros c0 Hc0. rewrite Hc0. simpl default.
        unfold TinyDB.get in Hc0. apply find_some in Hc0 as [_ Hm].
        by rewrite (field_eq_nonempty _ _ _ Hm). }
    match goal with
    | |- context [if ?b then Ok _ else Ok _] => destruct b
    end; (eexists _, _; split; [reflexivity|by apply Hc]).
Qed.

Lemma add_amounts a b :
  is_amount a -> is_amount b -> exists c, Py.add a b = Ok c /\ is_amount c.
Proof.
  intros [->|[x ->]] [->|[y ->]]; cbn [Py.add];
    change (Py.float_of_Z 0) with (Ok 0%float); cbn [rbind];
    eexists; (split; [reflexivity|]); first [by left | right; eauto].
Qed.

Lemma round2_amount a : is_amount a -> exists c, Py.round2 a = Ok c /\ is_amount c.
Proof.
  intros [->|[x ->]]; cbn [Py.round2]; eexists; (split; [reflexivity|]);
    first [by left | right; eauto].
Qed.

Lemma mul_float_amount a r : is_amount a -> exists c, Py.mul_float a r = Ok c /\ is_amount c.
Proof.
  intros [->|[x ->]]; cbn [Py.mul_float];
    change (Py.float_of_Z 0) with (Ok 0%float); cbn [rbind];
    eexists; (split; [reflexivity|]); right; eauto.
Qed.

Lemma line_amount_wf it : item_wf it -> exists x, app.line_amount it = Ok x /\ is_amount x.
Proof.
  intros (d & q & p & t & ->). unfold app.line_amount.
  cbn [item_get dict_get String.eqb Ascii.eqb Bool.eqb default from_option rbind id].
  unfold por. destruct (Py.truthy (VFloat q)), (Py.truthy (VFloat p)); cbn [Py.mul];
    change (Py.float_of_Z 0) with (Ok 0%float); cbn [rbind];
    eexists; (split; [reflexivity|]); first [by left | right; eauto].
Qed.

Lemma line_amounts_wf its : forall acc,
  Forall item_wf its -> is_amount acc ->
  exists s,
    fold_left (fun acc i => let* a := acc in
                            let* x := app.line_amount i in Py.add a x) its (Ok acc) = Ok s /\
    is_amount s.
Proof.
  induction its as [|it its IH]; intros acc H Hacc; [by exists acc|].
  apply Forall_cons in H as [Hit H]. cbn [fold_left rbind].
  destruct (line_amount_wf it Hit) as (x & -> & Hx). cbn [rbind].
  destruct (add_amounts acc x Hacc Hx) as (c & -> & Hc). by apply IH.
Qed.

(** A quote that has its three totals goes through the loop of
    [quotes_list] unchanged. *)
Lemma with_totals_stored (q : doc) : quote_wf q -> app.with_totals q = Ok q.
Proof.
  intros (_ & (its & Hi & Hwf) & (st & Hst & Ast) & (g & Hg & Ag) & (t & Ht & At)).
  unfold app.with_totals. rewrite (dget_or_Some _ _ _ _ Hi). cbn [iter rbind].
  unfold app.sum_line_amounts.
  destruct (line_amounts_wf its (VInt 0) Hwf) as (s & -> & Hs); [by left|]. cbn [rbind].
  destruct (round2_amount s Hs) as (s' & -> & _). cbn [rbind].
  rewrite (dget_or_Some _ _ _ _ Hst), (insert_id q "subtotal" st Hst).
  unfold subscript. rewrite Hst. cbn [rbind].
  destruct (mul_float_amount st (if Py.truthy (dget q "require_invoice")
                                 then app.IGV_RATE else 0%float) Ast) as (g0 & -> & Hg0).
  cbn [rbind]. destruct (round2_amount g0 Hg0) as (g1 & -> & _). cbn [rbind].
  rewrite (dget_or_Some _ _ _ _ Hg), (insert_id q "igv" g Hg). rewrite Hst, Hg. cbn [rbind].
  destruct (add_amounts st g Ast Ag) as (t0 & -> & Ht0). cbn [rbind].
  destruct (round2_amount t0 Ht0) as (t1 & -> & _). cbn [rbind].
  by rewrite (dget_or_Some _ _ _ _ Ht), (insert_id q "total" t Ht).
Qed.

(** X25. The list of quotes shows every quote of the store once, as it is
    stored (the totals a quote has are not replaced), newest first by
    [created_at], and leaves the store as it was. *)
Theorem quotes_list_page (w : world) :
  Forall quote_wf (TinyDB.rows (store w) "quotes") ->
  Forall timestamped (TinyDB.rows (store w) "quotes") ->
  exists qs,
    app.quotes_list w =
      (Ok (Render "quotes_list.html" [("quotes", VList (map doc_value qs))]), w) /\
    Permutation qs (TinyDB.rows (store w) "quotes") /\
    newest_first created_at_of qs.
Proof.
  intros Hwf Hts.
  destruct (sorted_newest_first app.created_at_key _ (timestamped_key _ Hts))
    as (r & Hr & Hperm & Hsorted).
  exists r. split; [|done].
  unfold app.quotes_list.
  unfold bind at 1, app.all_ at 1, db_read at 1, TinyDB.all.
  unfold bind at 1, lift at 1. rewrite (rmap_ok _ (fun q => q)).
  - rewrite map_id. unfold bind at 1, lift at 1. by rewrite Hr.
  - intros q Hq. apply with_totals_stored. rewrite Forall_forall in Hwf.
    apply Hwf. by apply list_elem_of_In.
Qed.

Lemma line_amount_priced it :
  item_wf it -> priced it -> app.line_amount it = Ok (line_product it).
Proof.
  intros (d & q & p & t & ->) (q' & p' & Hq & Hp & Tq & Tp).
  cbn in Hq, Hp. injection Hq as <-. injection Hp as <-.
  unfold app.line_amount, line_product.
  cbn [item_get field dict_get String.eqb Ascii.eqb Bool.eqb default from_option rbind id].
  unfold por. by rewrite Tq, Tp.
Qed.

Lemma line_amounts_products its : forall acc,
  Forall (fun it => item_wf it /\ priced it) its ->
  fold_left (fun acc i => let* a := acc in
                          let* x := app.line_amount i in Py.add a x) its acc =
  fold_left (fun acc v => let* a := acc in Py.add a v) (map line_product its) acc.
Proof.
  induction its as [|it its IH]; intros acc H; [done|].
  apply Forall_cons in H as [[Hit Hp] H]. simpl. rewrite <- IH by done. f_equal.
  rewrite (line_amount_priced it Hit Hp). by destruct acc.
Qed.

(** X26. The totals that [quotes_list] gives a quote stored without them:
    the subtotal is the rounded sum of the products [qty * unit_price], not
    rounded one by one (where [_totals] adds the rounded item totals); igv
    and total are [round(subtotal * rate, 2)] and [round(subtotal + igv,
    2)]. *)
Theorem quotes_list_fills_missing_totals (q : doc) (its : list value) (ri : Z) :
  q !! "items" = Some (VList its) ->
  Forall (fun it => item_wf it /\ priced it) its ->
  q !! "require_invoice" = Some (VInt ri) ->
  q !! "subtotal" = None -> q !! "igv" = None -> q !! "total" = None ->
  exists sub igv tot,
    app.with_totals q =
      Ok (<["total" := tot]> (<["igv" := igv]> (<["subtotal" := sub]> q))) /\
    spec_subtotal its = Ok sub /\
    igv_of sub app.IGV_RATE ri = Ok igv /\
    total_of sub igv = Ok tot.
Proof.
  intros Hi Hits Hri Hs Hg Ht.
  assert (Hwf : Forall item_wf its).
  { eapply Forall_impl; [exact Hits|]. by intros it [H _]. }
  unfold app.with_totals, spec_subtotal, igv_of, total_of, Py.sum.
  rewrite (dget_or_Some _ _ _ _ Hi). cbn [iter rbind].
  unfold app.sum_line_amounts.
  rewrite <- (line_amounts_products its (Ok (VInt 0)) Hits).
  destruct (line_amounts_wf its (VInt 0) Hwf) as (s & -> & As); [by left|]. cbn [rbind].
  destruct (round2_amount s As) as (sub & -> & Asub). cbn [rbind].
  assert (HN : forall (d : doc) k v, d !! k = None -> dget_or d k v = v).
  { intros d k v H. unfold dget_or. by rewrite H. }
  rewrite !(HN q "subtotal") by done.
  unfold subscript at 1. rewrite lookup_insert_eq. cbn [rbind].
  rewrite (dget_Some _ _ _ Hri). cbn [Py.truthy].
  assert ((if negb (ri =? 0) then app.IGV_RATE else 0%float) =
          (if ri =? 0 then 0%float else app.IGV_RATE)) as -> by (by destruct (ri =? 0)).
  destruct (mul_float_amount sub (if ri =? 0 then 0%float else app.IGV_RATE) Asub)
    as (g0 & Eg0 & Ag0). rewrite Eg0. cbn [rbind].
  destruct (round2_amount g0 Ag0) as (igv & Eg1 & Aigv). rewrite Eg1. cbn [rbind].
  rewrite !(HN _ "igv") by (by rewrite lookup_insert_ne).
  unfold subscript. rewrite lookup_insert_ne, !lookup_insert_eq by done. cbn [rbind].
  destruct (add_amounts sub igv Asub Aigv) as (t0 & Et0 & At0). rewrite Et0. cbn [rbind].
  destruct (round2_amount t0 At0) as (tot & Et1 & _). rewrite Et1. cbn [rbind].
  rewrite !(HN _ "total") by (by rewrite !lookup_insert_ne).
  exists sub, igv, tot. split; [done|]. split; [done|]. split.
  - rewrite Eg0. cbn [rbind]. exact Eg1.
  - rewrite Et0. cbn [rbind]. exact Et1.
Qed.

(** ** A quote without references *)

(** X27. A quote created from a form without item rows (the simple mode)
    is stored without client and vehicle, whatever ids the form carried, and
    [quote_to_job] then refuses it with the missing-association message and
    writes nothing. *)
Theorem simple_quote_is_not_converted clock (uid uid' : Z) (frm : form) (w : world)
    (n : Z) (a : float) :
  seq_inv (store w) n ->
  TinyDB.get "quotes" (TinyDB.field_eq "id" (VInt n)) (store w) = None ->
  app._parse_items_from_form frm = [] ->
  float_or_0 (form_get frm "amount") = Ok a ->
  exists w' q,
    app.quotes_create clock uid frm w = (Ok (Redirect "quote_print" [("quote_id", n)]), w') /\
    TinyDB.get "quotes" (TinyDB.field_eq "id" (VInt n)) (store w') = Some q /\
    q !! "client_id" = Some VNone /\ q !! "vehicle_id" = Some VNone /\
    app.quote_to_job clock uid' n w' =
      (Ok (Redirect "quote_print" [("quote_id", n)]), flashed MissingAssociation w').
Proof.
  intros Hinv Hnone Hitems Ha. unfold app.quotes_create. rewrite Hitems.
  unfold bind at 1. unfold bind at 1, lift at 1. rewrite Ha. unfold ret at 1.
  set (items := if Py.truthy (VFloat a) then _ else []).
  destruct (totals_spec items (if app.need_invoice frm then 1 else 0))
    as (sub & igv & tot & Ht & _).
  { subst items. destruct (Py.truthy (VFloat a)); repeat constructor.
    by eexists _, _, _, _. }
  unfold bind at 1, lift at 1. rewrite Ht.
  unfold bind at 1, app.utcnow_isoformat at 1.
  set (w1 := World (store w) (flashes w) (S (ticks w))).
  match goal with
  | |- context [app.insert "quotes" ?d] => set (d0 := d)
  end.
  rewrite (bind_ok _ _ _ _ _ (insert_spec "quotes" d0 w1 n Hinv)).
  eexists _, (<["id" := VInt n]> d0). split; [reflexivity|].
  assert (Hget : TinyDB.get "quotes" (TinyDB.field_eq "id" (VInt n))
                   (TinyDB.insert "quotes" (<["id" := VInt n]> d0) (bump n (store w)))
                 = Some (<["id" := VInt n]> d0)).
  { unfold TinyDB.get. rewrite rows_insert, decide_True by done.
    rewrite find_app_None by (by apply bump_keeps_id).
    by rewrite (has_id_match _ n (lookup_insert_eq _ _ _)). }
  assert (Hc : (<["id" := VInt n]> d0) !! "client_id" = Some VNone) by (subst d0; lookup_doc).
  assert (Hv : (<["id" := VInt n]> d0) !! "vehicle_id" = Some VNone) by (subst d0; lookup_doc).
  subst w1. cbn [store flashes ticks].
  split; [exact Hget|]. split; [exact Hc|]. split; [exact Hv|].
  unfold app.quote_to_job. unfold bind at 1, app.get_ at 1, db_read at 1.
  cbn [store]. rewrite Hget. by rewrite (dget_Some _ _ _ Hv).
Qed.

(** ** The list of clients *)

Lemma plain_ref_eq k k' : plain_ref k -> plain_ref k' -> Py.eq k k' = true -> k = k'.
Proof.
  intros [->|[i ->]] [->|[j ->]]; simpl; try done. by intros ->%Z.eqb_eq.
Qed.

Lemma plain_ref_eq_sym k k' : plain_ref k -> plain_ref k' -> Py.eq k k' = Py.eq k' k.
Proof.
  intros [->|[i ->]] [->|[j ->]]; simpl; try done. apply Z.eqb_sym.
Qed.

Lemma plain_ref_eq_refl k : plain_ref k -> Py.eq k k = true.
Proof. intros [->|[i ->]]; simpl; [done|apply Z.eqb_refl]. Qed.

Lemma hash_key_plain k : plain_ref k -> hash_key k = Ok k.
Proof. by intros [->|[i ->]]. Qed.

Lemma counter_get_set (m : list (value * Z)) k n k' :
  Forall (fun kn => plain_ref (fst kn)) m -> plain_ref k -> plain_ref k' ->
  counter_get (counter_set m k n) k' = if Py.eq k k' then n else counter_get m k'.
Proof.
  intros Hm Hk Hk'. induction Hm as [|[k0 n0] m Hk0 Hm IH]; simpl; [done|].
  simpl in Hk0. destruct (Py.eq k0 k) eqn:E.
  - apply (plain_ref_eq _ _ Hk0 Hk) in E. subst k0. simpl. by destruct (Py.eq k k').
  - simpl. rewrite IH. destruct (Py.eq k0 k') eqn:E'; [|done].
    apply (plain_ref_eq _ _ Hk0 Hk') in E'. subst k0.
    by rewrite (plain_ref_eq_sym k k' Hk Hk'), E.
Qed.

Lemma counter_set_plain (m : list (value * Z)) k n :
  Forall (fun kn => plain_ref (fst kn)) m -> plain_ref k ->
  Forall (fun kn => plain_ref (fst kn)) (counter_set m k n).
Proof.
  intros Hm Hk. induction Hm as [|[k0 n0] m Hk0 Hm IH]; simpl.
  - apply Forall_cons. split; [exact Hk|constructor].
  - destruct (Py.eq k0 k); apply Forall_cons; (split; [exact Hk0|assumption]).
Qed.

Lemma count_vehicles_spec (vs : docs) : forall m,
  Forall (fun v => plain_ref (dget v "client_id")) vs ->
  Forall (fun kn => plain_ref (fst kn)) m ->
  exists m',
    fold_left (fun acc v =>
                 let* m := acc in
                 let* k := hash_key (dget v "client_id") in
                 Ok (counter_set m k (counter_get m k + 1))) vs (Ok m) = Ok m' /\
    forall k, plain_ref k -> counter_get m' k = counter_get m k + vehicles_of_client vs k.
Proof.
  induction vs as [|v vs IH]; intros m Hvs Hm.
  - exists m. split; [done|]. intros k _. unfold vehicles_of_client. simpl. lia.
  - apply Forall_cons in Hvs as [Hv Hvs]. cbn [fold_left rbind].
    rewrite (hash_key_plain _ Hv). cbn [rbind].
    destruct (IH (counter_set m (dget v "client_id")
                    (counter_get m (dget v "client_id") + 1)) Hvs) as (m' & Hm' & Hget).
    { by apply counter_set_plain. }
    exists m'. split; [done|]. intros k Hk. rewrite (Hget k Hk).
    rewrite counter_get_set by done. unfold vehicles_of_client. cbn [List.filter].
    destruct (Py.eq (dget v "client_id") k) eqn:E.
    + apply (plain_ref_eq _ _ Hv Hk) in E. subst k. simpl length. lia.
    + lia.
Qed.

Lemma matches_any_texts q (vs : list value) :
  Forall (fun v => exists s, v = VStr s) vs ->
  matches_any q vs = Ok (existsb (fun v => Py.contains q (Py.lower (text_of v))) vs).
Proof.
  induction 1 as [|v vs [s ->] _ IH]; simpl; [done|].
  destruct (Py.contains q (Py.lower s)); [done|]. exact IH.
Qed.

Lemma por_text v : text_or_nothing v -> por v (VStr "") = VStr (text_of v).
Proof.
  intros [[s ->]|H]; unfold por.
  - simpl. by destruct s.
  - rewrite H. destruct v as [| | |s| |]; try done.
    simpl in H. apply negb_false_iff, String.eqb_eq in H. by subst s.
Qed.

Lemma rfilter_ok {A} (test : A -> result bool) (b : A -> bool) l :
  (forall x, In x l -> test x = Ok (b x)) -> rfilter test l = Ok (List.filter b l).
Proof.
  induction l as [|x l IH]; intros H; simpl; [done|].
  rewrite H by (by left). cbn [rbind]. rewrite IH by (intros y Hy; apply H; by right).
  cbn [rbind]. by destruct (b x).
Qed.

Lemma dget_or_dget (d : doc) k s : dget_or d k (VStr "") = VStr s -> text_of (dget d k) = s.
Proof. unfold dget_or, dget. destruct (d !! k); simpl; [by intros ->|by intros [= <-]]. Qed.

Lemma client_search q (c : doc) :
  searchable c ->
  matches_any q [dget_or c "full_name" (VStr "");
                 por (dget_or c "phone" (VStr "")) (VStr "");
                 por (dget_or c "email" (VStr "")) (VStr "")] = Ok (client_matches q c).
Proof.
  intros ([s Hs] & Hp & He).
  assert (Hor : forall k, text_or_nothing (dget c k) ->
            por (dget_or c k (VStr "")) (VStr "") = VStr (text_of (dget c k))).
  { intros k H. unfold dget_or, dget in *. destruct (c !! k) as [v|]; simpl in *; [|done].
    by apply por_text. }
  rewrite (Hor "phone" Hp), (Hor "email" He), Hs.
  rewrite matches_any_texts by (repeat constructor; eauto).
  unfold client_matches. cbn [existsb text_of]. by rewrite (dget_or_dget _ _ _ Hs).
Qed.

(** X28. The list of clients shows the clients whose name, phone or email
    contains the search term, case ignored (all of them when the term is
    blank), each once, with the number of vehicles that refer to it, in the
    order of their names in lower case. The store is left as it was. *)
Theorem clients_list_page (args : form) (w : world) :
  Forall searchable (TinyDB.rows (store w) "clients") ->
  Forall has_id (TinyDB.rows (store w) "clients") ->
  Forall (fun v => plain_ref (dget v "client_id")) (TinyDB.rows (store w) "vehicles") ->
  exists cs,
    app.clients_list args w =
      (Ok (Render "clients_list.html"
             [("clients", VList (map doc_value cs)); ("q", VStr (search_term args))]), w) /\
    Permutation cs
      (map (with_vehicles_count (TinyDB.rows (store w) "vehicles"))
           (if String.eqb (search_term args) "" then TinyDB.rows (store w) "clients"
            else List.filter (client_matches (search_term args))
                             (TinyDB.rows (store w) "clients"))) /\
    StronglySorted (fun a b => String.le (name_key a) (name_key b)) cs.
Proof.
  intros Hs Hids Hvs.
  set (q := search_term args).
  set (found := if String.eqb q "" then TinyDB.rows (store w) "clients"
                else List.filter (client_matches q) (TinyDB.rows (store w) "clients")).
  assert (Hfound : forall c, In c found -> In c (TinyDB.rows (store w) "clients")).
  { intros c. subst found. destruct (String.eqb q ""); [done|]. by intros [H _]%filter_In. }
  assert (Hfilter :
    (if negb (String.eqb q "") then
       rfilter (fun c => matches_any q [dget_or c "full_name" (VStr "");
                                        por (dget_or c "phone" (VStr "")) (VStr "");
                                        por (dget_or c "email" (VStr "")) (VStr "")])
               (TinyDB.rows (store w) "clients")
     else Ok (TinyDB.rows (store w) "clients")) = Ok found).
  { subst found. destruct (String.eqb q ""); cbn [negb]; [done|].
    apply rfilter_ok. intros c Hc. apply client_search.
    rewrite Forall_forall in Hs. apply Hs. by apply list_elem_of_In. }
  destruct (count_vehicles_spec (TinyDB.rows (store w) "vehicles") [] Hvs) as (m & Hm & Hget);
    [constructor|].
  set (annotate := with_vehicles_count (TinyDB.rows (store w) "vehicles")).
  assert (Hann :
    rmap (fun c : doc =>
            let* i := subscript c "id" in
            let* k := hash_key i in
            Ok (<["vehicles_count" := VInt (counter_get m k)]> c)) found
    = Ok (map annotate found)).
  { apply rmap_ok. intros c Hc. rewrite Forall_forall in Hids.
    destruct (Hids c) as [i Hi]; [by apply list_elem_of_In, Hfound|].
    unfold subscript. rewrite Hi. cbn [rbind hash_key].
    subst annotate. unfold with_vehicles_count. rewrite (dget_Some _ _ _ Hi).
    rewrite Hget by (right; eauto). done. }
  destruct (sorted_ascending app.full_name_key (map annotate found)) as (r & Hr & Hperm & Hsorted).
  { intros c' Hc'. apply in_map_iff in Hc' as (c & <- & Hc).
    rewrite Forall_forall in Hs.
    destruct (Hs c) as ([s Hname] & _); [by apply list_elem_of_In, Hfound|].
    exists (Py.lower s). unfold app.full_name_key.
    subst annotate. unfold with_vehicles_count, dget_or in *.
    rewrite lookup_insert_ne by done. by rewrite Hname. }
  exists r. split; [|done].
  unfold app.clients_list. fold q.
  unfold bind at 1, app.all_ at 1, db_read at 1, TinyDB.all.
  unfold bind at 1, lift at 1. rewrite Hfilter.
  unfold bind at 1, app.all_ at 1, db_read at 1, TinyDB.all.
  unfold bind at 1, lift at 1. unfold app.count_vehicles. rewrite Hm.
  unfold bind at 1, lift at 1. rewrite Hann.
  unfold bind at 1, lift at 1. by rewrite Hr.
Qed.

(** ** A new vehicle *)

(** X29. [vehicles_new] with a plate that no vehicle has. A form without
    [client_id] is a bad request and nothing is written. Otherwise one
    vehicle is inserted, with the plate in upper case without surrounding
    white space (blank or not: the plate is not asked to be there), the
    client id of the form (whether the client exists or not) and the year,
    [None] for 0 or none. *)
Theorem vehicles_new_creates (frm : form) (w : world) (p : string) :
  Forall named (TinyDB.rows (store w) "clients") ->
  form_get frm "plate" = Some p ->
  Forall (fun v => Py.eq (dget v "plate") (VStr (plate_norm p)) = false)
         (TinyDB.rows (store w) "vehicles") ->
  (form_get frm "client_id" = None ->
   app.vehicles_new POST frm w = (Raise BadRequest, w))
  /\
  (forall n s cid y,
     seq_inv (store w) n ->
     form_get frm "client_id" = Some s -> Py.int_of_string s = Ok cid ->
     form_int_or_0 frm "year" = Ok y ->
     exists w' v,
       app.vehicles_new POST frm w = (Ok (Redirect "vehicles_list" []), w') /\
       TinyDB.rows (store w') "vehicles" = TinyDB.rows (store w) "vehicles" ++ [v] /\
       v !! "id" = Some (VInt n) /\
       v !! "client_id" = Some (VInt cid) /\
       v !! "plate" = Some (VStr (plate_norm p)) /\
       v !! "year" = Some (if y =? 0 then VNone else VInt y) /\
       flashes w' = flashes w ++ [("Vehículo creado", "success")] /\
       (forall t, t <> "vehicles" -> t <> "seq" ->
          TinyDB.rows (store w') t = TinyDB.rows (store w) t)).
Proof.
  intros Hnamed Hp Hfree. destruct (sorted_clients_ok w Hnamed) as [cs Hcs].
  assert (Hstart : forall k : string -> M response,
    (plate <- lift (let* s := form_item frm "plate" in Ok (Py.strip (Py.upper s))) ;;
     vs <- app.all_ "vehicles" ;;
     if app.plate_taken plate vs then
       _ <- flash "Ya existe un vehículo con esa placa" "danger" ;;
       ret (Redirect "vehicles_new" [])
     else k plate) w = k (plate_norm p) w).
  { intros k. unfold bind at 1, lift at 1, form_item. rewrite Hp. cbn [rbind].
    fold (plate_norm p).
    unfold bind at 1, app.all_ at 1, db_read at 1, TinyDB.all.
    by rewrite (plate_taken_false _ _ Hfree). }
  split.
  - intros Hnone. unfold app.vehicles_new. rewrite (bind_ok _ _ _ _ _ Hcs).
    rewrite (Hstart (fun plate =>
      d <- lift (app.vehicle_fields frm plate) ;;
      _ <- app.insert "vehicles" d ;;
      _ <- flash "Vehículo creado" "success" ;;
      ret (Redirect "vehicles_list" []))).
    unfold bind, lift, app.vehicle_fields, form_item. by rewrite Hnone.
  - intros n s cid y Hinv Hs Hcid Hy. unfold app.vehicles_new.
    rewrite (bind_ok _ _ _ _ _ Hcs).
    rewrite (Hstart (fun plate =>
      d <- lift (app.vehicle_fields frm plate) ;;
      _ <- app.insert "vehicles" d ;;
      _ <- flash "Vehículo creado" "success" ;;
      ret (Redirect "vehicles_list" []))).
    unfold bind at 1, lift at 1, app.vehicle_fields, form_item, app.form_year.
    rewrite Hs. cbn [rbind]. rewrite Hcid. cbn [rbind]. rewrite Hy. cbn [rbind].
    match goal with
    | |- context [app.insert "vehicles" ?d] => set (d0 := d)
    end.
    rewrite (bind_ok _ _ _ _ _ (insert_spec "vehicles" d0 w n Hinv)).
    eexists _, (<["id" := VInt n]> d0). split; [reflexivity|]. cbn [store flashes ticks].
    split; [rewrite rows_insert, decide_True by done; by rewrite bump_rows|].
    split; [apply lookup_insert_eq|].
    subst d0. do 3 (split; [lookup_doc|]). split; [reflexivity|].
    intros t H1 H2. rewrite rows_insert, decide_False by done. by rewrite bump_rows.
Qed.

(** ** Sorting by a tuple *)

Section SortBy_facts.
Context {K A : Type} (lt : K -> K -> result bool) (le : K -> K -> Prop) (good : K -> Prop).
Hypothesis lt_le : forall a b, good a -> good b ->
  exists r, lt a b = Ok r /\ (if r then le a b else le b a).
Hypothesis le_trans : forall a b c, le a b -> le b c -> le a c.

Let key_le (x y : K * A) : Prop := le (fst x) (fst y).
Let keyed (l : list (K * A)) : Prop := Forall (fun x => good (fst x)) l.

Lemma insert_by_sorted (x : K * A) (l : list (K * A)) :
  good (fst x) -> keyed l ->
  exists r,
    Py.insert_by lt x l = Ok r /\ Permutation r (x :: l) /\ keyed r /\
    (StronglySorted key_le l -> StronglySorted key_le r).
Proof using lt_le le_trans.
  intros Hx Hl. induction l as [|y l IH].
  - exists [x]. simpl. split; [done|]. split; [done|]. split.
    + by repeat constructor.
    + intros _. repeat constructor.
  - apply Forall_cons in Hl as [Hy Hl]. destruct (IH Hl) as (r & Hr & Hp & Hk & Hsorted).
    simpl. destruct (lt_le (fst y) (fst x) Hy Hx) as ([] & -> & Hle); cbn [rbind].
    + rewrite Hr. cbn [rbind]. exists (y :: r). split; [done|]. split; [|split].
      * rewrite Hp. apply perm_swap.
      * by constructor.
      * intros Hss. apply StronglySorted_inv in Hss as [Hss Hys].
        constructor; [by apply Hsorted|]. rewrite Hp. by constructor.
    + exists (x :: y :: l). split; [done|]. split; [done|]. split.
      * by repeat constructor.
      * intros Hss. constructor; [done|]. constructor; [done|].
        apply StronglySorted_inv in Hss as [_ Hys].
        eapply Forall_impl; [exact Hys|]. intros z Hz. by apply (le_trans _ (fst y)).
Qed.

Lemma sort_by_sorted (l : list (K * A)) :
  keyed l ->
  exists r, Py.sort_by lt l = Ok r /\ Permutation r l /\ keyed r /\ StronglySorted key_le r.
Proof using lt_le le_trans.
  intros Hl. induction l as [|x l IH].
  - exists []. repeat split; auto; constructor.
  - apply Forall_cons in Hl as [Hx Hl]. destruct (IH Hl) as (r & Hr & Hp & Hk & Hs).
    destruct (insert_by_sorted x r Hx Hk) as (r' & Hr' & Hp' & Hk' & Hs').
    exists r'. simpl. rewrite Hr. cbn [rbind]. split; [done|]. split; [|auto].
    rewrite Hp'. by constructor.
Qed.

(** [sorted(l, key=key)]: a permutation of [l], in the order of the keys. *)
Lemma sorted_by_sorted (key : A -> result K) (kof : A -> K) (l : list A) :
  (forall x, In x l -> key x = Ok (kof x) /\ good (kof x)) ->
  exists r, Py.sorted_by lt key l = Ok r /\ Permutation r l /\
            StronglySorted (fun a b => le (kof a) (kof b)) r.
Proof using lt_le le_trans.
  intros H. unfold Py.sorted_by.
  rewrite (rmap_ok _ (fun x => (kof x, x))).
  2:{ intros x Hx. destruct (H x Hx) as [-> _]. done. }
  cbn [rbind].
  destruct (sort_by_sorted (map (fun x => (kof x, x)) l)) as (r & Hr & Hp & _ & Hs).
  { apply Forall_forall. intros p Hp. apply list_elem_of_In, in_map_iff in Hp as (x & <- & Hx).
    by apply H. }
  rewrite Hr. cbn [rbind]. exists (map snd r). split; [done|]. split.
  - rewrite Hp, map_map. simpl. by rewrite map_id.
  - assert (Hd : Forall (fun p => fst p = kof (snd p)) r).
    { rewrite Hp. apply Forall_forall. intros p Hin.
      by apply list_elem_of_In, in_map_iff in Hin as (x & <- & _). }
    clear -Hs Hd. induction Hs as [|p r Hs IH Hp]; simpl; [constructor|].
    apply Forall_cons in Hd as [Hp0 Hd]. constructor; [by apply IH|].
    apply Forall_forall. intros b Hb. apply list_elem_of_In, in_map_iff in Hb as (p' & <- & Hin).
    rewrite Forall_forall in Hp, Hd. apply list_elem_of_In in Hin.
    specialize (Hp p' Hin). specialize (Hd p' Hin).
    unfold key_le in Hp. by rewrite Hp0, Hd in Hp.
Qed.
End SortBy_facts.

Lemma pair_le_trans a b c : pair_le a b -> pair_le b c -> pair_le a c.
Proof.
  intros [H1 H2] [H3 H4]. split; [by etrans|].
  intros E. assert (fst a = fst b) as Eab.
  { apply (anti_symm String.le); [done|]. by rewrite E. }
  etrans; [by apply H2|]. apply H4. congruence.
Qed.

Lemma ltb_le s t : if String.ltb s t then String.le s t else String.le t s.
Proof.
  destruct (String.ltb s t) eqn:E; [by apply ltb_true_le | by apply ltb_false_le].
Qed.

(** [lt_pair] on two pairs of strs. *)
Lemma lt_pair_strs (a b : string * string) :
  exists r, Py.lt_pair (VStr (fst a), VStr (snd a)) (VStr (fst b), VStr (snd b)) = Ok r /\
            (if r then pair_le a b else pair_le b a).
Proof.
  destruct a as [a1 a2], b as [b1 b2]. unfold Py.lt_pair, Py.same, pair_le.
  cbn [fst snd andb Py.eq rbind Py.lt].
  destruct (String.eqb a1 b1) eqn:E1.
  - apply String.eqb_eq in E1. subst b1. cbn [rbind].
    destruct (String.eqb a2 b2) eqn:E2.
    + apply String.eqb_eq in E2. subst b2. eexists. split; [reflexivity|]. done.
    + eexists. split; [reflexivity|]. pose proof (ltb_le a2 b2) as H.
      destruct (String.ltb a2 b2); done.
  - apply String.eqb_neq in E1. eexists. split; [reflexivity|].
    pose proof (ltb_le a1 b1) as H. destruct (String.ltb a1 b1); (split; [done|]); congruence.
Qed.

(** ** The list of vehicles *)

Lemma client_of_named (db : storage) (v : doc) :
  Forall named (TinyDB.rows db "clients") -> named (client_of db v).
Proof.
  intros H. unfold client_of, TinyDB.get.
  destruct (List.find _ _) as [c|] eqn:E; simpl.
  - apply find_some in E as [Hin _]. rewrite Forall_forall in H.
    apply H. by apply list_elem_of_In.
  - by exists "".
Qed.

Lemma with_client_name_fields (db : storage) (v : doc) :
  Forall named (TinyDB.rows db "clients") -> listable v ->
  exists p n b m,
    dget_or (with_client_name db v) "plate" (VStr "") = VStr p /\
    dget_or (with_client_name db v) "client_name" (VStr "") = VStr n /\
    dget_or (with_client_name db v) "brand" (VStr "") = VStr b /\
    dget_or (with_client_name db v) "model" (VStr "") = VStr m.
Proof.
  intros Hc ([p Hp] & [b Hb] & [m Hm]). destruct (client_of_named db v Hc) as [n Hn].
  exists p, n, b, m. unfold with_client_name, dget_or in *.
  rewrite lookup_insert_eq, !lookup_insert_ne by done. simpl. by rewrite Hn.
Qed.

Lemma vehicle_search q (v : doc) p n b m :
  dget_or v "plate" (VStr "") = VStr p ->
  dget_or v "client_name" (VStr "") = VStr n ->
  dget_or v "brand" (VStr "") = VStr b ->
  dget_or v "model" (VStr "") = VStr m ->
  matches_any q [dget_or v "plate" (VStr ""); dget_or v "client_name" (VStr "");
                 dget_or v "brand" (VStr ""); dget_or v "model" (VStr "")]
  = Ok (vehicle_matches q v).
Proof.
  intros Hp Hn Hb Hm. rewrite Hp, Hn, Hb, Hm.
  rewrite matches_any_texts by (repeat constructor; eauto).
  unfold vehicle_matches. cbn [existsb text_of].
  by rewrite (dget_or_dget _ _ _ Hp), (dget_or_dget _ _ _ Hn),
    (dget_or_dget _ _ _ Hb), (dget_or_dget _ _ _ Hm).
Qed.

(** X30. The list of vehicles shows the vehicles, each with the name of
    its client, whose plate, client name, brand or model contains the search
    term, case ignored (all of them when the term is blank), each once, in
    the order of their plates and, for equal plates, of their client names.
    The store is left as it was. *)
Theorem vehicles_list_page (args : form) (w : world) :
  Forall listable (TinyDB.rows (store w) "vehicles") ->
  Forall named (TinyDB.rows (store w) "clients") ->
  exists vs,
    app.vehicles_list args w =
      (Ok (Render "vehicles_list.html"
             [("vehicles", VList (map doc_value vs)); ("q", VStr (search_term args))]), w) /\
    Permutation vs
      (if String.eqb (search_term args) ""
       then map (with_client_name (store w)) (TinyDB.rows (store w) "vehicles")
       else List.filter (vehicle_matches (search_term args))
              (map (with_client_name (store w)) (TinyDB.rows (store w) "vehicles"))) /\
    StronglySorted (fun a b => pair_le (plate_name a) (plate_name b)) vs.
Proof.
  intros Hvs Hcs.
  set (q := search_term args).
  set (all := map (with_client_name (store w)) (TinyDB.rows (store w) "vehicles")).
  set (found := if String.eqb q "" then all else List.filter (vehicle_matches q) all).
  assert (Hfields : forall v, In v all ->
            exists p n b m,
              dget_or v "plate" (VStr "") = VStr p /\
              dget_or v "client_name" (VStr "") = VStr n /\
              dget_or v "brand" (VStr "") = VStr b /\
              dget_or v "model" (VStr "") = VStr m).
  { intros v' Hv'. apply in_map_iff in Hv' as (v & <- & Hv).
    apply with_client_name_fields; [done|]. rewrite Forall_forall in Hvs.
    apply Hvs. by apply list_elem_of_In. }
  assert (Hfound : forall v, In v found -> In v all).
  { intros v. subst found. destruct (String.eqb q ""); [done|]. by intros [H _]%filter_In. }
  assert (Hfilter :
    (if negb (String.eqb q "") then
       rfilter (fun v => matches_any q [dget_or v "plate" (VStr "");
                                        dget_or v "client_name" (VStr "");
                                        dget_or v "brand" (VStr "");
                                        dget_or v "model" (VStr "")]) all
     else Ok all) = Ok found).
  { subst found. destruct (String.eqb q ""); cbn [negb]; [done|].
    apply rfilter_ok. intros v Hv.
    destruct (Hfields v Hv) as (p & n & b & m & Hp & Hn & Hb & Hm).
    by apply (vehicle_search q v p n b m). }
  destruct (sorted_by_sorted Py.lt_pair
              (fun a b => pair_le (text_of (fst a), text_of (snd a))
                                  (text_of (fst b), text_of (snd b)))
              (fun k => exists p n, k = (VStr p, VStr n))
              (A := doc))
    with (key := app.plate_name_key)
         (kof := fun v : doc => (dget_or v "plate" (VStr ""), dget_or v "client_name" (VStr "")))
         (l := found)
    as (r & Hr & Hperm & Hsorted).
  { intros a b (p1 & n1 & ->) (p2 & n2 & ->). apply (lt_pair_strs (p1, n1) (p2, n2)). }
  { intros a b c. apply pair_le_trans. }
  { intros v Hv. split; [done|].
    destruct (Hfields v (Hfound v Hv)) as (p & n & _ & _ & -> & -> & _). eauto. }
  exists r. split; [|split; [done|]].
  - unfold app.vehicles_list. fold q.
    unfold bind at 1, app.all_ at 1, db_read at 1, TinyDB.all.
    rewrite (bind_ok _ _ _ _ _ (collect_pure _ (with_client_name (store w)) _ w
               (fun v _ => eq_refl))).
    fold all. unfold bind at 1, lift at 1. rewrite Hfilter.
    unfold bind at 1, lift at 1. by rewrite Hr.
  - assert (Hin : forall v, In v r -> In v all).
    { intros v Hv. apply Hfound. apply list_elem_of_In. rewrite <- Hperm.
      by apply list_elem_of_In. }
    clear -Hsorted Hin Hfields. induction Hsorted as [|a r Hs IH Ha]; [constructor|].
    constructor.
    + apply IH. intros v Hv. apply Hin. by right.
    + apply Forall_forall. intros b Hb. rewrite Forall_forall in Ha. specialize (Ha b Hb).
      cbn [fst snd] in Ha. unfold plate_name.
      destruct (Hfields a) as (p1 & n1 & _ & _ & Hp1 & Hn1 & _); [apply Hin; by left|].
      destruct (Hfields b) as (p2 & n2 & _ & _ & Hp2 & Hn2 & _);
        [apply Hin; right; by apply list_elem_of_In|].
      rewrite Hp1, Hn1, Hp2, Hn2 in Ha. cbn [text_of] in Ha.
      by rewrite (dget_or_dget _ _ _ Hp1), (dget_or_dget _ _ _ Hn1),
        (dget_or_dget _ _ _ Hp2), (dget_or_dget _ _ _ Hn2).
Qed.

